(** * EDA board run control (eda/device.c): a shallow embedding

    The functions of [src/eda/device.c] that drive a run are embedded as
    computations in a small state monad over a [World]: the device context
    [*ctx], the global cancellation flag [g_state], the memory of the cycle
    buffer, and the history of the calls made to the outside (FPGA register
    interface, libc, sockets).  They are [new_device], [device_free],
    [device_boot_rfm], [device_configure_dif], [device_initialize] with its
    four steps, [device_start] with its three steps, [device_loop] in both
    trigger modes, [device_daq_send_dif], [device_stop] and
    [device_stop_loop].  [device_configure] (the loading of the tables) and
    [give_file_to_server] (never called) only talk to libc: they are
    embedded apart, over a [Host] with a history of its own.

    What the outside answers is not under the program's control: it is an
    oracle [Env] giving, for the n-th interaction, the answer to the call
    made and whether SIGINT is delivered just before it.  Every call to the
    outside and every read of [g_state] is an interaction, so that the
    signal can fall between any two of them.  Unbounded C loops take a
    [fuel] bound and report [Fuel] when it runs out.

    [log_printf] and [log_flush] only write to the process log and are left
    out; a register read that appears as an argument of [log_printf] is
    kept, since it is a call to the hardware. *)

From Stdlib Require Import ZArith Lia Bool.
From stdpp Require Import base list strings.

Local Open Scope Z_scope.

(** ** Machine integers *)

Definition wrap_u8 (z : Z) : Z := z mod 2 ^ 8.
Definition wrap_u32 (z : Z) : Z := z mod 2 ^ 32.
(** conversion to [int] (32 bits, two's complement) *)
Definition wrap_i32 (z : Z) : Z := (z + 2 ^ 31) mod 2 ^ 32 - 2 ^ 31.

(** ** Data model (device.h) *)

(** One entry of [ctx->task[NB_RFM]].  Pointers into the cycle buffer
    ([beg], [end]) are offsets from the start of the buffer; [char *addr]
    is [None] for [NULL]. *)
Record Task := mkTask {
  t_dif : Z;             (* uint8_t dif *)
  t_rshaper : Z;         (* uint32_t rshaper *)
  t_addr : option string;(* char *addr *)
  t_port : Z;            (* int port *)
  t_sck : Z;             (* int sck *)
  t_beg : Z;             (* uint8_t *beg *)
  t_end : Z;             (* uint8_t *end *)
  t_bcid48_offset : Z;   (* alt_u32 bcid48_offset *)
  t_rc : Z               (* int rc *)
}.

(** [struct Device].  [FILE *daq_file] is a handle, 0 for [NULL]. *)
Record Device := mkDevice {
  thresh_delta : Z;
  rshaper : Z;
  rfm_on : Z;
  ip_addr : option string;
  run_cnt : Z;
  trig_mode : Z;
  cfg_mode : string;
  dac_floor_table : list Z;
  pa_gain_table : list Z;
  mask_table : list Z;
  mem_fd : Z;
  daq_filename : option Z;  (* the run number the name was printed from *)
  daq_file : Z;
  cycle_id : Z;
  task : list Task
}.

Definition set_t_dif (v : Z) (t : Task) : Task :=
  mkTask v (t_rshaper t) (t_addr t) (t_port t) (t_sck t) (t_beg t) (t_end t)
         (t_bcid48_offset t) (t_rc t).
Definition set_t_rshaper (v : Z) (t : Task) : Task :=
  mkTask (t_dif t) v (t_addr t) (t_port t) (t_sck t) (t_beg t) (t_end t)
         (t_bcid48_offset t) (t_rc t).
Definition set_t_addr (v : option string) (t : Task) : Task :=
  mkTask (t_dif t) (t_rshaper t) v (t_port t) (t_sck t) (t_beg t) (t_end t)
         (t_bcid48_offset t) (t_rc t).
Definition set_t_port (v : Z) (t : Task) : Task :=
  mkTask (t_dif t) (t_rshaper t) (t_addr t) v (t_sck t) (t_beg t) (t_end t)
         (t_bcid48_offset t) (t_rc t).
Definition set_t_sck (v : Z) (t : Task) : Task :=
  mkTask (t_dif t) (t_rshaper t) (t_addr t) (t_port t) v (t_beg t) (t_end t)
         (t_bcid48_offset t) (t_rc t).
Definition set_t_window (b e off : Z) (t : Task) : Task :=
  mkTask (t_dif t) (t_rshaper t) (t_addr t) (t_port t) (t_sck t) b e off
         (t_rc t).
Definition set_t_rc (v : Z) (t : Task) : Task :=
  mkTask (t_dif t) (t_rshaper t) (t_addr t) (t_port t) (t_sck t) (t_beg t)
         (t_end t) (t_bcid48_offset t) v.

Definition set_rshaper (v : Z) (d : Device) : Device :=
  mkDevice (thresh_delta d) v (rfm_on d) (ip_addr d) (run_cnt d)
    (trig_mode d) (cfg_mode d) (dac_floor_table d) (pa_gain_table d)
    (mask_table d) (mem_fd d) (daq_filename d) (daq_file d) (cycle_id d)
    (task d).
Definition set_rfm_on (v : Z) (d : Device) : Device :=
  mkDevice (thresh_delta d) (rshaper d) v (ip_addr d) (run_cnt d)
    (trig_mode d) (cfg_mode d) (dac_floor_table d) (pa_gain_table d)
    (mask_table d) (mem_fd d) (daq_filename d) (daq_file d) (cycle_id d)
    (task d).
Definition set_run_cnt (v : Z) (d : Device) : Device :=
  mkDevice (thresh_delta d) (rshaper d) (rfm_on d) (ip_addr d) v
    (trig_mode d) (cfg_mode d) (dac_floor_table d) (pa_gain_table d)
    (mask_table d) (mem_fd d) (daq_filename d) (daq_file d) (cycle_id d)
    (task d).
Definition set_trig_mode (v : Z) (d : Device) : Device :=
  mkDevice (thresh_delta d) (rshaper d) (rfm_on d) (ip_addr d) (run_cnt d)
    v (cfg_mode d) (dac_floor_table d) (pa_gain_table d)
    (mask_table d) (mem_fd d) (daq_filename d) (daq_file d) (cycle_id d)
    (task d).
Definition set_cfg_mode (v : string) (d : Device) : Device :=
  mkDevice (thresh_delta d) (rshaper d) (rfm_on d) (ip_addr d) (run_cnt d)
    (trig_mode d) v (dac_floor_table d) (pa_gain_table d)
    (mask_table d) (mem_fd d) (daq_filename d) (daq_file d) (cycle_id d)
    (task d).
Definition set_mem_fd (v : Z) (d : Device) : Device :=
  mkDevice (thresh_delta d) (rshaper d) (rfm_on d) (ip_addr d) (run_cnt d)
    (trig_mode d) (cfg_mode d) (dac_floor_table d) (pa_gain_table d)
    (mask_table d) v (daq_filename d) (daq_file d) (cycle_id d)
    (task d).
Definition set_daq_filename (v : option Z) (d : Device) : Device :=
  mkDevice (thresh_delta d) (rshaper d) (rfm_on d) (ip_addr d) (run_cnt d)
    (trig_mode d) (cfg_mode d) (dac_floor_table d) (pa_gain_table d)
    (mask_table d) (mem_fd d) v (daq_file d) (cycle_id d)
    (task d).
Definition set_daq_file (v : Z) (d : Device) : Device :=
  mkDevice (thresh_delta d) (rshaper d) (rfm_on d) (ip_addr d) (run_cnt d)
    (trig_mode d) (cfg_mode d) (dac_floor_table d) (pa_gain_table d)
    (mask_table d) (mem_fd d) (daq_filename d) v (cycle_id d)
    (task d).
Definition set_cycle_id (v : Z) (d : Device) : Device :=
  mkDevice (thresh_delta d) (rshaper d) (rfm_on d) (ip_addr d) (run_cnt d)
    (trig_mode d) (cfg_mode d) (dac_floor_table d) (pa_gain_table d)
    (mask_table d) (mem_fd d) (daq_filename d) (daq_file d) v
    (task d).
Definition set_task (v : list Task) (d : Device) : Device :=
  mkDevice (thresh_delta d) (rshaper d) (rfm_on d) (ip_addr d) (run_cnt d)
    (trig_mode d) (cfg_mode d) (dac_floor_table d) (pa_gain_table d)
    (mask_table d) (mem_fd d) (daq_filename d) (daq_file d) (cycle_id d)
    v.

(** [ctx->task[i].f = v], for an index inside the array *)
Definition upd_task (i : nat) (f : Task -> Task) (d : Device) : Device :=
  set_task (alter f i (task d)) d.

(** ** The outside world *)

(** Files named by the program. *)
Inductive path :=
| DevMem                 (* "/dev/mem" *)
| HrScCsv (run : Z)      (* "/home/root/run/hr_sc_%03d.csv" *)
| DaqRaw (run : Z).      (* "/dev/shm/eda_%03d.000.raw" *)

(** Calls that leave device.c, with their arguments. *)
Inductive call :=
(* fpga.h: synchronisation, counters, lanes *)
| SyncResetFpga | SyncPllLck | SyncSelectCommandDcc | SyncEnableDccBusy
| SyncEnableDccRamfull | SyncSelectCommandSoft | SyncDccCmdMem | SyncState
| SyncFifoArming | SyncResetBcid | SyncStartAcq | SyncStopAcq | SyncResetHr
| SyncFpgaRo | SyncFifoReady | SyncRamfull | SyncRamfullExt | SyncFifoAck
| RfmOn (rfm : Z) | RfmEnable (rfm : Z) | PioCtrlGet
| CntReset | CntStart | CntStop
| DaqFifoInit (rfm : Z) | DaqResetBuffer
| DaqWriteBuffer (file : Z) (content : list Z)
| DaqReadDif (slot : Z)
(* fpga.h: slow control *)
| HrscSetBit (hr bit v : Z) | HrscSetShaperResis (hr v : Z)
| HrscSetShaperCapa (hr v : Z) | HrscSetChipId (hr id : Z)
| HrscSetMask (hr chan v : Z) | HrscSetDAC0 (hr v : Z)
| HrscSetDAC1 (hr v : Z) | HrscSetDAC2 (hr v : Z)
| HrscSetPreamp (hr chan v : Z) | HrscSetConfig (rfm : Z)
| HrscResetReadRegisters (rfm : Z) | HrscCopyConf (src dst : Z)
| HrscWriteConfMult (file : Z) | PrintConfig (rfm : Z)
| MmapLwH2f (fd : Z) | MmapH2f (fd : Z) | MunmapLwH2f (fd : Z)
| MunmapH2f (fd : Z)
(* libc *)
| Usleep (us : Z) | Sleep (s : Z)
| Open (p : path) | Close (fd : Z)
| Fopen (p : path) | Fclose (file : Z) | FprintfRfmIndex (file rfm : Z)
| SystemScp (p : path)
| Socket | InetPton (addr : option string)
| Connect (sck : Z) (port : Z)
| Send (sck : Z) (bytes : list Z)
| Recv (sck : Z) (len : Z).

(** What a call answers: its return value and, for [recv] and the FIFO
    read, the bytes it delivers. *)
Record reply := mkReply { ret_val : Z; data : list Z }.

Record Env := mkEnv {
  reply_at : nat -> call -> reply;  (* answer to the n-th interaction *)
  sigint_at : nat -> bool           (* SIGINT delivered just before it *)
}.

Record World := mkWorld {
  ctx : Device;
  g_state : Z;                    (* char g_state *)
  daq_mem : Z -> Z;               (* the bytes of the cycle buffer's memory *)
  daq_fill : Z;                   (* how much of it the cycle has filled *)
  now : nat;                      (* interactions so far *)
  trace : list (call * reply);    (* most recent first *)
  env : Env
}.

Definition set_ctx (f : Device -> Device) (w : World) : World :=
  mkWorld (f (ctx w)) (g_state w) (daq_mem w) (daq_fill w) (now w) (trace w)
          (env w).
Definition set_g_state (v : Z) (w : World) : World :=
  mkWorld (ctx w) v (daq_mem w) (daq_fill w) (now w) (trace w) (env w).
Definition set_daq (m : Z -> Z) (fill : Z) (w : World) : World :=
  mkWorld (ctx w) (g_state w) m fill (now w) (trace w) (env w).

(** [n] bytes of memory from offset [beg]; [bytes] stored at [pos]. *)
Definition read_bytes (m : Z -> Z) (beg : Z) (n : nat) : list Z :=
  (fun k => m (beg + Z.of_nat k)) <$> seq 0 n.
Definition write_bytes (m : Z -> Z) (pos : Z) (bytes : list Z) : Z -> Z :=
  fun a => if (pos <=? a) && (a <? pos + Z.of_nat (length bytes))
           then nth (Z.to_nat (a - pos)) bytes 0 else m a.

(** [handle_sigint]: [g_state = 0]. *)
Definition handle_sigint (w : World) : World := set_g_state 0 w.

(** One interaction: time advances, and a pending signal runs its handler. *)
Definition tick (w : World) : World :=
  let w1 := mkWorld (ctx w) (g_state w) (daq_mem w) (daq_fill w) (S (now w))
                    (trace w) (env w) in
  if sigint_at (env w) (S (now w)) then handle_sigint w1 else w1.

Definition record (c : call) (r : reply) (w : World) : World :=
  mkWorld (ctx w) (g_state w) (daq_mem w) (daq_fill w) (now w)
          ((c, r) :: trace w) (env w).

(** ** The monad *)

Inductive outcome (A : Type) :=
| Done (a : A) (w : World)   (* returned [a] *)
| Undef (w : World)          (* undefined behaviour reached *)
| Fuel (w : World).          (* loop bound exhausted *)
Arguments Done {A} a w.
Arguments Undef {A} w.
Arguments Fuel {A} w.

Definition M (A : Type) : Type := World -> outcome A.

Definition ret {A} (a : A) : M A := fun w => Done a w.
Definition bind {A B} (m : M A) (k : A -> M B) : M B :=
  fun w => match m w with
           | Done a w1 => k a w1
           | Undef w1 => Undef w1
           | Fuel w1 => Fuel w1
           end.
Definition undef {A} : M A := fun w => Undef w.
Definition out_of_fuel {A} : M A := fun w => Fuel w.

Declare Scope m_scope.
Delimit Scope m_scope with M.
Notation "x <- m ; k" := (bind m (fun x => k))
  (at level 20, m at level 100, k at level 200, right associativity,
   only parsing) : m_scope.
Notation "m ;; k" := (bind m (fun _ => k))
  (at level 100, k at level 200, right associativity, only parsing) : m_scope.
Local Open Scope m_scope.

Definition get_ctx : M Device := fun w => Done (ctx w) w.
Definition modify_ctx (f : Device -> Device) : M unit :=
  fun w => Done tt (set_ctx f w).

(** A call to the outside: what it answers, and the world after it. *)
Definition answer (c : call) (w : World) : reply :=
  reply_at (env w) (S (now w)) c.
Definition after (c : call) (w : World) : World :=
  record c (answer c w) (tick w).
Definition ext (c : call) : M reply :=
  fun w => Done (answer c w) (after c w).
Definition ext_int (c : call) : M Z := r <- ext c; ret (ret_val r).
Definition ext_void (c : call) : M unit := ext c;; ret tt.

(** A read of the global [g_state]. *)
Definition read_g_state : M Z :=
  fun w => let w1 := tick w in Done (g_state w1) w1.

(** [ctx->task[slot]]; outside the array the access is undefined. *)
Definition get_task (slot : Z) : M Task :=
  fun w => if slot <? 0 then Undef w else
           match task (ctx w) !! Z.to_nat slot with
           | Some t => Done t w
           | None => Undef w
           end.
Definition modify_task (slot : Z) (f : Task -> Task) : M unit :=
  get_task slot;; modify_ctx (upd_task (Z.to_nat slot) f).

(** The state of a slot, for statements. *)
Definition task_at (w : World) (slot : Z) : option Task :=
  task (ctx w) !! Z.to_nat slot.

(** Loops over an index list: [for_each] runs the body for every index;
    [for_until] stops at the first body that leaves the loop ([break] or
    [return]) and says with what. *)
Fixpoint for_each {A} (l : list A) (body : A -> M unit) : M unit :=
  match l with
  | [] => ret tt
  | x :: rest => body x;; for_each rest body
  end.

Fixpoint for_until {A R} (l : list A) (body : A -> M (option R))
  : M (option R) :=
  match l with
  | [] => ret None
  | x :: rest =>
      o <- body x;
      match o with
      | Some v => ret (Some v)
      | None => for_until rest body
      end
  end.

(** [0, 1, ..., n-1] as C [int]s. *)
Definition upto (n : nat) : list Z := Z.of_nat <$> seq 0 n.

(** ** fpga.h and libc, as used by device.c *)

Definition SYNC_reset_fpga : M unit := ext_void SyncResetFpga.
Definition SYNC_pll_lck : M Z := ext_int SyncPllLck.
Definition SYNC_select_command_dcc : M unit := ext_void SyncSelectCommandDcc.
Definition SYNC_enable_dcc_busy : M unit := ext_void SyncEnableDccBusy.
Definition SYNC_enable_dcc_ramfull : M unit := ext_void SyncEnableDccRamfull.
Definition SYNC_select_command_soft : M unit :=
  ext_void SyncSelectCommandSoft.
Definition SYNC_dcc_cmd_mem : M Z := ext_int SyncDccCmdMem.
Definition SYNC_state : M Z := ext_int SyncState.
Definition SYNC_fifo_arming : M unit := ext_void SyncFifoArming.
Definition SYNC_reset_bcid : M unit := ext_void SyncResetBcid.
Definition SYNC_start_acq : M unit := ext_void SyncStartAcq.
Definition SYNC_stop_acq : M unit := ext_void SyncStopAcq.
Definition SYNC_reset_hr : M unit := ext_void SyncResetHr.
Definition SYNC_fpga_ro : M Z := ext_int SyncFpgaRo.
Definition SYNC_fifo_ready : M Z := ext_int SyncFifoReady.
Definition SYNC_ramfull : M Z := ext_int SyncRamfull.
Definition SYNC_ramfull_ext : M unit := ext_void SyncRamfullExt.
Definition SYNC_fifo_ack : M unit := ext_void SyncFifoAck.
Definition RFM_on (rfm : Z) : M unit := ext_void (RfmOn rfm).
Definition RFM_enable (rfm : Z) : M unit := ext_void (RfmEnable rfm).
Definition PIO_ctrl_get : M Z := ext_int PioCtrlGet.
Definition CNT_reset : M unit := ext_void CntReset.
Definition CNT_start : M unit := ext_void CntStart.
Definition CNT_stop : M unit := ext_void CntStop.
Definition DAQ_fifo_init (rfm : Z) : M unit := ext_void (DaqFifoInit rfm).
Definition HRSC_set_bit (hr bit v : Z) : M unit := ext_void (HrscSetBit hr bit v).
Definition HRSC_set_shaper_resis (hr v : Z) : M unit :=
  ext_void (HrscSetShaperResis hr v).
Definition HRSC_set_shaper_capa (hr v : Z) : M unit :=
  ext_void (HrscSetShaperCapa hr v).
Definition HRSC_set_chip_id (hr id : Z) : M unit :=
  ext_void (HrscSetChipId hr id).
Definition HRSC_set_mask (hr chan v : Z) : M unit :=
  ext_void (HrscSetMask hr chan v).
Definition HRSC_set_DAC0 (hr v : Z) : M unit := ext_void (HrscSetDAC0 hr v).
Definition HRSC_set_DAC1 (hr v : Z) : M unit := ext_void (HrscSetDAC1 hr v).
Definition HRSC_set_DAC2 (hr v : Z) : M unit := ext_void (HrscSetDAC2 hr v).
Definition HRSC_set_preamp (hr chan v : Z) : M unit :=
  ext_void (HrscSetPreamp hr chan v).
Definition HRSC_set_config (rfm : Z) : M Z := ext_int (HrscSetConfig rfm).
Definition HRSC_reset_read_registers (rfm : Z) : M Z :=
  ext_int (HrscResetReadRegisters rfm).
Definition HRSC_copy_conf (src dst : Z) : M unit :=
  ext_void (HrscCopyConf src dst).
Definition HRSC_write_conf_mult (file : Z) : M unit :=
  ext_void (HrscWriteConfMult file).
Definition PRINT_config (rfm : Z) : M unit := ext_void (PrintConfig rfm).
Definition mmap_lw_h2f (fd : Z) : M Z := ext_int (MmapLwH2f fd).
Definition mmap_h2f (fd : Z) : M Z := ext_int (MmapH2f fd).
Definition munmap_lw_h2f (fd : Z) : M unit := ext_void (MunmapLwH2f fd).
Definition munmap_h2f (fd : Z) : M unit := ext_void (MunmapH2f fd).

Definition usleep (us : Z) : M unit := ext_void (Usleep us).
Definition sleep (s : Z) : M unit := ext_void (Sleep s).
Definition open (p : path) : M Z := ext_int (Open p).
Definition close (fd : Z) : M unit := ext_void (Close fd).
Definition fopen (p : path) : M Z := ext_int (Fopen p).
(** [fclose] needs a stream: on a null pointer the behaviour is undefined. *)
Definition fclose (file : Z) : M Z :=
  if file =? 0 then undef else ext_int (Fclose file).
Definition socket : M Z := ext_int Socket.
Definition inet_pton (addr : option string) : M Z := ext_int (InetPton addr).
Definition connect (sck port : Z) : M Z := ext_int (Connect sck port).

(** [send(sck, bytes, len, 0)]: the bytes handed over, and the result. *)
Definition send (sck : Z) (bytes : list Z) : M Z := ext_int (Send sck bytes).

(** [recv(sck, buf, len, 0)]: a negative answer is an error and leaves
    [buf] alone; otherwise the bytes delivered, at most [len], overwrite the
    start of [buf] and their number is returned. *)
Definition recv (sck : Z) (buf : list Z) (len : nat) : M (Z * list Z) :=
  r <- ext (Recv sck (Z.of_nat len));
  if ret_val r <? 0 then ret (ret_val r, buf)
  else let d := take len (data r) in
       ret (Z.of_nat (length d), d ++ drop (length d) buf).

(** [strcmp] on byte arrays: compares up to and including the first NUL;
    running off an array is undefined ([None]). *)
Fixpoint strcmp (s1 s2 : list Z) : option Z :=
  match s1, s2 with
  | c1 :: r1, c2 :: r2 =>
      if c1 =? c2 then (if c1 =? 0 then Some 0 else strcmp r1 r2)
      else Some (c1 - c2)
  | _, _ => None
  end.

(** The literal ["ACK"], with its terminator. *)
Definition ACK : list Z := [65; 67; 75; 0].

(** Modelled from the spec: [DAQ_reset_buffer] is declared in fpga.h, which
    is absent; the cycle buffer is "reset to empty at the start of every
    iteration". *)
Definition DAQ_reset_buffer : M unit :=
  ext_void DaqResetBuffer;; fun w => Done tt (set_daq (daq_mem w) 0 w).

(** Modelled from the spec: [DAQ_write_buffer] is declared in fpga.h, which
    is absent; it appends the cycle buffer's "full buffer contents at time
    of write" to the file. *)
Definition DAQ_write_buffer (file : Z) : M unit :=
  fun w => ext_void (DaqWriteBuffer file
             (read_bytes (daq_mem w) 0 (Z.to_nat (daq_fill w)))) w.

(** Modelled from the spec: [device_daq_write_dif] is declared in device.c
    and defined elsewhere; the readout step fills a fresh sub-range of the
    cycle buffer with the slot's data and rewrites the slot's buffer
    window. *)
Definition device_daq_write_dif (slot : Z) : M unit :=
  r <- ext (DaqReadDif slot);
  fun w =>
    let b := daq_fill w in
    let e := b + Z.of_nat (length (data r)) in
    modify_task slot (set_t_window b e (wrap_u32 (ret_val r)))
                (set_daq (write_bytes (daq_mem w) b (data r)) e w).

(** ** device.c *)

Section Device.

(** Constants of fpga.h, which is absent: the number of RFM slots, the
    number of Hardroc chips per RFM and the sDCC reset-BCID command. *)
Variable NB_RFM : nat.
Variable NB_HR : Z.
Variable CMD_RESET_BCID : Z.

(** [((ctx->rfm_on >> i) & 1) == 1] *)
Definition rfm_active (d : Device) (i : Z) : bool :=
  Z.land (Z.shiftr (rfm_on d) i) 1 =? 1.

(** [calloc]: every field zero, [task] an array of [NB_RFM] entries. *)
Definition zero_task : Task := mkTask 0 0 None 0 0 0 0 0 0.
Definition zero_device : Device :=
  mkDevice 0 0 0 None 0 0 EmptyString (replicate (NB_RFM * Z.to_nat NB_HR * 3) 0)
    (replicate (NB_RFM * Z.to_nat NB_HR * 64) 0)
    (replicate (NB_RFM * Z.to_nat NB_HR * 64) 0) 0 None 0 0
    (replicate NB_RFM zero_task).

Definition new_device : M unit :=
  fun w => Done tt (set_g_state 1 (set_ctx (fun _ => set_cfg_mode "csv" zero_device) w)).

(** lines 77-106; the calls to [free] leave no trace in the model, and
    [*ctx] is not used after them *)
Definition device_free : M unit :=
  d <- get_ctx;
  (if negb (mem_fd d =? 0) then
     munmap_lw_h2f (mem_fd d);; munmap_h2f (mem_fd d);; close (mem_fd d)
   else ret tt);;
  (if negb (daq_file d =? 0) then fclose (daq_file d);; ret tt else ret tt);;
  for_each (upto NB_RFM) (fun i =>
    t <- get_task i;
    if negb (t_sck t =? 0) then close (t_sck t) else ret tt).

(** lines 108-123 *)
Definition device_boot_rfm (dif slot rshaper' trig : Z) : M Z :=
  modify_ctx (fun d => set_rfm_on (wrap_u32 (Z.lor (rfm_on d) (Z.shiftl 1 slot))) d);;
  modify_task slot (set_t_dif dif);;
  modify_task slot (set_t_rshaper rshaper');;
  d <- get_ctx;
  if negb (rshaper d =? 0) && negb (rshaper d =? rshaper') then
    ret (-1)
  else
    modify_ctx (set_rshaper rshaper');;
    modify_ctx (set_trig_mode (wrap_i32 trig));;
    ret 0.

(** lines 125-138; [strdup] is taken to succeed *)
Definition device_configure_dif (dif : Z) (addr : string) (port : Z) : M Z :=
  modify_ctx (set_cfg_mode "db");;
  r <- for_until (upto NB_RFM) (fun i =>
         t <- get_task i;
         if negb (t_dif t =? dif) then ret None
         else
           modify_task i (set_t_addr (Some addr));;
           modify_task i (set_t_port port);;
           ret (Some 0));
  match r with
  | Some rc => ret rc
  | None => ret 1
  end.

(** lines 286-313 *)
Definition device_init_mmap : M Z :=
  modify_ctx (set_mem_fd 0);;
  fd <- open DevMem;
  modify_ctx (set_mem_fd fd);;
  if fd =? -1 then
    modify_ctx (set_mem_fd 0);; ret (-1)
  else
    lw <- mmap_lw_h2f fd;
    if lw =? 0 then
      close fd;; modify_ctx (set_mem_fd 0);; ret (-1)
    else
      h2f <- mmap_h2f fd;
      if h2f =? 0 then
        munmap_lw_h2f fd;; close fd;; modify_ctx (set_mem_fd 0);; ret (-1)
      else ret 0.

(** lines 320-324: [while ((!SYNC_pll_lck()) && (cnt_poll < 100))];
    returns the final [cnt_poll] *)
Fixpoint pll_wait (fuel : nat) (cnt_poll : Z) : M Z :=
  lck <- SYNC_pll_lck;
  if (lck =? 0) && (cnt_poll <? 100) then
    match fuel with
    | O => out_of_fuel
    | S fuel' => usleep 10000;; pll_wait fuel' (cnt_poll + 1)
    end
  else ret cnt_poll.

(** lines 315-358 *)
Definition device_init_fpga (fuel : nat) : M Z :=
  SYNC_reset_fpga;;
  usleep 2;;
  cnt_poll <- pll_wait fuel 0;
  if 100 <=? cnt_poll then ret (-1)
  else
    SYNC_pll_lck;;
    for_each (upto NB_RFM) (fun rfm_index =>
      d <- get_ctx;
      if rfm_active d rfm_index then
        RFM_on rfm_index;; RFM_enable rfm_index
      else ret tt);;
    sleep 1;;
    PIO_ctrl_get;;
    d <- get_ctx;
    (if trig_mode d =? 0 then
       SYNC_select_command_dcc;; SYNC_enable_dcc_busy;;
       SYNC_enable_dcc_ramfull
     else ret tt);;
    (if trig_mode d =? 1 then SYNC_select_command_soft else ret tt);;
    ret 0.

(** [table[idx]]; outside the table the read is undefined *)
Definition table_get (table : Device -> list Z) (idx : Z) : M Z :=
  fun w => if idx <? 0 then Undef w else
           match table (ctx w) !! Z.to_nat idx with
           | Some v => Done v w
           | None => Undef w
           end.

(** The per-RFM tuning, the same in both configuration sources
    (lines 396-422 and 472-514) up to the threshold written: [adj] is the
    identity (db) or adds [ctx->thresh_delta] (csv). *)
Definition hrsc_tune_rfm (rfm_index : Z) (adj : Z -> Z) : M unit :=
  for_each (upto 8) (fun hr_addr =>
    for_each (upto 64) (fun chan =>
      mask <- table_get mask_table (64 * (NB_HR * rfm_index + hr_addr) + chan);
      HRSC_set_mask hr_addr chan mask));;
  for_each (upto 8) (fun hr_addr =>
    th0 <- table_get dac_floor_table (3 * (NB_HR * rfm_index + hr_addr) + 0);
    th1 <- table_get dac_floor_table (3 * (NB_HR * rfm_index + hr_addr) + 1);
    th2 <- table_get dac_floor_table (3 * (NB_HR * rfm_index + hr_addr) + 2);
    HRSC_set_DAC0 hr_addr (adj th0);;
    HRSC_set_DAC1 hr_addr (adj th1);;
    HRSC_set_DAC2 hr_addr (adj th2));;
  for_each (upto 8) (fun hr_addr =>
    for_each (upto 64) (fun chan =>
      pa_gain <- table_get pa_gain_table
                   (64 * (NB_HR * rfm_index + hr_addr) + chan);
      HRSC_set_preamp hr_addr chan pa_gain)).

(** lines 391-444 *)
Definition device_init_hrsc_from_db : M Z :=
  r <- for_until (upto NB_RFM) (fun rfm_index =>
         d <- get_ctx;
         if rfm_active d rfm_index then
           hrsc_tune_rfm rfm_index (fun th => th);;
           e <- HRSC_set_config rfm_index;
           if e <? 0 then PRINT_config rfm_index;; ret (Some (-1))
           else
             e <- HRSC_reset_read_registers rfm_index;
             if e <? 0 then PRINT_config rfm_index;; ret (Some (-1))
             else ret None
         else ret None);
  match r with
  | Some rc => ret rc
  | None => sleep 1;; ret 0
  end.

(** lines 446-549 *)
Definition device_init_hrsc_from_csv : M Z :=
  for_each [1; 2; 3; 4; 5; 6; 7] (fun k => HRSC_copy_conf 0 k);;
  d <- get_ctx;
  sc_file <- fopen (HrScCsv (run_cnt d));
  if sc_file =? 0 then ret (-1)
  else
    r <- for_until (upto NB_RFM) (fun rfm_index =>
           d <- get_ctx;
           if rfm_active d rfm_index then
             hrsc_tune_rfm rfm_index (fun th => wrap_u32 (th + thresh_delta d));;
             e <- HRSC_set_config rfm_index;
             if e <? 0 then PRINT_config rfm_index;; ret (Some (-1))
             else
               e <- HRSC_reset_read_registers rfm_index;
               if e <? 0 then PRINT_config rfm_index;; ret (Some (-1))
               else
                 ext_void (FprintfRfmIndex sc_file rfm_index);;
                 HRSC_write_conf_mult sc_file;;
                 ret None
           else ret None);
    match r with
    | Some rc => ret rc
    | None =>
        fclose sc_file;;
        err <- ext_int (SystemScp (HrScCsv (run_cnt d)));
        if negb (err =? 0) then ret err
        else sleep 1;; ret 0
    end.

(** lines 363-389 *)
Definition device_init_hrsc : M Z :=
  HRSC_set_bit 0 854 0;;
  d <- get_ctx;
  HRSC_set_shaper_resis 0 (rshaper d);;
  HRSC_set_shaper_capa 0 3;;
  for_each (upto 8) (fun hr_addr => HRSC_set_chip_id hr_addr (hr_addr + 1));;
  d <- get_ctx;
  if String.eqb (cfg_mode d) "db" then device_init_hrsc_from_db
  else if String.eqb (cfg_mode d) "csv" then device_init_hrsc_from_csv
  else ret (-1).

(** lines 246-284 *)
Definition device_init_scks : M Z :=
  r <- for_until (upto NB_RFM) (fun i =>
         t <- get_task i;
         if t_dif t =? 0 then ret None
         else
           sck <- socket;
           modify_task i (set_t_sck sck);;
           if sck <? 0 then ret (Some (-1))
           else
             t <- get_task i;
             ok <- inet_pton (t_addr t);
             if ok <=? 0 then ret (Some (-1))
             else
               t <- get_task i;
               e <- connect (t_sck t) (t_port t mod 2 ^ 16);
               if e <? 0 then ret (Some (-1)) else ret None);
  match r with
  | Some rc => ret rc
  | None => ret 0
  end.

(** lines 208-244 *)
Definition device_initialize (fuel : nat) : M Z :=
  err <- device_init_mmap;
  if negb (err =? 0) then ret (-1)
  else
    err <- device_init_fpga fuel;
    if negb (err =? 0) then ret (-1)
    else
      err <- device_init_hrsc;
      if negb (err =? 0) then ret (-1)
      else
        err <- device_init_scks;
        if negb (err =? 0) then ret (-1)
        else ret 0.

(** lines 655-697 *)
Definition device_init_run (run : Z) : M Z :=
  modify_ctx (set_run_cnt (wrap_i32 run));;
  d <- get_ctx;
  modify_ctx (set_daq_filename (Some (run_cnt d)));;
  file <- fopen (DaqRaw (run_cnt d));
  modify_ctx (set_daq_file file);;
  if file =? 0 then ret (-1)
  else
    modify_ctx (set_cycle_id 0);;
    SYNC_reset_hr;;
    ret 0.

(** lines 584-587: [while (SYNC_dcc_cmd_mem() == dcc_cmd)], left by
    [break] when [g_state == 0] *)
Fixpoint dcc_cmd_unchanged (fuel : nat) (dcc_cmd : Z) : M unit :=
  match fuel with
  | O => out_of_fuel
  | S fuel' =>
      cmd <- SYNC_dcc_cmd_mem;
      if cmd =? dcc_cmd then
        g <- read_g_state;
        if g =? 0 then ret tt else dcc_cmd_unchanged fuel' dcc_cmd
      else ret tt
  end.

(** lines 583-592: [while (dcc_cmd != CMD_RESET_BCID)] *)
Fixpoint wait_reset_bcid (fuel : nat) (dcc_cmd : Z) : M unit :=
  match fuel with
  | O => out_of_fuel
  | S fuel' =>
      if negb (dcc_cmd =? CMD_RESET_BCID) then
        dcc_cmd_unchanged fuel' dcc_cmd;;
        dcc_cmd' <- SYNC_dcc_cmd_mem;
        g <- read_g_state;
        if g =? 0 then ret tt else wait_reset_bcid fuel' dcc_cmd'
      else ret tt
  end.

(** lines 574-631 *)
Definition device_start_run_dcc (fuel : nat) (run : Z) : M Z :=
  wait_reset_bcid fuel 14;;
  g <- read_g_state;
  if g =? 0 then ret (-1)
  else
    SYNC_state;;
    CNT_reset;;
    CNT_start;;
    for_each (upto NB_RFM) (fun rfm_index =>
      d <- get_ctx;
      if rfm_active d rfm_index then DAQ_fifo_init rfm_index else ret tt);;
    modify_ctx (set_cycle_id 0);;
    SYNC_fifo_arming;;
    ret 0.

(** lines 633-653 *)
Definition device_start_run_noise (run : Z) : M Z :=
  for_each (upto NB_RFM) (fun i =>
    d <- get_ctx;
    if rfm_active d i then DAQ_fifo_init i else ret tt);;
  CNT_reset;;
  SYNC_reset_bcid;;
  SYNC_start_acq;;
  SYNC_state;;
  modify_ctx (set_cycle_id 0);;
  SYNC_fifo_arming;;
  ret 0.

(** lines 554-572 *)
Definition device_start (fuel : nat) (run : Z) : M Z :=
  err <- device_init_run run;
  if negb (err =? 0) then ret err
  else
    d <- get_ctx;
    if trig_mode d =? 0 then device_start_run_dcc fuel run
    else if trig_mode d =? 1 then device_start_run_noise run
    else ret (-1).

(** lines 868 and 887: [ret != 4 || strcmp(buf, ACK) != 0], with [||]
    evaluating [strcmp] only when [ret] is 4 *)
Definition not_acked (r : Z) (buf : list Z) : M bool :=
  if negb (r =? 4) then ret true
  else match strcmp buf ACK with
       | Some c => ret (negb (c =? 0))
       | None => undef
       end.

(** The header of lines 850-857 for a payload of [size] bytes. *)
Definition dif_header (size : Z) : list Z :=
  [72; 68; 82; 0; wrap_u8 size; wrap_u8 (Z.shiftr size 8);
   wrap_u8 (Z.shiftr size 16); wrap_u8 (Z.shiftr size 24)].

(** lines 846-896 *)
Definition device_daq_send_dif (slot : Z) : M Z :=
  t <- get_task slot;
  let sck := t_sck t in
  let data := t_beg t in
  let size := wrap_u32 (t_end t - t_beg t) in
  let buf := dif_header size in
  err <- send sck buf;
  if err =? -1 then ret err
  else
    r <- recv sck buf 4;
    bad <- not_acked (fst r) (snd r);
    if bad then ret 1
    else
      let buf := snd r in
      if size =? 0 then ret 0
      else
        payload <- (fun w => Done (read_bytes (daq_mem w) data (Z.to_nat size)) w);
        err <- send sck payload;
        r <- recv sck buf 4;
        bad <- not_acked (fst r) (snd r);
        if bad then ret 1
        else ret 0.

(** lines 742-752 (and 815-825): the buffering loop, left by [break] when
    [g_state == 0] *)
Definition buffer_difs : M unit :=
  for_until (upto NB_RFM) (fun rfm_index =>
    d <- get_ctx;
    if negb (rfm_active d rfm_index) then ret None
    else
      device_daq_write_dif rfm_index;;
      g <- read_g_state;
      if g =? 0 then ret (Some tt) else ret None);;
  ret tt.

(** lines 762-770 (and 830-838): the body of the streaming loop *)
Definition send_dif_step (i : Z) : M unit :=
  d <- get_ctx;
  if negb (rfm_active d i) then ret tt
  else
    err <- device_daq_send_dif i;
    if negb (err =? 0) then modify_task i (set_t_rc err)
    else ret tt.

(** lines 761-771 (and 829-839): the streaming loop *)
Definition send_difs : M unit := for_each (upto NB_RFM) send_dif_step.

(** [while ((poll() == 0) && (g_state == 1)) ;] *)
Fixpoint wait_flag (poll : M Z) (fuel : nat) : M unit :=
  match fuel with
  | O => out_of_fuel
  | S fuel' =>
      v <- poll;
      if v =? 0 then
        g <- read_g_state;
        if g =? 1 then wait_flag poll fuel' else ret tt
      else ret tt
  end.

(** [ctx->cycle_id++] on an [alt_u32] *)
Definition next_cycle : M unit :=
  modify_ctx (fun d => set_cycle_id (wrap_u32 (cycle_id d + 1)) d).

(** lines 739-773, the second half of the body of the run loop, from the
    buffering on; [true]: the end of the body is reached *)
Definition dcc_readout : M bool :=
  buffer_difs;;
  SYNC_fifo_ack;;
  d <- get_ctx;
  DAQ_write_buffer (daq_file d);;
  send_difs;;
  next_cycle;;
  ret true.

(** lines 718-773, one pass through the body of the run loop: [true] when
    the end of the body is reached, [false] when it is left by [break] *)
Definition dcc_cycle (fuel : nat) : M bool :=
  DAQ_reset_buffer;;
  wait_flag SYNC_fpga_ro fuel;;
  g <- read_g_state;
  if g =? 0 then ret false
  else
    wait_flag SYNC_fifo_ready fuel;;
    g <- read_g_state;
    if g =? 0 then ret false
    else dcc_readout.

(** lines 713-788 *)
Fixpoint device_loop_dcc (fuel : nat) : M unit :=
  match fuel with
  | O => out_of_fuel
  | S fuel' =>
      g <- read_g_state;
      if g =? 1 then
        again <- dcc_cycle fuel';
        if again then device_loop_dcc fuel' else ret tt
      else ret tt
  end.

(** lines 812-842, the second half of the body, from the buffering on *)
Definition noise_readout : M bool :=
  buffer_difs;;
  SYNC_fifo_ack;;
  send_difs;;
  SYNC_start_acq;;
  next_cycle;;
  ret true.

(** lines 793-842, one pass through the body *)
Definition noise_cycle (fuel : nat) : M bool :=
  DAQ_reset_buffer;;
  wait_flag SYNC_ramfull fuel;;
  g <- read_g_state;
  if g =? 0 then ret false
  else
    SYNC_ramfull_ext;;
    wait_flag SYNC_fifo_ready fuel;;
    g <- read_g_state;
    if g =? 0 then ret false
    else noise_readout.

(** lines 790-844 *)
Fixpoint device_loop_noise (fuel : nat) : M unit :=
  match fuel with
  | O => out_of_fuel
  | S fuel' =>
      g <- read_g_state;
      if g =? 1 then
        again <- noise_cycle fuel';
        if again then device_loop_noise fuel' else ret tt
      else ret tt
  end.

(** lines 702-711 *)
Definition device_loop (fuel : nat) : M unit :=
  d <- get_ctx;
  if trig_mode d =? 0 then device_loop_dcc fuel
  else if trig_mode d =? 1 then device_loop_noise fuel
  else ret tt.

(** lines 898-916 *)
Definition device_stop : M Z :=
  d <- get_ctx;
  (if trig_mode d =? 0 then CNT_stop else ret tt);;
  (if trig_mode d =? 1 then SYNC_stop_acq;; CNT_stop else ret tt);;
  CNT_reset;;
  SYNC_reset_fpga;;
  SYNC_reset_hr;;
  d <- get_ctx;
  fclose (daq_file d);;
  modify_ctx (set_daq_file 0);;
  ret 0.

(** lines 918-920 *)
Definition device_stop_loop : M unit :=
  fun w => Done tt (set_g_state 0 w).

(** ** device.c: the functions that talk to libc only

    [device_configure] (lines 140-206) and [give_file_to_server] (lines
    922-945) touch neither the FPGA registers nor [g_state]: they copy and
    read files and write to a socket.  They are embedded apart, as
    computations over a [Host]: the device, and the history of their calls,
    which an oracle of their own answers. *)

Inductive conf_file :=
| ConfBase    (* "/dev/shm/config_base/conf_base.csv" *)
| DacFloor    (* "/dev/shm/config_base/dac_floor_4rfm.csv" *)
| PaGain      (* "/dev/shm/config_base/pa_gain_4rfm.csv" *)
| MaskFile.   (* "/dev/shm/config_base/mask_4rfm.csv" *)

Inductive libc_call :=
| SystemScpBase                   (* system("scp ... config_base /dev/shm/") *)
| FopenConf (f : conf_file)       (* fopen(path, "r") *)
| FcloseConf (file : Z)
| HrscReadConfSingl (file hr : Z)
| ReadThOffset (file : Z)
| ReadPaGain (file : Z)
| ReadMask (file : Z)
| SendTo (sock : Z) (bytes : list Z)   (* send(sock, bytes, len, 0) *)
| ReadFrom (sock : Z) (len : Z).       (* read(sock, buf, len) *)

Record Host := mkHost {
  h_ctx : Device;
  h_now : nat;
  h_trace : list (libc_call * reply);   (* most recent first *)
  h_env : nat -> libc_call -> reply
}.

Definition H (A : Type) : Type := Host -> A * Host.

Definition h_ret {A} (a : A) : H A := fun h => (a, h).
Definition h_bind {A B} (m : H A) (k : A -> H B) : H B :=
  fun h => let (a, h1) := m h in k a h1.

Declare Scope h_scope.
Delimit Scope h_scope with H.
Notation "x <- m ; k" := (h_bind m (fun x => k))
  (at level 20, m at level 100, k at level 200, right associativity,
   only parsing) : h_scope.
Notation "m ;; k" := (h_bind m (fun _ => k))
  (at level 100, k at level 200, right associativity, only parsing) : h_scope.

Definition h_modify (f : Device -> Device) : H unit :=
  fun h => (tt, mkHost (f (h_ctx h)) (h_now h) (h_trace h) (h_env h)).
Definition h_call (c : libc_call) : H reply :=
  fun h => let r := h_env h (S (h_now h)) c in
           (r, mkHost (h_ctx h) (S (h_now h)) ((c, r) :: h_trace h) (h_env h)).
Definition h_int (c : libc_call) : H Z :=
  (r <- h_call c; h_ret (ret_val r))%H.

Definition set_thresh_delta (v : Z) (d : Device) : Device :=
  mkDevice v (rshaper d) (rfm_on d) (ip_addr d) (run_cnt d)
    (trig_mode d) (cfg_mode d) (dac_floor_table d) (pa_gain_table d)
    (mask_table d) (mem_fd d) (daq_filename d) (daq_file d) (cycle_id d)
    (task d).
Definition set_ip_addr (v : option string) (d : Device) : Device :=
  mkDevice (thresh_delta d) (rshaper d) (rfm_on d) v (run_cnt d)
    (trig_mode d) (cfg_mode d) (dac_floor_table d) (pa_gain_table d)
    (mask_table d) (mem_fd d) (daq_filename d) (daq_file d) (cycle_id d)
    (task d).
Definition set_dac_floor_table (v : list Z) (d : Device) : Device :=
  mkDevice (thresh_delta d) (rshaper d) (rfm_on d) (ip_addr d) (run_cnt d)
    (trig_mode d) (cfg_mode d) v (pa_gain_table d)
    (mask_table d) (mem_fd d) (daq_filename d) (daq_file d) (cycle_id d)
    (task d).
Definition set_pa_gain_table (v : list Z) (d : Device) : Device :=
  mkDevice (thresh_delta d) (rshaper d) (rfm_on d) (ip_addr d) (run_cnt d)
    (trig_mode d) (cfg_mode d) (dac_floor_table d) v
    (mask_table d) (mem_fd d) (daq_filename d) (daq_file d) (cycle_id d)
    (task d).
Definition set_mask_table (v : list Z) (d : Device) : Device :=
  mkDevice (thresh_delta d) (rshaper d) (rfm_on d) (ip_addr d) (run_cnt d)
    (trig_mode d) (cfg_mode d) (dac_floor_table d) (pa_gain_table d)
    v (mem_fd d) (daq_filename d) (daq_file d) (cycle_id d)
    (task d).

(** A reader of a table ([read_th_offset], [read_pa_gain], [read_mask],
    declared outside device.c) is handed the table of the device: what it
    leaves there is the [data] of its answer; it returns its [ret_val]. *)
Definition read_table (c : libc_call) (store : list Z -> Device -> Device)
  : H Z :=
  (r <- h_call c; h_modify (store (data r));; h_ret (ret_val r))%H.

(** lines 140-206; [strdup] is taken to succeed *)
Definition device_configure (thresh rshaper' rfm : Z) (ip : string) (run : Z)
  : H Z :=
  (h_modify (set_thresh_delta thresh);;
   h_modify (set_rshaper rshaper');;
   h_modify (set_rfm_on rfm);;
   h_modify (set_ip_addr (Some ip));;
   h_modify (set_run_cnt run);;
   err <- h_int SystemScpBase;
   if negb (err =? 0) then h_ret err
   else
     conf_base_file <- h_int (FopenConf ConfBase);
     if conf_base_file =? 0 then h_ret (-1)
     else
       e <- h_int (HrscReadConfSingl conf_base_file 0);
       if e <? 0 then h_call (FcloseConf conf_base_file);; h_ret (-1)
       else
         h_call (FcloseConf conf_base_file);;
         dac_floor_file <- h_int (FopenConf DacFloor);
         if dac_floor_file =? 0 then h_ret (-1)
         else
           e <- read_table (ReadThOffset dac_floor_file) set_dac_floor_table;
           if e <? 0 then h_call (FcloseConf dac_floor_file);; h_ret (-1)
           else
             h_call (FcloseConf dac_floor_file);;
             pa_gain_file <- h_int (FopenConf PaGain);
             if pa_gain_file =? 0 then h_ret (-1)
             else
               e <- read_table (ReadPaGain pa_gain_file) set_pa_gain_table;
               if e <? 0 then h_call (FcloseConf pa_gain_file);; h_ret (-1)
               else
                 h_call (FcloseConf pa_gain_file);;
                 mask_file <- h_int (FopenConf MaskFile);
                 if mask_file =? 0 then h_ret (-1)
                 else
                   e <- read_table (ReadMask mask_file) set_mask_table;
                   if e <? 0 then h_call (FcloseConf mask_file);; h_ret (-1)
                   else
                     h_call (FcloseConf mask_file);;
                     h_ret 0)%H.

(** lines 922-945.  [filename] holds the bytes of the C string, without
    its terminator.  The comparison of the answer with "ACK" only feeds the
    log: the buffer of 4 zero bytes receives at most 3, so that [strcmp]
    stays inside it. *)
Definition give_file_to_server (filename : list Z) (sock : Z) : H unit :=
  (if sock =? 0 then h_ret tt
   else
     let length := wrap_u32 (Z.of_nat (List.length filename)) in
     let length_litend := [wrap_u8 length; 0; 0; 0] in
     h_call (SendTo sock length_litend);;
     h_call (SendTo sock (take (Z.to_nat length) filename));;
     h_call (ReadFrom sock 3);;
     h_ret tt)%H.

(** ** The vocabulary of the statements *)

(** *** Exchanges *)

(** An answer to [recv] that passes the check. *)
Definition acked (r : reply) : bool :=
  (0 <=? ret_val r) && bool_decide (take 4 (data r) = ACK).

(** The calls of the exchange for a task, and the worlds they lead to. *)
Definition dif_size (t : Task) : Z := wrap_u32 (t_end t - t_beg t).
Definition header_call (t : Task) : call :=
  Send (t_sck t) (dif_header (dif_size t)).
Definition payload_call (t : Task) (w : World) : call :=
  Send (t_sck t) (read_bytes (daq_mem w) (t_beg t) (Z.to_nat (dif_size t))).
Definition ack_call (t : Task) : call := Recv (t_sck t) 4.

(** *** Configuration *)

(** The body of the search loop of [device_configure_dif] (lines 129-135),
    and what it does to the slot it finds. *)
Definition configure_dif_body (dif : Z) (addr : string) (port : Z) (i : Z)
  : M (option Z) :=
  t <- get_task i;
  if negb (t_dif t =? dif) then ret None
  else
    modify_task i (set_t_addr (Some addr));;
    modify_task i (set_t_port port);;
    ret (Some 0).

Definition bind_dif (addr : string) (port : Z) (t : Task) : Task :=
  set_t_port port (set_t_addr (Some addr) t).

(** *** What the loops leave alone *)

(** The device with the result codes blanked: what the streaming loop
    never changes. *)
Definition erase_rc (d : Device) : Device :=
  set_task (set_t_rc 0 <$> task d) d.

(** What the buffering leaves alone in the device. *)
Definition run_frame (d : Device) : Z * Z * Z * nat :=
  (rfm_on d, daq_file d, cycle_id d, length (task d)).

(** The headers due for the active slots among [l], in the order of [l]. *)
Definition slot_headers (w : World) (l : list Z) : list call :=
  omap (fun j => if rfm_active (ctx w) j then header_call <$> task_at w j
                 else None) l.

(** *** The PLL-lock polls *)

(** The answer of the FPGA to the poll number [i] (from 0) of a
    [pll_wait] entered in world [w]: polls and sleeps alternate. *)
Definition pll_lck_at (w : World) (i : nat) : Z :=
  ret_val (reply_at (env w) (now w + 1 + 2 * i)%nat SyncPllLck).

(** Calls that are part of the wait. *)
Definition pll_wait_call (c : call) : Prop :=
  c = SyncPllLck \/ c = Usleep 10000.

(** The answer of the FPGA to the poll number [i] (from 0) of the PLL-lock
    flag made by a [device_init_fpga] entered in world [w]: the reset and
    a first sleep come before, then polls and sleeps alternate. *)
Definition fpga_pll_poll (w : World) (i : nat) : Z :=
  ret_val (reply_at (env w) (now w + 3 + 2 * i)%nat SyncPllLck).

(** *** The wire *)

(** What went out on the sockets, oldest first. *)
Definition sent (tr : list (call * reply)) : list (Z * list Z) :=
  omap (fun cr => match cr.1 with
                  | Send sck bytes => Some (sck, bytes)
                  | _ => None
                  end) (rev tr).

(** The number a little-endian byte string stands for. *)
Definition le_decode (bytes : list Z) : Z :=
  foldr (fun b acc => b + 256 * acc) 0 bytes.

(** *** Calls *)

(** The world a computation ends in, however it ends. *)
Definition final {A} (o : outcome A) : World :=
  match o with Done _ w | Undef w | Fuel w => w end.

(** [m] makes only calls that satisfy [P], wherever it starts and however
    it ends. *)
Definition only_calls (P : call -> Prop) {A} (m : M A) : Prop :=
  forall w, exists new,
    trace (final (m w)) = new ++ trace w /\ Forall (fun cr => P cr.1) new.

Definition is_daq_write (c : call) : bool :=
  match c with DaqWriteBuffer _ _ => true | _ => false end.

(** *** A bench with four slots *)

(** Slots 0..3 carry the dif identifiers 1..4 and the sockets 10..13; the
    run file is handle 7; the byte at offset [a] of the buffer memory is
    [16 + a] to start with. *)
Definition bench_task (dif sck : Z) : Task := mkTask dif 0 None 0 sck 0 0 0 0.
Definition bench_device (mode rfm : Z) : Device :=
  mkDevice 0 0 rfm None 0 mode "csv" [] [] [] 3 None 7 0
    [bench_task 1 10; bench_task 2 11; bench_task 3 12; bench_task 4 13].

(** The hardware is always ready and the FIFO of slot [s] holds the two
    bytes [10 s + 1], [10 s + 2]; the peers take every header and answer
    'A', 'C', 'K', [ack4]; sending a payload returns [payload_rc]; SIGINT
    comes just before interaction number [sigint]; the PLL-lock flag is
    never set. *)
Definition bench_env (sigint : nat) (payload_rc ack4 : Z) : Env :=
  mkEnv (fun _ c =>
           match c with
           | Recv _ _ => mkReply 4 [65; 67; 75; ack4]
           | DaqReadDif s => mkReply 0 [10 * s + 1; 10 * s + 2]
           | Send _ bytes =>
               if (length bytes =? 8)%nat then mkReply 8 []
               else mkReply payload_rc []
           | SyncPllLck => mkReply 0 []
           | _ => mkReply 1 []
           end)
        (fun t => (t =? sigint)%nat).

Definition bench_world (mode rfm : Z) (sigint : nat) (payload_rc ack4 : Z)
  : World :=
  mkWorld (bench_device mode rfm) 1 (fun a => 16 + a) 0 0 []
          (bench_env sigint payload_rc ack4).

(** The calls made so far, oldest first. *)
Definition calls (w : World) : list call := rev (trace w).*1.

(** The window of slot 0 set to the first two bytes of the buffer. *)
Definition bench_loaded (payload_rc ack4 : Z) : World :=
  set_ctx (upd_task 0 (set_t_window 0 2 0)) (bench_world 0 3 0 payload_rc ack4).

(** The bench with shaper value 1 recorded on the device. *)
Definition bench_shaped : World :=
  set_ctx (set_rshaper 1) (bench_world 0 3 0 2 0).

(** The bench after [device_init_mmap]. *)
Definition bench_mapped : World :=
  Eval vm_compute in
    match device_init_mmap (bench_world 0 3 0 2 0) with
    | Done _ w | Undef w | Fuel w => w
    end.

(** *** Slots *)

(** The active slots below [n], in ascending order. *)
Definition active_slots (d : Device) (n : nat) : list Z :=
  filter (fun i => rfm_active d i = true) (upto n).

(** *** Calls made *)

(** From [w] to [w'] exactly the calls [cs] have been made, in this
    order. *)
Definition made (w w' : World) (cs : list call) : Prop :=
  exists new, trace w' = new ++ trace w /\ rev new.*1 = cs.

(** From [w] to [w'] the device has stayed as it was and only calls
    allowed by [P] have been made. *)
Definition calls_rel (P : Device -> call -> Prop) (w w' : World) : Prop :=
  ctx w' = ctx w /\
  exists new, trace w' = new ++ trace w /\
              Forall (fun cr => P (ctx w) cr.1) new.

(** From [w] to [w'] the part [f] of the device has stayed as it was. *)
Definition same_on {X} (f : Device -> X) (w w' : World) : Prop :=
  f (ctx w') = f (ctx w).

(** *** What a run changes, and what it calls *)

(** The device with what the run loop updates blanked: the cycle counter
    and, in every slot, the buffer window and the result code. *)
Definition erase_slot (t : Task) : Task := set_t_rc 0 (set_t_window 0 0 0 t).
Definition erase_run (d : Device) : Device :=
  set_cycle_id 0 (set_task (erase_slot <$> task d) d).

(** [sck] is the socket of an active slot of the task array. *)
Definition slot_socket (d : Device) (sck : Z) : Prop :=
  exists i t, task d !! i = Some t /\ rfm_active d (Z.of_nat i) = true /\
              t_sck t = sck.

(** The calls of a run loop in trigger mode [m] on the device [d]. *)
Definition run_call (m : Z) (d : Device) (c : call) : Prop :=
  match c with
  | DaqResetBuffer | SyncFifoReady | SyncFifoAck => True
  | SyncFpgaRo => m = 0
  | DaqWriteBuffer file _ => m = 0 /\ file = daq_file d
  | SyncRamfull | SyncRamfullExt | SyncStartAcq => m = 1
  | DaqReadDif slot => rfm_active d slot = true
  | Send sck _ | Recv sck _ => slot_socket d sck
  | _ => False
  end.

(** From [w] to [w'] a run loop in mode [m] may have been at work. *)
Definition run_rel (m : Z) (w w' : World) : Prop :=
  erase_run (ctx w') = erase_run (ctx w) /\
  exists new, trace w' = new ++ trace w /\
              Forall (fun cr => run_call m (ctx w) cr.1) new.

(** The call that closes a cycle of the run loop in trigger mode [m]: the
    write to the run file (mode 0), the restart of the acquisition
    (mode 1). *)
Definition cycle_mark (m : Z) (c : call) : bool :=
  match c with
  | DaqWriteBuffer _ _ => m =? 0
  | SyncStartAcq => m =? 1
  | _ => false
  end.

(** How many calls of a trace satisfy [p]. *)
Definition marks (p : call -> bool) (tr : list (call * reply)) : nat :=
  length (filter (fun cr => p cr.1 = true) tr).

(** From [w] to [w'] the cycle counter has stayed and no call satisfying
    [p] has been made. *)
Definition quiet_rel (p : call -> bool) (w w' : World) : Prop :=
  cycle_id (ctx w') = cycle_id (ctx w) /\
  exists new, trace w' = new ++ trace w /\
              Forall (fun cr => p cr.1 = false) new.

(** [m] relates every world to the one it ends in, however it ends. *)
Definition keeps (R : World -> World -> Prop) {A} (m : M A) : Prop :=
  forall w, R w (final (m w)).

(** *** The FPGA *)

(** [n] rounds of the wait for the PLL lock: a poll, then 10 ms of sleep. *)
Definition pll_polls (n : nat) : list call :=
  concat (replicate n [SyncPllLck; Usleep 10000]).

(** The calls that select the command source for trigger mode [m]. *)
Definition command_source (m : Z) : list call :=
  (if m =? 0
   then [SyncSelectCommandDcc; SyncEnableDccBusy; SyncEnableDccRamfull]
   else [])
  ++ (if m =? 1 then [SyncSelectCommandSoft] else []).

(** *** The Hardroc configuration *)

(** Starting from the device [d0], the device has stayed as it was and
    only calls allowed by [P] have been made. *)
Definition calls_on (d0 : Device) (P : call -> Prop) (w w' : World) : Prop :=
  ctx w = d0 ->
  ctx w' = d0 /\
  exists new, trace w' = new ++ trace w /\ Forall (fun cr => P cr.1) new.

(** [table[idx]], when [idx] is inside the table. *)
Definition table_entry (table : list Z) (idx : Z) : option Z :=
  if idx <? 0 then None else table !! Z.to_nat idx.

(** The threshold written for the floor value [th]: the floor itself when
    the configuration comes from the database, the floor raised by
    [thresh_delta] otherwise. *)
Definition hrsc_threshold (d : Device) (th : Z) : Z :=
  if String.eqb (cfg_mode d) "db" then th
  else wrap_u32 (th + thresh_delta d).

(** The calls of [device_init_hrsc] on the device [d]. *)
Definition hrsc_call (d : Device) (c : call) : Prop :=
  match c with
  | HrscSetBit hr bit v => hr = 0 /\ bit = 854 /\ v = 0
  | HrscSetShaperResis hr v => hr = 0 /\ v = rshaper d
  | HrscSetShaperCapa hr v => hr = 0 /\ v = 3
  | HrscSetChipId hr id => id = hr + 1
  | HrscSetMask hr chan v =>
      exists rfm, rfm_active d rfm = true /\
        table_entry (mask_table d) (64 * (NB_HR * rfm + hr) + chan) = Some v
  | HrscSetPreamp hr chan v =>
      exists rfm, rfm_active d rfm = true /\
        table_entry (pa_gain_table d) (64 * (NB_HR * rfm + hr) + chan) = Some v
  | HrscSetDAC0 hr v =>
      exists rfm th, rfm_active d rfm = true /\
        table_entry (dac_floor_table d) (3 * (NB_HR * rfm + hr) + 0) = Some th /\
        v = hrsc_threshold d th
  | HrscSetDAC1 hr v =>
      exists rfm th, rfm_active d rfm = true /\
        table_entry (dac_floor_table d) (3 * (NB_HR * rfm + hr) + 1) = Some th /\
        v = hrsc_threshold d th
  | HrscSetDAC2 hr v =>
      exists rfm th, rfm_active d rfm = true /\
        table_entry (dac_floor_table d) (3 * (NB_HR * rfm + hr) + 2) = Some th /\
        v = hrsc_threshold d th
  | HrscSetConfig rfm | HrscResetReadRegisters rfm | PrintConfig rfm =>
      rfm_active d rfm = true
  | FprintfRfmIndex _ rfm => cfg_mode d = "csv" /\ rfm_active d rfm = true
  | HrscCopyConf src _ => cfg_mode d = "csv" /\ src = 0
  | HrscWriteConfMult _ | Fclose _ => cfg_mode d = "csv"
  | Fopen p | SystemScp p => cfg_mode d = "csv" /\ p = HrScCsv (run_cnt d)
  | Sleep s => s = 1
  | _ => False
  end.

(** The calls that write or ship the configuration history. *)
Definition history_call (c : call) : bool :=
  match c with
  | Fopen _ | Fclose _ | SystemScp _ | HrscCopyConf _ _
  | HrscWriteConfMult _ | FprintfRfmIndex _ _ => true
  | _ => false
  end.

(** From a world where [I] holds, [m] returns, in a world where [I]
    holds. *)
Definition returns (I : World -> Prop) {A} (m : M A) : Prop :=
  forall w, I w -> exists a w', m w = Done a w' /\ I w'.

(** The dump of a configuration that could not be sent. *)
Definition is_print_config (c : call) : bool :=
  match c with PrintConfig _ => true | _ => false end.

(** The calls that close the history file and ship it. *)
Definition closes_history (c : call) : bool :=
  match c with Fclose _ | SystemScp _ => true | _ => false end.

(** *** Sockets *)

(** The device with the sockets of the slots blanked. *)
Definition forget_sck (d : Device) : Device :=
  set_task (set_t_sck 0 <$> task d) d.

Definition scks_call (c : call) : Prop :=
  match c with
  | Socket | InetPton _ | Connect _ _ => True
  | _ => False
  end.

(** From [w] to [w'] only sockets have been created and connected, and
    nothing of the device but the sockets of the slots has changed. *)
Definition scks_rel (w w' : World) : Prop :=
  forget_sck (ctx w') = forget_sck (ctx w) /\
  exists new, trace w' = new ++ trace w /\
              Forall (fun cr => scks_call cr.1) new.

(** A slot that carries a module. *)
Definition bound (t : Task) : Prop := t_dif t <> 0.

(** The three calls that connect the slot [t], most recent first, with
    answers that let [device_init_scks] go on: the descriptor returned by
    [socket] is the one recorded in the slot. *)
Definition sck_exchange (t : Task) (seg : list (call * reply)) : Prop :=
  exists r1 r2 r3,
    seg = [(Connect (t_sck t) (t_port t mod 2 ^ 16), r3);
           (InetPton (t_addr t), r2); (Socket, r1)] /\
    ret_val r1 = t_sck t /\ 0 <= t_sck t /\ 0 < ret_val r2 /\ 0 <= ret_val r3.

(** *** A laboratory with chosen answers *)

(** Every call is answered by [answers], whenever it is made; SIGINT comes
    just before interaction number [sigint] (never when that is 0). *)
Definition lab_env (answers : call -> reply) (sigint : nat) : Env :=
  mkEnv (fun _ c => answers c) (fun t => (t =? sigint)%nat).

Definition lab_world (d : Device) (answers : call -> reply) (sigint : nat)
  : World :=
  mkWorld d 1 (fun a => 16 + a) 0 0 [] (lab_env answers sigint).

(** Every call returns [v]. *)
Definition all_answer (v : Z) (c : call) : reply := mkReply v [].

(** Every call returns 1, except that [HRSC_set_config] fails. *)
Definition hrsc_fails (c : call) : reply :=
  match c with
  | HrscSetConfig _ => mkReply (-1) []
  | _ => mkReply 1 []
  end.

(** A device fresh from [calloc], configured from "csv", slot 0 active. *)
Definition lab_device : Device :=
  set_rfm_on 1 (set_cfg_mode "csv" zero_device).

(** *** Files held by the configuration *)

(** [f] taken out of the files held, once. *)
Fixpoint close_one (f : Z) (held : list Z) : list Z :=
  match held with
  | [] => []
  | x :: rest => if x =? f then rest else x :: close_one f rest
  end.

(** The files still open after the calls [tr] (oldest first), when [held]
    were open before: a successful [fopen] adds its stream, [fclose] takes
    its argument out. *)
Fixpoint still_open (tr : list (libc_call * reply)) (held : list Z) : list Z :=
  match tr with
  | [] => held
  | (FopenConf _, r) :: rest =>
      still_open rest (if ret_val r =? 0 then held else ret_val r :: held)
  | (FcloseConf f, _) :: rest => still_open rest (close_one f held)
  | _ :: rest => still_open rest held
  end.

(** The calls of a [Host] so far, oldest first. *)
Definition h_calls (h : Host) : list libc_call := rev (h_trace h).*1.

(** A host that has made no call yet, its answers chosen call by call. *)
Definition lab_host (d : Device) (answers : libc_call -> reply) : Host :=
  mkHost d 0 [] (fun _ c => answers c).

(** Every call returns 0, except that [fopen] returns the stream 5. *)
Definition files_open (c : libc_call) : reply :=
  match c with
  | FopenConf _ => mkReply 5 []
  | _ => mkReply 0 []
  end.

(** What a call of a [Host] answers, and the host after it; the host with
    its device changed. *)
Definition h_answer (c : libc_call) (h : Host) : reply :=
  h_env h (S (h_now h)) c.
Definition h_after (c : libc_call) (h : Host) : Host :=
  mkHost (h_ctx h) (S (h_now h)) ((c, h_answer c h) :: h_trace h) (h_env h).
Definition h_set (f : Device -> Device) (h : Host) : Host :=
  mkHost (f (h_ctx h)) (h_now h) (h_trace h) (h_env h).

(** the settings of [device_configure], stored, and what a table read
    leaves of them *)
Definition settings_stored (thresh rs rfm : Z) (ip : string) (run : Z)
    (d d' : Device) : Prop :=
  thresh_delta d' = thresh /\ rshaper d' = rs /\ rfm_on d' = rfm /\
  ip_addr d' = Some ip /\ run_cnt d' = run /\
  trig_mode d' = trig_mode d /\ cfg_mode d' = cfg_mode d /\
  mem_fd d' = mem_fd d /\ daq_filename d' = daq_filename d /\
  daq_file d' = daq_file d /\ cycle_id d' = cycle_id d /\
  task d' = task d.

(** The calls of [device_configure] that read a file. *)
Definition reads (c : libc_call) : Prop :=
  match c with
  | HrscReadConfSingl _ _ | ReadThOffset _ | ReadPaGain _ | ReadMask _ => True
  | _ => False
  end.

(** The calls of a [device_configure] that went through, on the streams
    [f1] to [f4]. *)
Definition configure_calls (f1 f2 f3 f4 : Z) : list libc_call :=
  [ SystemScpBase;
    FopenConf ConfBase; HrscReadConfSingl f1 0; FcloseConf f1;
    FopenConf DacFloor; ReadThOffset f2; FcloseConf f2;
    FopenConf PaGain; ReadPaGain f3; FcloseConf f3;
    FopenConf MaskFile; ReadMask f4; FcloseConf f4 ].

(** The answers [device_configure] gives up on: a copy with a status other
    than 0, an [fopen] without a stream, a reader below 0. *)
Definition refused (ca : libc_call * reply) : Prop :=
  match ca.1 with
  | SystemScpBase => ret_val ca.2 <> 0
  | FopenConf _ => ret_val ca.2 = 0
  | HrscReadConfSingl _ _ | ReadThOffset _ | ReadPaGain _ | ReadMask _ =>
      ret_val ca.2 < 0
  | _ => False
  end.

(** *** A cycle of the run loop, in its parts *)

(** The body of the run loop up to the readout: lines 718-737 in trigger
    mode 0, lines 793-811 otherwise; [true] when the readout is reached,
    [false] when the body is left by [break]. *)
Definition cycle_waits (m : Z) (fuel : nat) : M bool :=
  if m =? 0 then
    DAQ_reset_buffer;;
    wait_flag SYNC_fpga_ro fuel;;
    g <- read_g_state;
    if g =? 0 then ret false
    else
      wait_flag SYNC_fifo_ready fuel;;
      g <- read_g_state;
      if g =? 0 then ret false else ret true
  else
    DAQ_reset_buffer;;
    wait_flag SYNC_ramfull fuel;;
    g <- read_g_state;
    if g =? 0 then ret false
    else
      SYNC_ramfull_ext;;
      wait_flag SYNC_fifo_ready fuel;;
      g <- read_g_state;
      if g =? 0 then ret false else ret true.

(** The readout up to the streaming loop: lines 739-759 in trigger mode 0,
    lines 812-827 otherwise. *)
Definition before_streaming (m : Z) : M unit :=
  if m =? 0 then
    buffer_difs;;
    SYNC_fifo_ack;;
    d <- get_ctx;
    DAQ_write_buffer (daq_file d)
  else
    buffer_difs;;
    SYNC_fifo_ack.

(** The end of the body, after the streaming loop: line 773 in trigger
    mode 0, lines 841-842 otherwise. *)
Definition after_streaming (m : Z) : M unit :=
  if m =? 0 then next_cycle
  else SYNC_start_acq;; next_cycle.

(** *** Boots in a row *)

(** The calls [device_boot_rfm dif slot rshaper trig] of the list, made one
    after the other; their results, in order. *)
Fixpoint boot_rfms (reqs : list (Z * Z * Z * Z)) : M (list Z) :=
  match reqs with
  | [] => ret []
  | (dif, slot, rs, trig) :: rest =>
      rc <- device_boot_rfm dif slot rs trig;
      rcs <- boot_rfms rest;
      ret (rc :: rcs)
  end.

(** *** The answers to [device_init_mmap] *)

(** What [open] answers to a [device_init_mmap] entered in [w], and what
    the two mappings answer when they are asked next. *)
Definition mmap_fd (w : World) : Z := ret_val (answer (Open DevMem) w).
Definition mmap_lw (w : World) : Z :=
  ret_val (answer (MmapLwH2f (mmap_fd w)) (after (Open DevMem) w)).
Definition mmap_h2f_answer (w : World) : Z :=
  ret_val (answer (MmapH2f (mmap_fd w))
             (after (MmapLwH2f (mmap_fd w)) (after (Open DevMem) w))).

(** ** Reasoning about worlds and calls *)

Lemma tick_ctx w : ctx (tick w) = ctx w.
Proof. unfold tick. destruct (sigint_at _ _); reflexivity. Qed.
Lemma tick_env w : env (tick w) = env w.
Proof. unfold tick. destruct (sigint_at _ _); reflexivity. Qed.
Lemma tick_now w : now (tick w) = S (now w).
Proof. unfold tick. destruct (sigint_at _ _); reflexivity. Qed.
Lemma tick_trace w : trace (tick w) = trace w.
Proof. unfold tick. destruct (sigint_at _ _); reflexivity. Qed.
Lemma tick_daq_mem w : daq_mem (tick w) = daq_mem w.
Proof. unfold tick. destruct (sigint_at _ _); reflexivity. Qed.
Lemma tick_daq_fill w : daq_fill (tick w) = daq_fill w.
Proof. unfold tick. destruct (sigint_at _ _); reflexivity. Qed.

Lemma after_ctx c w : ctx (after c w) = ctx w.
Proof. unfold after, record. simpl. apply tick_ctx. Qed.
Lemma after_env c w : env (after c w) = env w.
Proof. unfold after, record. simpl. apply tick_env. Qed.
Lemma after_now c w : now (after c w) = S (now w).
Proof. unfold after, record. simpl. apply tick_now. Qed.
Lemma after_trace c w : trace (after c w) = (c, answer c w) :: trace w.
Proof. unfold after, record. simpl. by rewrite tick_trace. Qed.
Lemma after_daq_mem c w : daq_mem (after c w) = daq_mem w.
Proof. unfold after, record. simpl. apply tick_daq_mem. Qed.
Lemma after_daq_fill c w : daq_fill (after c w) = daq_fill w.
Proof. unfold after, record. simpl. apply tick_daq_fill. Qed.

Lemma task_at_after c w slot : task_at (after c w) slot = task_at w slot.
Proof. unfold task_at. by rewrite after_ctx. Qed.

Create Rewrite HintDb world.
#[local] Hint Rewrite tick_ctx tick_env tick_now tick_trace tick_daq_mem
  tick_daq_fill after_ctx after_env after_now after_trace after_daq_mem
  after_daq_fill task_at_after : world.

Lemma bind_Done {A B} (m : M A) (k : A -> M B) w a w1 :
  m w = Done a w1 -> bind m k w = k a w1.
Proof. intros H. unfold bind. by rewrite H. Qed.

Lemma bind_assoc {A B C} (m : M A) (k : A -> M B) (k' : B -> M C) w :
  bind (bind m k) k' w = bind m (fun a => bind (k a) k') w.
Proof. unfold bind. destruct (m w); reflexivity. Qed.

Lemma bind_ext {A B} (m : M A) (k k' : A -> M B) w :
  (forall a w1, k a w1 = k' a w1) -> bind m k w = bind m k' w.
Proof. intros H. unfold bind. destruct (m w); auto. Qed.

Lemma bind_ret {A B} (a : A) (k : A -> M B) w : bind (ret a) k w = k a w.
Proof. reflexivity. Qed.

(** run the first computation of a sequence, given its result *)
Ltac mstep H := rewrite ?bind_assoc; rewrite (bind_Done _ _ _ _ _ H).

Lemma ext_int_eq c w : ext_int c w = Done (ret_val (answer c w)) (after c w).
Proof. reflexivity. Qed.
Lemma ext_void_eq c w : ext_void c w = Done tt (after c w).
Proof. reflexivity. Qed.

(** run the straight-line calls at the head of a computation *)
Ltac run_calls :=
  repeat first
    [ rewrite bind_assoc
    | rewrite (bind_Done _ _ _ _ _ (ext_void_eq _ _))
    | rewrite (bind_Done _ _ _ _ _ (ext_int_eq _ _))
    | rewrite bind_ret ].

Lemma get_task_eq slot w t :
  0 <= slot -> task_at w slot = Some t -> get_task slot w = Done t w.
Proof.
  intros Hs Ht. unfold get_task. unfold task_at in Ht.
  destruct (slot <? 0) eqn:E; [lia|]. by rewrite Ht.
Qed.

(** *** The acknowledgement check *)

Lemma not_acked_eval r b0 b1 b2 b3 rest w :
  not_acked r (b0 :: b1 :: b2 :: b3 :: rest) w
  = Done (negb ((r =? 4) && (b0 =? 65) && (b1 =? 67) && (b2 =? 75)
                && (b3 =? 0))) w.
Proof.
  unfold not_acked, ACK, ret. destruct (r =? 4); [|reflexivity].
  simpl.
  repeat match goal with
         | |- context [?a =? ?b] =>
             destruct (Z.eqb_spec a b); try lia; subst; simpl
         end; reflexivity.
Qed.

Lemma recv_check sck buf w :
  exists res,
    recv sck buf 4 w = Done res (after (Recv sck 4) w) /\
    not_acked (fst res) (snd res) (after (Recv sck 4) w)
    = Done (negb (acked (answer (Recv sck 4) w))) (after (Recv sck 4) w).
Proof.
  unfold recv, bind, ext, acked. change (Z.of_nat 4) with 4.
  set (r := answer (Recv sck 4) w). set (w1 := after (Recv sck 4) w).
  destruct (ret_val r <? 0) eqn:E.
  - eexists. split; [reflexivity|]. simpl.
    apply Z.ltb_lt in E. unfold not_acked, ret.
    destruct (Z.eqb_spec (ret_val r) 4); [lia|].
    destruct (Z.leb_spec 0 (ret_val r)); [lia|]. reflexivity.
  - eexists. split; [reflexivity|]. simpl fst. simpl snd.
    apply Z.ltb_ge in E. destruct (Z.leb_spec 0 (ret_val r)); [|lia].
    simpl andb.
    destruct (data r) as [|d0 [|d1 [|d2 [|d3 rest]]]];
      try (cbn; rewrite bool_decide_eq_false_2 by (unfold ACK; congruence);
           reflexivity).
    cbn [take length app]. rewrite not_acked_eval.
    do 2 f_equal. unfold ACK. change (Z.of_nat 4) with 4.
    case_bool_decide as Hd.
    + injection Hd as -> -> -> ->. reflexivity.
    + destruct (Z.eqb_spec d0 65), (Z.eqb_spec d1 67), (Z.eqb_spec d2 75),
        (Z.eqb_spec d3 0); subst; try reflexivity.
      exfalso. by apply Hd.
Qed.

(** *** One exchange, step by step *)

Lemma send_dif_eval slot w t :
  0 <= slot -> task_at w slot = Some t ->
  let w1 := after (header_call t) w in
  let w2 := after (ack_call t) w1 in
  let w3 := after (payload_call t w) w2 in
  let w4 := after (ack_call t) w3 in
  device_daq_send_dif slot w =
    if ret_val (answer (header_call t) w) =? -1 then Done (-1) w1
    else if negb (acked (answer (ack_call t) w1)) then Done 1 w2
    else if dif_size t =? 0 then Done 0 w2
    else if negb (acked (answer (ack_call t) w3)) then Done 1 w4
    else Done 0 w4.
Proof.
  intros Hs Ht. cbv zeta. unfold device_daq_send_dif.
  rewrite (bind_Done _ _ _ _ _ (get_task_eq _ _ _ Hs Ht)).
  unfold send. rewrite (bind_Done _ _ _ _ _ (ext_int_eq _ _)).
  fold (dif_size t). fold (header_call t).
  destruct (ret_val (answer (header_call t) w) =? -1) eqn:E1.
  { apply Z.eqb_eq in E1. rewrite E1. reflexivity. }
  destruct (recv_check (t_sck t) (dif_header (dif_size t))
                       (after (header_call t) w)) as (res & Hr & Hc).
  rewrite (bind_Done _ _ _ _ _ Hr). rewrite (bind_Done _ _ _ _ _ Hc).
  fold (ack_call t) in *.
  destruct (negb (acked (answer (ack_call t) (after (header_call t) w))));
    [reflexivity|].
  destruct (dif_size t =? 0); [reflexivity|].
  unfold bind at 1. autorewrite with world.
  rewrite (bind_Done _ _ _ _ _ (ext_int_eq _ _)).
  fold (payload_call t w).
  destruct (recv_check (t_sck t) (snd res)
              (after (payload_call t w) (after (ack_call t) (after (header_call t) w))))
    as (res' & Hr' & Hc').
  rewrite (bind_Done _ _ _ _ _ Hr'). rewrite (bind_Done _ _ _ _ _ Hc').
  fold (ack_call t) in *.
  destruct (negb _); reflexivity.
Qed.

(** *** Slots and the task array *)

Lemma modify_task_eq slot f w t :
  0 <= slot -> task_at w slot = Some t ->
  modify_task slot f w = Done tt (set_ctx (upd_task (Z.to_nat slot) f) w).
Proof.
  intros Hs Ht. unfold modify_task.
  rewrite (bind_Done _ _ _ _ _ (get_task_eq _ _ _ Hs Ht)). reflexivity.
Qed.

Lemma task_at_upd_same slot f w t :
  task_at w slot = Some t ->
  task_at (set_ctx (upd_task (Z.to_nat slot) f) w) slot = Some (f t).
Proof.
  unfold task_at. simpl. intros Ht.
  rewrite list_lookup_alter_eq, Ht. reflexivity.
Qed.

(** the bit [slot] of [rfm_on] after [rfm_on |= (1 << slot)] *)
Lemma rfm_active_set x slot :
  0 <= slot < 32 ->
  (Z.land (Z.shiftr (wrap_u32 (Z.lor x (Z.shiftl 1 slot))) slot) 1 =? 1)
  = true.
Proof.
  intros Hs. apply Z.eqb_eq. unfold wrap_u32.
  change 1 with (Z.ones 1) at 2. rewrite Z.land_ones by lia.
  rewrite Z.shiftr_div_pow2 by lia. change (2 ^ 1) with 2.
  rewrite <- Z.testbit_spec' by lia.
  rewrite Z.mod_pow2_bits_low by lia.
  rewrite Z.lor_spec, Z.shiftl_spec by lia.
  rewrite Z.sub_diag. simpl. by rewrite orb_true_r.
Qed.

Lemma alter_twice {A} (f g : A -> A) i (l : list A) :
  alter f i (alter g i l) = alter (fun x => f (g x)) i l.
Proof.
  revert i. induction l as [|x l IH]; intros [|i]; simpl; try reflexivity.
  f_equal. apply IH.
Qed.

(** *** [device_configure_dif]: the search for the slot *)

Lemma configure_dif_search dif addr port suf : forall pre w,
  task (ctx w) = pre ++ suf ->
  for_until (Z.of_nat <$> seq (length pre) (length suf))
            (configure_dif_body dif addr port) w
  = match list_find (fun t => t_dif t = dif) suf with
    | None => Done None w
    | Some (j, _) =>
        Done (Some 0)
             (set_ctx (upd_task (length pre + j) (bind_dif addr port)) w)
    end.
Proof.
  induction suf as [|t suf IH]; intros pre w Hw; [reflexivity|].
  cbn [length seq fmap list_fmap for_until].
  assert (Hl : task_at w (Z.of_nat (length pre)) = Some t).
  { unfold task_at. rewrite Nat2Z.id, Hw.
    by rewrite lookup_app_r, Nat.sub_diag by lia. }
  unfold configure_dif_body at 1.
  mstep (get_task_eq _ _ _ (Zle_0_nat _) Hl).
  cbn [list_find]. unfold decide, decide_rel.
  destruct (Z.eqb_spec (t_dif t) dif) as [He|Hne].
  - destruct (Z.eq_dec (t_dif t) dif) as [_|]; [|done]. cbn [negb].
    mstep (modify_task_eq _ (set_t_addr (Some addr)) _ _ (Zle_0_nat _) Hl).
    pose proof (task_at_upd_same _ (set_t_addr (Some addr)) _ _ Hl) as Hl2.
    mstep (modify_task_eq _ (set_t_port port) _ _ (Zle_0_nat _) Hl2).
    rewrite bind_ret.
    unfold ret. f_equal. rewrite Nat2Z.id, Nat.add_0_r.
    unfold set_ctx, upd_task, bind_dif. simpl.
    by rewrite alter_twice.
  - destruct (Z.eq_dec (t_dif t) dif) as [|_]; [done|]. cbn [negb].
    rewrite bind_ret.
    specialize (IH (pre ++ [t]) w).
    rewrite length_app, Nat.add_1_r in IH.
    rewrite IH by (by rewrite <- app_assoc).
    destruct (list_find _ suf) as [[j tj]|]; simpl; [|reflexivity].
    by rewrite Nat.add_succ_r.
Qed.

(** *** The streaming loop, one slot at a time *)

(** What one exchange leaves behind: the device and the buffer are as
    before, and the trace has grown, first by the header. *)
Lemma send_dif_total slot w t :
  0 <= slot -> task_at w slot = Some t ->
  exists err w1 seg,
    device_daq_send_dif slot w = Done err w1 /\
    ctx w1 = ctx w /\ env w1 = env w /\ daq_mem w1 = daq_mem w /\
    trace w1 = seg ++ (header_call t, answer (header_call t) w) :: trace w.
Proof.
  intros Hs Ht. rewrite (send_dif_eval _ _ _ Hs Ht).
  repeat match goal with
         | |- context [if ?b then _ else _] => destruct b
         end;
    eexists _, _, _; (split; [reflexivity|]); autorewrite with world;
    split_and!; try reflexivity.
  - by instantiate (1 := []).
  - by instantiate (1 := [_]).
  - by instantiate (1 := [_]).
  - by instantiate (1 := [_; _; _]).
  - by instantiate (1 := [_; _; _]).
Qed.

Lemma send_dif_step_eval k w t :
  0 <= k -> task_at w k = Some t ->
  if rfm_active (ctx w) k then
    exists err w1 seg,
      device_daq_send_dif k w = Done err w1 /\
      ctx w1 = ctx w /\ env w1 = env w /\ daq_mem w1 = daq_mem w /\
      trace w1 = seg ++ (header_call t, answer (header_call t) w) :: trace w /\
      send_dif_step k w
      = Done tt (if err =? 0 then w1
                 else set_ctx (upd_task (Z.to_nat k) (set_t_rc err)) w1)
  else send_dif_step k w = Done tt w.
Proof.
  intros Hk Ht. unfold send_dif_step.
  destruct (rfm_active (ctx w) k) eqn:Ha.
  2: { unfold get_ctx, bind. by rewrite Ha. }
  destruct (send_dif_total _ _ _ Hk Ht)
    as (err & w1 & seg & He & Hc & Hv & Hm & Htr).
  exists err, w1, seg. split_and!; try done.
  unfold get_ctx at 1. unfold bind at 1. rewrite Ha. cbn [negb].
  mstep He. destruct (err =? 0); [reflexivity|]. cbn [negb].
  apply (modify_task_eq _ _ _ t); [done|].
  unfold task_at. by rewrite Hc.
Qed.

Lemma erase_rc_upd i err d : erase_rc (upd_task i (set_t_rc err) d) = erase_rc d.
Proof.
  unfold erase_rc, upd_task, set_task. simpl. f_equal.
  generalize (task d). intros l. revert i.
  induction l as [|x l IH]; intros [|i]; simpl; try reflexivity.
  f_equal. apply IH.
Qed.

Lemma erase_rc_rfm_on d d' : erase_rc d = erase_rc d' -> rfm_on d = rfm_on d'.
Proof. intros H. apply (f_equal rfm_on) in H. exact H. Qed.

Lemma erase_rc_header d d' i :
  erase_rc d = erase_rc d' ->
  header_call <$> task d !! i = header_call <$> task d' !! i.
Proof.
  intros H. apply (f_equal task) in H. simpl in H.
  apply (f_equal (fun l => header_call <$> l !! i)) in H. simpl in H.
  rewrite !list_lookup_fmap in H.
  destruct (task d !! i), (task d' !! i);
    unfold header_call, dif_size in *; simpl in *; congruence.
Qed.

Lemma erase_rc_length d d' :
  erase_rc d = erase_rc d' -> length (task d) = length (task d').
Proof.
  intros H. apply (f_equal (fun x => length (task x))) in H. simpl in H.
  by rewrite !length_fmap in H.
Qed.

Lemma slot_headers_erase w w' l :
  erase_rc (ctx w') = erase_rc (ctx w) -> slot_headers w' l = slot_headers w l.
Proof.
  intros H. unfold slot_headers. induction l as [|j l IH]; [reflexivity|].
  cbn [omap list_omap]. rewrite IH. unfold rfm_active, task_at.
  by rewrite (erase_rc_rfm_on _ _ H), (erase_rc_header _ _ _ H).
Qed.

Lemma for_each_app {A} (l1 l2 : list A) body w :
  for_each (l1 ++ l2) body w = bind (for_each l1 body) (fun _ => for_each l2 body) w.
Proof.
  revert w. induction l1 as [|x l1 IH]; intros w; [reflexivity|].
  cbn [app for_each]. rewrite bind_assoc.
  apply bind_ext. intros _ w1. apply IH.
Qed.

Lemma send_loop_spec l : forall w,
  (forall j, j ∈ l -> 0 <= j /\ is_Some (task_at w j)) ->
  exists w',
    for_each l send_dif_step w = Done tt w' /\
    env w' = env w /\ daq_mem w' = daq_mem w /\
    erase_rc (ctx w') = erase_rc (ctx w) /\
    (forall i, Z.of_nat i ∉ l -> task (ctx w') !! i = task (ctx w) !! i) /\
    exists new,
      trace w' = new ++ trace w /\
      sublist (slot_headers w l) (rev new.*1).
Proof.
  induction l as [|k l IH]; intros w Hl.
  { exists w. split_and!; try done. exists []. split; [done|]. constructor. }
  destruct (Hl k) as [Hk [t Ht]]; [left|].
  assert (Hstep : exists w2 seg,
    send_dif_step k w = Done tt w2 /\ env w2 = env w /\ daq_mem w2 = daq_mem w /\
    erase_rc (ctx w2) = erase_rc (ctx w) /\
    (forall i, Z.of_nat i <> k -> task (ctx w2) !! i = task (ctx w) !! i) /\
    trace w2 = seg ++ trace w /\
    sublist (slot_headers w [k]) (rev seg.*1)).
  { pose proof (send_dif_step_eval k w t Hk Ht) as Hev.
    unfold slot_headers. cbn [omap list_omap]. rewrite Ht.
    destruct (rfm_active (ctx w) k).
    - destruct Hev as (err & w1 & seg & He & Hc & Hv & Hm & Htr & Hs).
      eexists _, (seg ++ [_]). split; [exact Hs|].
      assert (Hsub : sublist [header_call t]
                (rev (seg ++ [(header_call t, answer (header_call t) w)]).*1)).
      { rewrite fmap_app, rev_app_distr. simpl.
        apply sublist_skip, sublist_nil_l. }
      destruct (err =? 0).
      + rewrite Hc. split_and!; try done.
        by rewrite Htr, <- app_assoc.
      + cbn [set_ctx ctx env daq_mem trace]. rewrite Hc, erase_rc_upd.
        split_and!; try done.
        * intros i Hi. apply list_lookup_alter_ne. lia.
        * by rewrite Htr, <- app_assoc.
    - exists w, []. split_and!; try done; constructor. }
  destruct Hstep as (w2 & seg & Hs & Hv2 & Hm2 & He2 & Hu2 & Ht2 & Hsub2).
  destruct (IH w2) as (w' & Hf & Hv & Hm & He & Hu & new & Htr & Hsub).
  { intros j Hj. destruct (Hl j) as [Hj0 Hjs]; [by right|]. split; [done|].
    unfold task_at in *. apply lookup_lt_is_Some.
    apply lookup_lt_is_Some in Hjs.
    by rewrite (erase_rc_length _ _ He2). }
  exists w'. split_and!.
  - cbn [for_each]. by mstep Hs.
  - congruence.
  - congruence.
  - congruence.
  - intros i [Hik Hil]%not_elem_of_cons. by rewrite Hu, Hu2.
  - exists (new ++ seg). split; [by rewrite Htr, Ht2, app_assoc|].
    rewrite fmap_app, rev_app_distr.
    change (k :: l) with ([k] ++ l). unfold slot_headers.
    rewrite omap_app. apply sublist_app; [done|].
    fold (slot_headers w l). by rewrite <- (slot_headers_erase w w2 l He2).
Qed.

(** *** The PLL-lock wait *)

Lemma pll_lck_at_next w i :
  pll_lck_at (after (Usleep 10000) (after SyncPllLck w)) i
  = pll_lck_at w (S i).
Proof.
  unfold pll_lck_at. autorewrite with world. do 2 f_equal. lia.
Qed.

Lemma pll_lck_at_0 w : pll_lck_at w 0 = ret_val (answer SyncPllLck w).
Proof. unfold pll_lck_at, answer. do 2 f_equal. lia. Qed.

Lemma pll_wait_unfold fuel cnt w :
  pll_wait fuel cnt w =
  if (ret_val (answer SyncPllLck w) =? 0) && (cnt <? 100) then
    match fuel with
    | O => Fuel (after SyncPllLck w)
    | S fuel' =>
        pll_wait fuel' (cnt + 1) (after (Usleep 10000) (after SyncPllLck w))
    end
  else Done cnt (after SyncPllLck w).
Proof.
  destruct fuel; cbn [pll_wait]; unfold SYNC_pll_lck;
    rewrite (bind_Done _ _ _ _ _ (ext_int_eq _ _));
    destruct (_ && _); reflexivity.
Qed.

(** No lock seen in the polls left: the wait ends with the budget spent. *)
Lemma pll_wait_exhausts n : forall fuel cnt w,
  cnt + Z.of_nat n = 100 -> (n <= fuel)%nat ->
  (forall i, (i < n)%nat -> pll_lck_at w i = 0) ->
  exists w' new,
    pll_wait fuel cnt w = Done 100 w' /\
    ctx w' = ctx w /\ env w' = env w /\
    trace w' = new ++ trace w /\ Forall (fun cr => pll_wait_call cr.1) new.
Proof.
  induction n as [|n IH]; intros fuel cnt w Hc Hf Hz; rewrite pll_wait_unfold.
  - assert (cnt = 100) as -> by lia. rewrite andb_false_r.
    eexists _, [_]. split; [reflexivity|].
    split_and!; autorewrite with world; try done.
    repeat (constructor; [(by left) || (by right)|]). constructor.
  - rewrite <- pll_lck_at_0, Hz by lia. simpl.
    destruct (Z.ltb_spec cnt 100); [|lia].
    destruct fuel as [|fuel]; [lia|].
    destruct (IH fuel (cnt + 1) (after (Usleep 10000) (after SyncPllLck w)))
      as (w' & new & Hw & Hx & Hv & Ht & Hn); [lia|lia| |].
    { intros i Hi. rewrite pll_lck_at_next. apply Hz. lia. }
    eexists w', (new ++ [_; _]). rewrite Hw, Hx, Hv, Ht.
    split_and!; autorewrite with world; try done.
    + by rewrite <- app_assoc.
    + apply Forall_app. split; [done|].
      repeat (constructor; [(by left) || (by right)|]). constructor.
Qed.

(** The lock seen at poll [i], inside the budget: the wait ends there. *)
Lemma pll_wait_locks i : forall fuel cnt w,
  0 <= cnt -> cnt + Z.of_nat i < 100 -> (i <= fuel)%nat ->
  (forall j, (j < i)%nat -> pll_lck_at w j = 0) ->
  pll_lck_at w i <> 0 ->
  exists w' new,
    pll_wait fuel cnt w = Done (cnt + Z.of_nat i) w' /\
    ctx w' = ctx w /\ env w' = env w /\
    trace w' = new ++ trace w /\ Forall (fun cr => pll_wait_call cr.1) new.
Proof.
  induction i as [|i IH]; intros fuel cnt w Hc Hb Hf Hz Hl;
    rewrite pll_wait_unfold.
  - rewrite <- pll_lck_at_0. destruct (Z.eqb_spec (pll_lck_at w 0) 0); [done|].
    simpl. eexists _, [_]. rewrite Z.add_0_r. split; [reflexivity|].
    split_and!; autorewrite with world; try done.
    repeat (constructor; [(by left) || (by right)|]). constructor.
  - rewrite <- pll_lck_at_0, Hz by lia. simpl.
    destruct (Z.ltb_spec cnt 100); [|lia].
    destruct fuel as [|fuel]; [lia|].
    destruct (IH fuel (cnt + 1) (after (Usleep 10000) (after SyncPllLck w)))
      as (w' & new & Hw & Hx & Hv & Ht & Hn); [lia|lia|lia| | |].
    { intros j Hj. rewrite pll_lck_at_next. apply Hz. lia. }
    { by rewrite pll_lck_at_next. }
    eexists w', (new ++ [_; _]). rewrite Hw, Hx, Hv, Ht.
    split_and!; autorewrite with world; try done.
    + f_equal. lia.
    + by rewrite <- app_assoc.
    + apply Forall_app. split; [done|].
      repeat (constructor; [(by left) || (by right)|]). constructor.
Qed.

(** Either no poll below [n] answers nonzero, or there is a first one. *)
Lemma first_nonzero (f : nat -> Z) n :
  (forall i, (i < n)%nat -> f i = 0) \/
  exists i, (i < n)%nat /\ f i <> 0 /\ forall j, (j < i)%nat -> f j = 0.
Proof.
  induction n as [|n [IH|(i & Hi & Hf & Hj)]].
  - left. lia.
  - destruct (Z.eq_dec (f n) 0) as [Hz|Hz].
    + left. intros i Hi. destruct (decide (i = n)) as [->|]; [done|].
      apply IH. lia.
    + right. exists n. split_and!; [lia|done|done].
  - right. exists i. split_and!; [lia|done|done].
Qed.

(** A loop whose body always returns, returns. *)
Lemma for_each_total {A} (body : A -> M unit) :
  (forall x w, exists w', body x w = Done tt w') ->
  forall l w, exists w', for_each l body w = Done tt w'.
Proof.
  intros Hb l. induction l as [|x l IH]; intros w; [by exists w|].
  destruct (Hb x w) as (w1 & H1). destruct (IH w1) as (w2 & H2).
  exists w2. cbn [for_each]. by mstep H1.
Qed.

(** *** Slot indices *)

Lemma elem_of_upto j n : j ∈ upto n <-> 0 <= j < Z.of_nat n.
Proof.
  unfold upto. rewrite list_elem_of_fmap. split.
  - intros (i & -> & Hi%elem_of_seq). lia.
  - intros Hj. exists (Z.to_nat j). split; [lia|]. apply elem_of_seq. lia.
Qed.

Lemma NoDup_upto n : NoDup (upto n).
Proof.
  unfold upto. apply NoDup_fmap_2; [|apply NoDup_seq].
  intros a b. lia.
Qed.

Lemma upto_tasks w n :
  length (task (ctx w)) = n ->
  forall j, j ∈ upto n -> 0 <= j /\ is_Some (task_at w j).
Proof.
  intros Hlen j Hj%elem_of_upto. split; [lia|].
  unfold task_at. apply lookup_lt_is_Some. lia.
Qed.

(** *** The buffering loop *)

Lemma run_frame_length d d' :
  run_frame d = run_frame d' -> length (task d) = length (task d').
Proof. by intros [= _ _ _ H]. Qed.

Lemma run_frame_cycle_id d d' :
  run_frame d = run_frame d' -> cycle_id d = cycle_id d'.
Proof. by intros [= _ _ H _]. Qed.

Lemma write_dif_eval k w t :
  0 <= k -> task_at w k = Some t ->
  exists w', device_daq_write_dif k w = Done tt w' /\
             run_frame (ctx w') = run_frame (ctx w).
Proof.
  intros Hk Ht. unfold device_daq_write_dif.
  rewrite (bind_Done _ _ _ _ _ (eq_refl : ext _ w = Done _ _)).
  eexists. split.
  - apply (modify_task_eq _ _ _ t Hk). unfold task_at. simpl.
    by rewrite tick_ctx.
  - unfold run_frame. simpl. by rewrite length_alter, tick_ctx.
Qed.

Lemma buffer_loop_total l : forall w,
  (forall j, j ∈ l -> 0 <= j /\ is_Some (task_at w j)) ->
  exists o w',
    for_until l (fun rfm_index =>
      d <- get_ctx;
      if negb (rfm_active d rfm_index) then ret None
      else
        device_daq_write_dif rfm_index;;
        g <- read_g_state;
        if g =? 0 then ret (Some tt) else ret None) w = Done o w' /\
    run_frame (ctx w') = run_frame (ctx w).
Proof.
  induction l as [|k l IH]; intros w Hl; [by exists None, w|].
  destruct (Hl k) as [Hk [t Ht]]; [left|].
  cbn [for_until]. rewrite bind_assoc.
  unfold get_ctx at 1. unfold bind at 1.
  assert (Hnext : forall w1, run_frame (ctx w1) = run_frame (ctx w) ->
    exists o w', for_until l (fun rfm_index =>
      d <- get_ctx;
      if negb (rfm_active d rfm_index) then ret None
      else
        device_daq_write_dif rfm_index;;
        g <- read_g_state;
        if g =? 0 then ret (Some tt) else ret None) w1 = Done o w' /\
      run_frame (ctx w') = run_frame (ctx w)).
  { intros w1 Hf. destruct (IH w1) as (o & w' & Ho & Hf').
    - intros j Hj. destruct (Hl j) as [Hj0 Hjs]; [by right|]. split; [done|].
      unfold task_at in *. apply lookup_lt_is_Some.
      apply lookup_lt_is_Some in Hjs.
      by rewrite (run_frame_length _ _ Hf).
    - exists o, w'. split; [done|]. congruence. }
  destruct (rfm_active (ctx w) k); cbn [negb].
  - destruct (write_dif_eval _ _ _ Hk Ht) as (w1 & Hw & Hf).
    mstep Hw. unfold read_g_state at 1. rewrite bind_assoc.
    unfold bind at 1.
    destruct (_ =? 0); rewrite bind_ret.
    + eexists _, _. split; [reflexivity|]. by rewrite tick_ctx.
    + apply Hnext. by rewrite tick_ctx.
  - rewrite bind_ret. by apply Hnext.
Qed.

Lemma buffer_difs_total w :
  length (task (ctx w)) = NB_RFM ->
  exists w', buffer_difs w = Done tt w' /\
             run_frame (ctx w') = run_frame (ctx w).
Proof.
  intros Hlen. unfold buffer_difs.
  destruct (buffer_loop_total (upto NB_RFM) w (upto_tasks _ _ Hlen))
    as (o & w' & Ho & Hf).
  exists w'. split; [|done]. by mstep Ho.
Qed.

Lemma erase_rc_run_frame d d' :
  erase_rc d = erase_rc d' -> run_frame d = run_frame d'.
Proof.
  intros H. unfold run_frame.
  rewrite (erase_rc_length _ _ H).
  apply (f_equal (fun x => (rfm_on x, daq_file x, cycle_id x))) in H.
  simpl in H. congruence.
Qed.

(** *** Which calls a computation makes *)

Lemma only_calls_state P {A} (m : M A) :
  (forall w, trace (final (m w)) = trace w) -> only_calls P m.
Proof. intros H w. exists []. split; [apply H|constructor]. Qed.

Lemma only_calls_ret P {A} (a : A) : only_calls P (ret a).
Proof. by apply only_calls_state. Qed.

Lemma only_calls_bind P {A B} (m : M A) (k : A -> M B) :
  only_calls P m -> (forall a, only_calls P (k a)) -> only_calls P (bind m k).
Proof.
  intros Hm Hk w. unfold bind. destruct (Hm w) as (n1 & H1 & F1).
  destruct (m w) as [a w1|w1|w1]; simpl in H1; try by exists n1.
  destruct (Hk a w1) as (n2 & H2 & F2). exists (n2 ++ n1).
  split; [by rewrite H2, H1, app_assoc|by apply Forall_app].
Qed.

Lemma only_calls_ext P c : P c -> only_calls P (ext c).
Proof.
  intros Hc w. exists [(c, answer c w)].
  split; [exact (after_trace c w)|]. by repeat constructor.
Qed.

Lemma only_calls_for_each P {A} (l : list A) (body : A -> M unit) :
  (forall x, only_calls P (body x)) -> only_calls P (for_each l body).
Proof.
  intros Hb. induction l as [|x l IH]; [apply only_calls_ret|].
  apply only_calls_bind; [apply Hb|]. by intros _.
Qed.

Lemma only_calls_for_until P {A R} (l : list A) (body : A -> M (option R)) :
  (forall x, only_calls P (body x)) -> only_calls P (for_until l body).
Proof.
  intros Hb. induction l as [|x l IH]; [apply only_calls_ret|].
  apply only_calls_bind; [apply Hb|]. intros [v|]; [apply only_calls_ret|done].
Qed.

(** take a computation apart, down to its calls *)
Ltac calls_step :=
  first
    [ apply only_calls_ret
    | apply only_calls_bind; [|intros]
    | apply only_calls_ext; done
    | apply only_calls_for_each; intros
    | apply only_calls_for_until; intros
    | apply only_calls_state; intros;
      unfold get_ctx, modify_ctx, read_g_state, get_task, undef, out_of_fuel;
      simpl; rewrite ?tick_trace;
      repeat match goal with
             | |- context [if ?b then _ else _] => destruct b
             | |- context [match ?o with Some _ => _ | None => _ end] =>
                 destruct o
             end; simpl; rewrite ?tick_trace; reflexivity
    | match goal with
      | |- only_calls _ (if ?b then _ else _) => destruct b
      | |- only_calls _ (match ?o with Some _ => _ | None => _ end) =>
          destruct o
      end ].

Lemma only_calls_wait_flag P (poll : M Z) fuel :
  only_calls P poll -> only_calls P (wait_flag poll fuel).
Proof.
  intros Hp. induction fuel as [|fuel IH]; cbn [wait_flag].
  - calls_step.
  - apply only_calls_bind; [done|]. intros v. repeat calls_step. done.
Qed.

Lemma only_calls_modify_task P slot f : only_calls P (modify_task slot f).
Proof. unfold modify_task. repeat calls_step. Qed.

Lemma only_calls_send_dif P slot :
  (forall sck bytes, P (Send sck bytes)) -> (forall sck len, P (Recv sck len)) ->
  only_calls P (device_daq_send_dif slot).
Proof.
  intros Hs Hr. unfold device_daq_send_dif, send, recv, not_acked, ext_int.
  repeat (calls_step || apply only_calls_ext; try done).
Qed.

Lemma only_calls_send_difs P :
  (forall sck bytes, P (Send sck bytes)) -> (forall sck len, P (Recv sck len)) ->
  only_calls P send_difs.
Proof.
  intros Hs Hr. unfold send_difs. apply only_calls_for_each. intros i.
  unfold send_dif_step. apply only_calls_bind; [calls_step|]. intros d.
  destruct (negb _); [calls_step|].
  apply only_calls_bind; [by apply only_calls_send_dif|]. intros err.
  destruct (negb _); [apply only_calls_modify_task|calls_step].
Qed.

Lemma only_calls_buffer_difs P :
  (forall slot, P (DaqReadDif slot)) -> only_calls P buffer_difs.
Proof.
  intros Hd. unfold buffer_difs, device_daq_write_dif.
  apply only_calls_bind; [|intros; calls_step].
  apply only_calls_for_until. intros i.
  apply only_calls_bind; [calls_step|]. intros d.
  destruct (negb _); [calls_step|].
  apply only_calls_bind.
  - apply only_calls_bind; [by apply only_calls_ext|]. intros r w.
    destruct (only_calls_modify_task P i
                (set_t_window (daq_fill w)
                   (daq_fill w + Z.of_nat (length (data r)))
                   (wrap_u32 (ret_val r)))
                (set_daq (write_bytes (daq_mem w) (daq_fill w) (data r))
                   (daq_fill w + Z.of_nat (length (data r))) w))
      as (new & Hn & Hf).
    exists new. by split.
  - intros _. repeat calls_step.
Qed.

(** The free-running loop never calls [DAQ_write_buffer]. *)
Lemma noise_loop_makes_no_write fuel :
  only_calls (fun c => is_daq_write c = false) (device_loop_noise fuel).
Proof.
  induction fuel as [|fuel IH]; cbn [device_loop_noise]; [calls_step|].
  apply only_calls_bind; [calls_step|]. intros g.
  destruct (g =? 1); [|calls_step].
  apply only_calls_bind; [|intros [|]; [done|calls_step]].
  unfold noise_cycle, noise_readout, DAQ_reset_buffer, SYNC_ramfull_ext,
    SYNC_fifo_ack, SYNC_start_acq, next_cycle, ext_void.
  repeat first
    [ apply only_calls_wait_flag; unfold SYNC_ramfull, SYNC_fifo_ready, ext_int
    | apply only_calls_buffer_difs; done
    | apply only_calls_send_difs; done
    | calls_step ].
Qed.

(** ** Configuration: [device_boot_rfm] and [device_configure_dif] *)

(** C8 (as amended): when [device_boot_rfm] fails with the shaper mismatch
    (the shaper value recorded on the device is nonzero and differs from
    the new one), the device-level shaper value and the trigger mode are
    left as they were, but the slot has already been written: its bit in
    [rfm_on] is set, and its dif identifier and shaper value are the
    arguments of the call.  Nothing else changes. *)
Theorem boot_rfm_conflict_state dif slot rs trig w t :
  0 <= slot < 32 ->
  task_at w slot = Some t ->
  rshaper (ctx w) <> 0 ->
  rshaper (ctx w) <> rs ->
  exists w',
    device_boot_rfm dif slot rs trig w = Done (-1) w' /\
    rshaper (ctx w') = rshaper (ctx w) /\
    trig_mode (ctx w') = trig_mode (ctx w) /\
    rfm_active (ctx w') slot = true /\
    task_at w' slot = Some (set_t_rshaper rs (set_t_dif dif t)) /\
    w' = set_ctx (fun d =>
           upd_task (Z.to_nat slot) (fun t => set_t_rshaper rs (set_t_dif dif t))
             (set_rfm_on (wrap_u32 (Z.lor (rfm_on d) (Z.shiftl 1 slot))) d)) w.
Proof.
  intros Hs Ht Hz Hne. eexists. split; [|split_and!]; cycle -1.
  - reflexivity.
  - unfold device_boot_rfm.
    unfold modify_ctx at 1. unfold bind at 1.
    set (w1 := set_ctx _ w).
    assert (Ht1 : task_at w1 slot = Some t) by exact Ht.
    mstep (modify_task_eq _ (set_t_dif dif) _ _ (proj1 Hs) Ht1).
    pose proof (task_at_upd_same _ (set_t_dif dif) _ _ Ht1) as Ht2.
    mstep (modify_task_eq _ (set_t_rshaper rs) _ _ (proj1 Hs) Ht2).
    unfold get_ctx at 1. unfold bind at 1. subst w1.
    unfold set_ctx, upd_task. cbn [ctx rshaper set_task set_rfm_on task].
    destruct (Z.eqb_spec (rshaper (ctx w)) 0); [done|].
    destruct (Z.eqb_spec (rshaper (ctx w)) rs); [done|]. cbn [negb andb].
    unfold ret. f_equal. f_equal. unfold set_task. cbn.
    by rewrite alter_twice.
  - reflexivity.
  - reflexivity.
  - unfold rfm_active. simpl. by apply rfm_active_set.
  - unfold task_at. simpl. unfold task_at in Ht.
    by rewrite list_lookup_alter_eq, Ht.
Qed.

(** C10: [device_configure_dif] first sets the configuration source to
    "db", whatever follows.  When no slot of the task array has the given
    dif identifier it returns 1 and that is its only effect; otherwise it
    returns 0 and has, besides, set the address and the port of the first
    such slot. *)
Theorem configure_dif_sets_db_mode dif addr port w :
  length (task (ctx w)) = NB_RFM ->
  let w_db := set_ctx (set_cfg_mode "db") w in
  exists rc w',
    device_configure_dif dif addr port w = Done rc w' /\
    cfg_mode (ctx w') = "db" /\
    match list_find (fun t => t_dif t = dif) (task (ctx w)) with
    | None => rc = 1 /\ w' = w_db
    | Some (i, _) =>
        rc = 0 /\ w' = set_ctx (upd_task i (bind_dif addr port)) w_db
    end.
Proof.
  intros Hlen w_db. unfold device_configure_dif.
  unfold modify_ctx at 1. unfold bind at 1. fold w_db.
  pose proof (configure_dif_search dif addr port (task (ctx w)) [] w_db
                eq_refl) as Hsearch.
  cbn [length] in Hsearch. rewrite Hlen in Hsearch.
  fold (upto NB_RFM) in Hsearch. unfold configure_dif_body in Hsearch.
  unfold bind at 1. rewrite Hsearch.
  destruct (list_find _ _) as [[i ti]|]; eexists _, _; simpl; done.
Qed.

(** ** The acknowledgement check of [device_daq_send_dif] *)

(** C4 (as amended): on a buffer holding the four bytes read, the check
    accepts exactly when four bytes were received, the first three are
    'A', 'C', 'K' and the fourth is the NUL byte: [strcmp] compares the
    terminator of the literal too. *)
Theorem ack_check_exact r b0 b1 b2 b3 rest w :
  exists bad,
    not_acked r (b0 :: b1 :: b2 :: b3 :: rest) w = Done bad w /\
    (bad = false <-> r = 4 /\ b0 = 65 /\ b1 = 67 /\ b2 = 75 /\ b3 = 0).
Proof.
  eexists. split; [apply not_acked_eval|].
  rewrite negb_false_iff, !andb_true_iff, !Z.eqb_eq. tauto.
Qed.

(** ** Initialisation: the PLL lock *)

Lemma fpga_pll_poll_eq w i :
  pll_lck_at (after (Usleep 2) (after SyncResetFpga w)) i = fpga_pll_poll w i.
Proof.
  unfold pll_lck_at, fpga_pll_poll. autorewrite with world.
  do 2 f_equal. lia.
Qed.

Lemma init_mmap_frame w w1 :
  device_init_mmap w = Done 0 w1 ->
  task (ctx w1) = task (ctx w) /\
  exists new, trace w1 = new ++ trace w /\ Forall (fun cr => cr.1 <> Socket) new.
Proof.
  unfold device_init_mmap, open, mmap_lw_h2f, mmap_h2f, munmap_lw_h2f, close.
  unfold modify_ctx at 1. unfold bind at 1. run_calls.
  unfold modify_ctx at 1. unfold bind at 1.
  destruct (_ =? -1); [discriminate|]. run_calls.
  destruct (_ =? 0); run_calls; [discriminate|].
  destruct (_ =? 0); run_calls; [discriminate|].
  unfold ret. intros [= <-]. autorewrite with world. simpl.
  rewrite ?tick_ctx, ?tick_trace. simpl. split; [done|].
  eexists [_; _; _]. split; [reflexivity|].
  repeat (constructor; [done|]). constructor.
Qed.

Lemma init_fpga_lanes_total (w : World) :
  exists w',
    for_each (upto NB_RFM) (fun rfm_index =>
      d <- get_ctx;
      if rfm_active d rfm_index then RFM_on rfm_index;; RFM_enable rfm_index
      else ret tt) w = Done tt w'.
Proof.
  apply for_each_total. intros x w0. unfold get_ctx at 1. unfold bind at 1.
  destruct (rfm_active _ _); [|by eexists].
  unfold RFM_on, RFM_enable. run_calls. by eexists.
Qed.

(** C7: once the register mapping is up, [device_init_fpga] fails exactly
    when none of the first 100 polls of the PLL-lock flag finds it set.
    Then [device_initialize] fails right there: the task array is as it was
    and no call to [socket] has been made.  When one of those polls finds
    the flag set, [device_init_fpga] succeeds and [device_initialize] goes
    on with the Hardroc configuration and the sockets. *)
Theorem initialize_clock_not_locked fuel w w1 :
  (100 <= fuel)%nat ->
  device_init_mmap w = Done 0 w1 ->
  ((exists w2, device_init_fpga fuel w1 = Done (-1) w2) <->
   (forall i, (i < 100)%nat -> fpga_pll_poll w1 i = 0)) /\
  ((forall i, (i < 100)%nat -> fpga_pll_poll w1 i = 0) ->
   exists w2 new,
     device_init_fpga fuel w1 = Done (-1) w2 /\
     device_initialize fuel w = Done (-1) w2 /\
     task (ctx w2) = task (ctx w) /\
     trace w2 = new ++ trace w /\ Forall (fun cr => cr.1 <> Socket) new) /\
  ((exists i, (i < 100)%nat /\ fpga_pll_poll w1 i <> 0) ->
   exists w2,
     device_init_fpga fuel w1 = Done 0 w2 /\
     device_initialize fuel w =
       (err <- device_init_hrsc;
        if negb (err =? 0) then ret (-1)
        else
          err <- device_init_scks;
          if negb (err =? 0) then ret (-1) else ret 0) w2).
Proof.
  intros Hfuel Hmmap.
  assert (Hfail : (forall i, (i < 100)%nat -> fpga_pll_poll w1 i = 0) ->
    exists w2 new,
      device_init_fpga fuel w1 = Done (-1) w2 /\
      task (ctx w2) = task (ctx w1) /\
      trace w2 = new ++ trace w1 /\ Forall (fun cr => cr.1 <> Socket) new).
  { intros Hz.
    destruct (pll_wait_exhausts 100 fuel 0
                (after (Usleep 2) (after SyncResetFpga w1)))
      as (w2 & new & Hw & Hc & Hv & Ht & Hn); [done|done| |].
    { intros i Hi. rewrite fpga_pll_poll_eq. by apply Hz. }
    eexists w2, (new ++ [(Usleep 2, _); (SyncResetFpga, _)]).
    unfold device_init_fpga, SYNC_reset_fpga, usleep. run_calls.
    mstep Hw. simpl. split; [reflexivity|]. rewrite Hc, Ht.
    autorewrite with world. split_and!; [done|by rewrite <- app_assoc|].
    apply Forall_app. split.
    - eapply Forall_impl; [exact Hn|]. by intros [c r] [->| ->].
    - repeat (constructor; [done|]). constructor. }
  assert (Hok : (exists i, (i < 100)%nat /\ fpga_pll_poll w1 i <> 0) ->
    exists w2, device_init_fpga fuel w1 = Done 0 w2).
  { intros (i0 & Hi0 & Hnz0).
    destruct (first_nonzero (fpga_pll_poll w1) (S i0))
      as [Hall|(i & Hi & Hnz & Hlt)]; [by rewrite Hall in Hnz0 by lia|].
    destruct (pll_wait_locks i fuel 0
                (after (Usleep 2) (after SyncResetFpga w1)))
      as (w2 & new & Hw & Hc & Hv & Ht & Hn); [lia|lia|lia| | |].
    { intros j Hj. rewrite fpga_pll_poll_eq. by apply Hlt. }
    { by rewrite fpga_pll_poll_eq. }
    unfold device_init_fpga, SYNC_reset_fpga, usleep. run_calls.
    mstep Hw. destruct (Z.leb_spec 100 (0 + Z.of_nat i)); [lia|].
    unfold SYNC_pll_lck. run_calls.
    destruct (init_fpga_lanes_total (after SyncPllLck w2)) as (w3 & Hl).
    mstep Hl. unfold sleep, PIO_ctrl_get. run_calls.
    unfold get_ctx at 1. unfold bind at 1.
    unfold SYNC_select_command_dcc, SYNC_enable_dcc_busy,
      SYNC_enable_dcc_ramfull, SYNC_select_command_soft.
    destruct (trig_mode _ =? 0); run_calls;
      destruct (trig_mode _ =? 1); run_calls; by eexists. }
  split_and!.
  - split.
    + intros [w2 Hw2].
      destruct (first_nonzero (fpga_pll_poll w1) 100)
        as [Hall|(i & Hi & Hnz & _)]; [done|].
      destruct Hok as [w3 Hw3]; [by eauto|]. congruence.
    + intros Hz. destruct (Hfail Hz) as (w2 & _ & Hw2 & _). by exists w2.
  - intros Hz. destruct (Hfail Hz) as (w2 & new & Hw2 & Hc & Ht & Hn).
    destruct (init_mmap_frame _ _ Hmmap) as (Hc1 & new1 & Ht1 & Hn1).
    exists w2, (new ++ new1). split_and!; [done| |congruence| |].
    + unfold device_initialize. mstep Hmmap. simpl. by mstep Hw2.
    + by rewrite Ht, Ht1, app_assoc.
    + by apply Forall_app.
  - intros Hex. destruct (Hok Hex) as [w2 Hw2]. exists w2. split; [done|].
    unfold device_initialize. mstep Hmmap. simpl. by mstep Hw2.
Qed.

(** ** The DIF wire format *)

Lemma sent_cons c r tr :
  sent ((c, r) :: tr)
  = sent tr ++ match c with Send sck bytes => [(sck, bytes)] | _ => [] end.
Proof.
  unfold sent. simpl rev. rewrite omap_app. f_equal.
  simpl. by destruct c.
Qed.

Lemma le_decode_u32 n :
  0 <= n < 2 ^ 32 ->
  le_decode [n mod 256; n / 2 ^ 8 mod 256; n / 2 ^ 16 mod 256;
             n / 2 ^ 24 mod 256] = n.
Proof.
  intros Hn. unfold le_decode. simpl foldr.
  change (2 ^ 8) with 256. change (2 ^ 16) with 65536.
  change (2 ^ 24) with 16777216. change (2 ^ 32) with 4294967296 in Hn.
  Z.div_mod_to_equations. lia.
Qed.

(** C9 (as amended): for a slot whose window is [beg, end), the exchange
    first sends the 8 bytes 'H', 'D', 'R', 0 and the little-endian encoding
    of the length [end - beg]; when the length is positive and that header
    has gone out ([send] did not return -1) and has been acknowledged, it
    then sends the [end - beg] bytes of the window; otherwise nothing
    follows the header.  It sends nothing else. *)
Theorem send_dif_wire_format slot w t :
  0 <= slot ->
  task_at w slot = Some t ->
  0 <= t_end t - t_beg t < 2 ^ 32 ->
  let size := t_end t - t_beg t in
  let header := [72; 68; 82; 0; size mod 256; size / 2 ^ 8 mod 256;
                 size / 2 ^ 16 mod 256; size / 2 ^ 24 mod 256] in
  let window := read_bytes (daq_mem w) (t_beg t) (Z.to_nat size) in
  let header_ok :=
    negb (ret_val (answer (Send (t_sck t) header) w) =? -1)
    && acked (answer (Recv (t_sck t) 4) (after (Send (t_sck t) header) w)) in
  exists rc w',
    device_daq_send_dif slot w = Done rc w' /\
    sent (trace w')
    = sent (trace w) ++ (t_sck t, header)
        :: (if header_ok && (0 <? size) then [(t_sck t, window)] else []) /\
    length header = 8%nat /\
    le_decode (drop 4 header) = size /\
    length window = Z.to_nat size.
Proof.
  intros Hs Ht Hsz size header window header_ok.
  assert (Hsize : dif_size t = size).
  { unfold dif_size, wrap_u32. by rewrite Z.mod_small. }
  assert (Hhdr : header_call t = Send (t_sck t) header).
  { unfold header_call, dif_header, wrap_u8. rewrite Hsize.
    by rewrite !Z.shiftr_div_pow2. }
  assert (Hpay : payload_call t w = Send (t_sck t) window).
  { unfold payload_call. by rewrite Hsize. }
  rewrite (send_dif_eval _ _ _ Hs Ht). rewrite Hhdr, Hpay, Hsize.
  unfold ack_call. subst header_ok.
  assert (Hrest : length header = 8%nat /\ le_decode (drop 4 header) = size /\
                  length window = Z.to_nat size).
  { split_and!; [done|by apply le_decode_u32|].
    subst window. unfold read_bytes. by rewrite length_fmap, length_seq. }
  destruct (_ =? -1).
  { eexists _, _. split; [reflexivity|]. split; [|done].
    autorewrite with world. by rewrite sent_cons. }
  simpl negb. simpl andb.
  destruct (acked _).
  2: { eexists _, _. split; [reflexivity|]. split; [|done].
       simpl. autorewrite with world. by rewrite !sent_cons, app_nil_r. }
  simpl negb. simpl andb.
  destruct (Z.eqb_spec size 0) as [Hz|Hnz].
  { eexists _, _. split; [reflexivity|]. split; [|done].
    autorewrite with world. rewrite !sent_cons, app_nil_r.
    destruct (Z.ltb_spec 0 size); [lia|done]. }
  destruct (Z.ltb_spec 0 size); [|lia].
  destruct (negb _); eexists _, _; (split; [reflexivity|]); (split; [|done]);
    autorewrite with world; rewrite !sent_cons, app_nil_r;
    by rewrite app_nil_r, <- app_assoc.
Qed.

(** ** The streaming loop: failures stay with their slot *)

Lemma send_difs_run w :
  length (task (ctx w)) = NB_RFM ->
  exists w',
    send_difs w = Done tt w' /\
    erase_rc (ctx w') = erase_rc (ctx w) /\
    exists new,
      trace w' = new ++ trace w /\
      sublist (slot_headers w (upto NB_RFM)) (rev new.*1).
Proof.
  intros Hlen.
  destruct (send_loop_spec (upto NB_RFM) w (upto_tasks _ _ Hlen))
    as (w' & Hf & _ & _ & He & _ & Hnew).
  by exists w'.
Qed.

(** The streaming loop always runs to its end, whatever the exchanges
    return: the header of every active slot goes out, in ascending slot
    order.  When the exchange of an active slot [k] returns a nonzero
    result, that result is in [task[k].rc] when the loop ends, and the
    headers of the active slots after [k] go out after it, in ascending
    order. *)
Lemma send_difs_isolated w :
  length (task (ctx w)) = NB_RFM ->
  exists w',
    send_difs w = Done tt w' /\
    erase_rc (ctx w') = erase_rc (ctx w) /\
    (exists new,
       trace w' = new ++ trace w /\
       sublist (slot_headers w (upto NB_RFM)) (rev new.*1)) /\
    (forall pre k post wk err w1,
       upto NB_RFM = pre ++ k :: post ->
       for_each pre send_dif_step w = Done tt wk ->
       rfm_active (ctx wk) k = true ->
       device_daq_send_dif k wk = Done err w1 ->
       err <> 0 ->
       t_rc <$> task_at w' k = Some err /\
       exists new,
         trace w' = new ++ trace w1 /\
         sublist (slot_headers w post) (rev new.*1)).
Proof.
  intros Hlen.
  destruct (send_difs_run w Hlen) as (w' & Hw' & He' & Hnew').
  exists w'. split_and!; [done|done|done|].
  intros pre k post wk err w1 Hsplit Hpre Hact Herr Hnz.
  pose proof (upto_tasks _ _ Hlen) as Hall.
  pose proof (NoDup_upto NB_RFM) as Hnd.
  rewrite Hsplit in Hall, Hnd.
  apply NoDup_app in Hnd as (_ & _ & [Hk Hnd]%NoDup_cons).
  (* the slots before [k] *)
  destruct (send_loop_spec pre w) as (wk' & Hpre' & _ & _ & Hek & _ & _).
  { intros j Hj. apply Hall, elem_of_app. by left. }
  assert (wk' = wk) as -> by congruence.
  assert (Hallk : forall j, j ∈ k :: post -> 0 <= j /\ is_Some (task_at wk j)).
  { intros j Hj. destruct (Hall j) as [Hj0 Hjs]; [apply elem_of_app; by right|].
    split; [done|]. unfold task_at in *. apply lookup_lt_is_Some.
    apply lookup_lt_is_Some in Hjs. by rewrite (erase_rc_length _ _ Hek). }
  (* slot [k] *)
  destruct (Hallk k) as [Hk0 [t Ht]]; [left|].
  pose proof (send_dif_step_eval k wk t Hk0 Ht) as Hstep.
  rewrite Hact in Hstep.
  destruct Hstep as (err' & w1' & seg & He & Hc & Hv & Hm & Htr & Hs).
  assert (err' = err) as -> by congruence.
  assert (w1' = w1) as -> by congruence.
  destruct (Z.eqb_spec err 0); [done|].
  set (w2 := set_ctx (upd_task (Z.to_nat k) (set_t_rc err)) w1) in *.
  assert (He2 : erase_rc (ctx w2) = erase_rc (ctx w)).
  { subst w2. cbn [set_ctx ctx]. by rewrite erase_rc_upd, Hc. }
  (* the slots after [k] *)
  destruct (send_loop_spec post w2)
    as (w'' & Hpost & _ & _ & _ & Hu & new & Hnew & Hsub).
  { intros j Hj. destruct (Hall j) as [Hj0 Hjs].
    { apply elem_of_app. right. by right. }
    split; [done|]. unfold task_at in *. apply lookup_lt_is_Some.
    apply lookup_lt_is_Some in Hjs. by rewrite (erase_rc_length _ _ He2). }
  assert (w'' = w') as ->.
  { unfold send_difs in Hw'. rewrite Hsplit, for_each_app in Hw'.
    rewrite (bind_Done _ _ _ _ _ Hpre) in Hw'. cbn [for_each] in Hw'.
    rewrite (bind_Done _ _ _ _ _ Hs) in Hw'. congruence. }
  split.
  + unfold task_at. rewrite Hu by (rewrite Z2Nat.id; done).
    subst w2. cbn [set_ctx ctx upd_task set_task task].
    rewrite list_lookup_alter_eq, Hc. unfold task_at in Ht. by rewrite Ht.
  + exists new. split; [done|].
    by rewrite <- (slot_headers_erase w w2 post He2).
Qed.

(** ** The run file, the second stop and the payload send *)

(** The externally clocked readout writes the cycle buffer to the run
    file after the buffering and before anything is sent. *)
Lemma dcc_readout_writes_first w :
  length (task (ctx w)) = NB_RFM ->
  exists w' before content r streamed,
    dcc_readout w = Done true w' /\
    trace w' =
      streamed ++ (DaqWriteBuffer (daq_file (ctx w)) content, r)
        :: before ++ trace w /\
    Forall (fun cr => forall sck bytes, cr.1 <> Send sck bytes) before /\
    Forall (fun cr => is_daq_write cr.1 = false) streamed.
Proof.
  intros Hlen.
  destruct (buffer_difs_total w Hlen) as (w1 & Hb & Hf1).
  destruct (only_calls_buffer_difs
              (fun c => forall sck bytes, c <> Send sck bytes)
              ltac:(done) w) as (n1 & Hn1 & Fn1).
  rewrite Hb in Hn1. simpl in Hn1.
  unfold dcc_readout. mstep Hb. unfold SYNC_fifo_ack. run_calls.
  unfold get_ctx at 1. unfold bind at 1. unfold DAQ_write_buffer.
  unfold bind at 1. rewrite ext_void_eq.
  set (c := DaqWriteBuffer _ _). set (w2 := after c (after SyncFifoAck w1)).
  assert (Hf2 : run_frame (ctx w2) = run_frame (ctx w)).
  { subst w2. by autorewrite with world. }
  destruct (send_difs_run w2) as (w3 & Hs & _).
  { by rewrite (run_frame_length _ _ Hf2). }
  destruct (only_calls_send_difs (fun c => is_daq_write c = false)
              ltac:(done) ltac:(done) w2) as (n3 & Hn3 & Fn3).
  rewrite Hs in Hn3. simpl in Hn3.
  mstep Hs. unfold next_cycle, modify_ctx. unfold bind at 1.
  eexists _, ((SyncFifoAck, _) :: n1), _, _, n3.
  split; [reflexivity|]. split_and!.
  - simpl. rewrite Hn3. subst w2 c. autorewrite with world.
    rewrite Hn1. do 3 f_equal.
    assert (daq_file (ctx w1) = daq_file (ctx w)) as -> by (by injection Hf1).
    reflexivity.
  - constructor; [done|exact Fn1].
  - exact Fn3.
Qed.

(** [device_stop], call by call. *)
Lemma device_stop_eval w :
  device_stop w
  = let w3 := after SyncResetHr (after SyncResetFpga (after CntReset
                (if trig_mode (ctx w) =? 0 then after CntStop w
                 else if trig_mode (ctx w) =? 1
                      then after CntStop (after SyncStopAcq w)
                      else w))) in
    if daq_file (ctx w) =? 0 then Undef w3
    else Done 0 (set_ctx (set_daq_file 0)
                   (after (Fclose (daq_file (ctx w))) w3)).
Proof.
  unfold device_stop, CNT_stop, SYNC_stop_acq, CNT_reset,
    SYNC_reset_fpga, SYNC_reset_hr, fclose.
  unfold get_ctx at 1. unfold bind at 1.
  destruct (Z.eqb_spec (trig_mode (ctx w)) 0) as [E0|E0].
  - rewrite E0. simpl (0 =? 1). run_calls.
    unfold get_ctx at 1. unfold bind at 1.
    autorewrite with world. cbv zeta.
    destruct (daq_file (ctx w) =? 0); [reflexivity|]. by run_calls.
  - destruct (trig_mode (ctx w) =? 1); run_calls;
      unfold get_ctx at 1; unfold bind at 1; autorewrite with world;
      cbv zeta; (destruct (daq_file (ctx w) =? 0); [reflexivity|]);
      by run_calls.
Qed.

Lemma device_stop_null w :
  daq_file (ctx w) = 0 -> exists w2, device_stop w = Undef w2.
Proof.
  intros H. rewrite device_stop_eval. cbv zeta. rewrite H.
  eexists. reflexivity.
Qed.

Lemma set_daq_file_frame v w :
  daq_file (ctx (set_ctx (set_daq_file v) w)) = v /\
  task (ctx (set_ctx (set_daq_file v) w)) = task (ctx w).
Proof. split; reflexivity. Qed.

(** A second [device_stop] always reaches [fclose] with a null pointer:
    the first one leaves [daq_file] null. *)
Lemma stop_after_stop w rc w1 :
  device_stop w = Done rc w1 ->
  daq_file (ctx w1) = 0 /\ task (ctx w1) = task (ctx w) /\
  exists w2, device_stop w1 = Undef w2.
Proof.
  rewrite device_stop_eval. cbv zeta.
  destruct (daq_file (ctx w) =? 0); [intros; discriminate|].
  intros H. injection H as _ <-.
  destruct (set_daq_file_frame 0
    (after (Fclose (daq_file (ctx w)))
       (after SyncResetHr (after SyncResetFpga (after CntReset
          (if trig_mode (ctx w) =? 0 then after CntStop w
           else if trig_mode (ctx w) =? 1
                then after CntStop (after SyncStopAcq w) else w))))))
    as [Hf Ht].
  split; [exact Hf|]. split; [|by apply device_stop_null].
  rewrite Ht. autorewrite with world.
  destruct (trig_mode (ctx w) =? 0); [by autorewrite with world|].
  destruct (trig_mode (ctx w) =? 1); by autorewrite with world.
Qed.

(** [device_free] guards the same [fclose]: after [device_stop] it runs
    to its end. *)
Lemma free_after_stop w rc w1 :
  length (task (ctx w)) = NB_RFM ->
  device_stop w = Done rc w1 ->
  exists w2, device_free w1 = Done tt w2.
Proof.
  intros Hlen Hs. destruct (stop_after_stop _ _ _ Hs) as (Hnull & Htask & _).
  assert (Hlen1 : length (task (ctx w1)) = NB_RFM) by (by rewrite Htask).
  unfold device_free. unfold get_ctx at 1. unfold bind at 1.
  unfold munmap_lw_h2f, munmap_h2f, close. rewrite Hnull. simpl negb at 2.
  assert (Hgen : forall l w0, length (task (ctx w0)) = NB_RFM ->
    (forall j, j ∈ l -> j ∈ upto NB_RFM) ->
    exists w2, for_each l (fun i =>
      t <- get_task i;
      if negb (t_sck t =? 0) then ext_void (Close (t_sck t)) else ret tt) w0
    = Done tt w2).
  { induction l as [|j l IH]; intros w' Hl Hin; [by eexists|].
    destruct (upto_tasks w' NB_RFM Hl j) as [Hj [t Ht]];
      [apply Hin; left|].
    cbn [for_each]. mstep (get_task_eq _ _ _ Hj Ht).
    destruct (negb _).
    - run_calls. apply IH; [by rewrite after_ctx|].
      intros; apply Hin; by right.
    - rewrite bind_ret. apply IH; [done|]. intros; apply Hin; by right. }
  destruct (negb (mem_fd (ctx w1) =? 0)); run_calls; apply Hgen;
    by rewrite ?after_ctx.
Qed.

(** When the payload [send] fails but both acknowledgements arrive, the
    exchange returns 0 all the same. *)
Lemma payload_send_result_ignored slot w t :
  0 <= slot -> task_at w slot = Some t ->
  dif_size t <> 0 ->
  ret_val (answer (header_call t) w) <> -1 ->
  let w2 := after (ack_call t) (after (header_call t) w) in
  let w3 := after (payload_call t w) w2 in
  acked (answer (ack_call t) (after (header_call t) w)) = true ->
  acked (answer (ack_call t) w3) = true ->
  device_daq_send_dif slot w = Done 0 (after (ack_call t) w3).
Proof.
  intros Hs Ht Hsz Hh w2 w3 Ha1 Ha2. rewrite (send_dif_eval _ _ _ Hs Ht).
  destruct (Z.eqb_spec (ret_val (answer (header_call t) w)) (-1)); [done|].
  rewrite Ha1. simpl. destruct (Z.eqb_spec (dif_size t) 0); [done|].
  subst w2 w3. by rewrite Ha2.
Qed.

(** ** Straight-line code, call by call *)

Lemma calls_after c w : calls (after c w) = calls w ++ [c].
Proof. unfold calls. by rewrite after_trace. Qed.

Lemma calls_tick w : calls (tick w) = calls w.
Proof. unfold calls. by rewrite tick_trace. Qed.

Lemma calls_set_ctx f w : calls (set_ctx f w) = calls w.
Proof. reflexivity. Qed.

Lemma answer_set_ctx c f w : answer c (set_ctx f w) = answer c w.
Proof. reflexivity. Qed.

Lemma bind_get_ctx {B} (k : Device -> M B) w : bind get_ctx k w = k (ctx w) w.
Proof. reflexivity. Qed.

Lemma bind_modify_ctx {B} f (k : unit -> M B) w :
  bind (modify_ctx f) k w = k tt (set_ctx f w).
Proof. reflexivity. Qed.

Lemma bind_read_g_state {B} (k : Z -> M B) w :
  bind read_g_state k w = k (g_state (tick w)) (tick w).
Proof. reflexivity. Qed.

Lemma ctx_set_ctx f w : ctx (set_ctx f w) = f (ctx w).
Proof. reflexivity. Qed.

(** the device of a world built from [after], [tick] and [set_ctx] *)
Ltac see_ctx :=
  repeat first [ rewrite after_ctx | rewrite tick_ctx | rewrite ctx_set_ctx ].

(** run the straight-line code at the head of a computation *)
Ltac run :=
  repeat first
    [ rewrite bind_assoc
    | rewrite bind_get_ctx
    | rewrite bind_modify_ctx
    | rewrite (bind_Done _ _ _ _ _ (ext_void_eq _ _))
    | rewrite (bind_Done _ _ _ _ _ (ext_int_eq _ _))
    | rewrite bind_ret ].

(** the calls of a world built from [after], [tick] and [set_ctx] *)
Ltac list_calls :=
  repeat first
    [ rewrite calls_after | rewrite calls_tick | rewrite calls_set_ctx ];
  rewrite <- ?app_assoc; try reflexivity.

(** ** The register mapping: [device_init_mmap] *)

Lemma after_set_ctx c f w : after c (set_ctx f w) = set_ctx f (after c w).
Proof.
  unfold after, answer, record, tick, set_ctx, handle_sigint, set_g_state.
  cbn. by destruct (sigint_at _ _).
Qed.

(** X7: what [device_init_mmap] does is decided by three answers: the
    descriptor [open] gives for [/dev/mem] and what the two mappings
    return.  It returns 0, with the descriptor in [mem_fd] and both buses
    mapped, exactly when the descriptor is not -1 and neither mapping
    returns 0.  Otherwise it returns -1 with [mem_fd] zero and what it had
    acquired released: nothing when [open] gave -1, the descriptor when the
    first mapping returned 0, the first mapping and then the descriptor
    when the second returned 0.  Nothing else of the device changes. *)
Theorem init_mmap_releases_on_failure w :
  let fd := mmap_fd w in
  let lw := mmap_lw w in
  let h2f := mmap_h2f_answer w in
  exists rc w',
    device_init_mmap w = Done rc w' /\
    rc = (if (fd =? -1) || (lw =? 0) || (h2f =? 0) then -1 else 0) /\
    ctx w' = set_mem_fd (if rc =? 0 then fd else 0) (ctx w) /\
    calls w'
    = calls w ++
      (if fd =? -1 then [Open DevMem]
       else if lw =? 0 then [Open DevMem; MmapLwH2f fd; Close fd]
       else if h2f =? 0 then
         [Open DevMem; MmapLwH2f fd; MmapH2f fd; MunmapLwH2f fd; Close fd]
       else [Open DevMem; MmapLwH2f fd; MmapH2f fd]).
Proof.
  intros fd lw h2f. subst fd lw h2f. unfold mmap_h2f_answer, mmap_lw, mmap_fd.
  unfold device_init_mmap, open, mmap_lw_h2f, mmap_h2f, munmap_lw_h2f, close.
  run. rewrite answer_set_ctx.
  set (fd := ret_val (answer (Open DevMem) w)).
  destruct (Z.eqb_spec fd (-1)) as [E|E]; cbn [orb].
  { run. eexists _, _. split; [reflexivity|]. split; [done|].
    split; [by see_ctx|]. list_calls. }
  run. rewrite !after_set_ctx, !answer_set_ctx.
  set (lw := ret_val (answer (MmapLwH2f fd) (after (Open DevMem) w))).
  destruct (lw =? 0); cbn [orb].
  { run. eexists _, _. split; [reflexivity|]. split; [done|].
    split; [by see_ctx|]. list_calls. }
  run. rewrite !after_set_ctx, !answer_set_ctx.
  set (h2f := ret_val (answer (MmapH2f fd) _)).
  destruct (h2f =? 0).
  { run. eexists _, _. split; [reflexivity|]. split; [done|].
    split; [by see_ctx|]. list_calls. }
  eexists _, _. split; [reflexivity|]. split; [done|].
  split; [by see_ctx|]. list_calls.
Qed.

(** ** Loops over the active slots *)

(** A loop that runs [body] for the active slots makes the calls of the
    bodies of the active slots, in the order of the list. *)
Lemma made_refl w : made w w [].
Proof. by exists []. Qed.

Lemma made_trans w1 w2 w3 cs1 cs2 :
  made w1 w2 cs1 -> made w2 w3 cs2 -> made w1 w3 (cs1 ++ cs2).
Proof.
  intros (n1 & T1 & <-) (n2 & T2 & <-). exists (n2 ++ n1).
  split; [by rewrite T2, T1, app_assoc|].
  by rewrite fmap_app, rev_app_distr.
Qed.

Lemma made_after c w : made w (after c w) [c].
Proof. exists [(c, answer c w)]. split; [apply after_trace|done]. Qed.

Lemma made_cons c w w' cs : made (after c w) w' cs -> made w w' (c :: cs).
Proof. intros H. exact (made_trans _ _ _ [c] cs (made_after c w) H). Qed.

Lemma made_calls w w' cs : made w w' cs -> calls w' = calls w ++ cs.
Proof.
  intros (new & T & <-). unfold calls.
  by rewrite T, fmap_app, rev_app_distr.
Qed.

Lemma for_active_calls (mk : Z -> list call) (body : Z -> M unit) :
  (forall i w, exists w',
     body i w = Done tt w' /\ ctx w' = ctx w /\ made w w' (mk i)) ->
  forall l w, exists w',
    for_each l (fun i => d <- get_ctx;
                         if rfm_active d i then body i else ret tt) w
    = Done tt w' /\
    ctx w' = ctx w /\
    made w w' (flat_map mk (filter (fun i => rfm_active (ctx w) i = true) l)).
Proof.
  intros Hb l. induction l as [|i l IH]; intros w.
  { exists w. split_and!; [done|done|apply made_refl]. }
  cbn [for_each]. rewrite bind_assoc, bind_get_ctx. rewrite filter_cons.
  destruct (rfm_active (ctx w) i) eqn:Ha.
  - destruct (Hb i w) as (w1 & H1 & Hc1 & Ht1).
    destruct (IH w1) as (w2 & H2 & Hc2 & Ht2).
    exists w2. mstep H1. split_and!; [done|congruence|].
    rewrite decide_True by done. cbn [flat_map].
    rewrite Hc1 in Ht2. by eapply made_trans.
  - rewrite bind_ret. destruct (IH w) as (w2 & H2 & Hc2 & Ht2).
    exists w2. split_and!; [done|done|].
    by rewrite decide_False by done.
Qed.

Lemma fifo_init_calls w :
  exists w',
    for_each (upto NB_RFM) (fun i =>
      d <- get_ctx;
      if rfm_active d i then DAQ_fifo_init i else ret tt) w = Done tt w' /\
    ctx w' = ctx w /\
    made w w' (DaqFifoInit <$> active_slots (ctx w) NB_RFM).
Proof.
  assert (Hb : forall i w, exists w',
    DAQ_fifo_init i w = Done tt w' /\ ctx w' = ctx w /\
    made w w' [DaqFifoInit i]).
  { intros i w0. eexists. split; [apply ext_void_eq|].
    split; [apply after_ctx|apply made_after]. }
  destruct (for_active_calls (fun i => [DaqFifoInit i]) DAQ_fifo_init Hb
              (upto NB_RFM) w) as (w' & H & Hc & Ht).
  exists w'. split_and!; [done|done|exact Ht].
Qed.

(** ** The run file: [device_init_run], [device_start], [device_stop] *)

Lemma init_run_eval run w :
  let n := wrap_i32 run in
  let file := ret_val (answer (Fopen (DaqRaw n)) w) in
  let d := set_daq_file file
             (set_daq_filename (Some n) (set_run_cnt n (ctx w))) in
  exists w',
    device_init_run run w = Done (if file =? 0 then -1 else 0) w' /\
    ctx w' = (if file =? 0 then d else set_cycle_id 0 d) /\
    calls w' = calls w ++ Fopen (DaqRaw n)
                 :: (if file =? 0 then [] else [SyncResetHr]).
Proof.
  intros n file d. unfold device_init_run, fopen, SYNC_reset_hr. run.
  rewrite ctx_set_ctx. cbn [run_cnt set_run_cnt]. fold n. run.
  rewrite !answer_set_ctx. fold file.
  destruct (file =? 0).
  - eexists. split; [reflexivity|]. split; [by see_ctx|]. list_calls.
  - run. eexists. split; [reflexivity|]. split; [by see_ctx|]. list_calls.
Qed.

Lemma start_run_noise_eval run w :
  exists w',
    device_start_run_noise run w = Done 0 w' /\
    ctx w' = set_cycle_id 0 (ctx w) /\
    calls w' = calls w ++ (DaqFifoInit <$> active_slots (ctx w) NB_RFM)
               ++ [CntReset; SyncResetBcid; SyncStartAcq; SyncState;
                   SyncFifoArming].
Proof.
  unfold device_start_run_noise.
  destruct (fifo_init_calls w) as (w1 & H1 & Hc1 & Ht1). mstep H1.
  unfold CNT_reset, SYNC_reset_bcid, SYNC_start_acq, SYNC_state,
    SYNC_fifo_arming.
  run. eexists. split; [reflexivity|]. split.
  - see_ctx. by rewrite Hc1.
  - list_calls. by rewrite (made_calls _ _ _ Ht1), <- app_assoc.
Qed.

(** X15: In free-running mode [device_start] succeeds whenever the run file can
    be opened: it resets the chips, initialises the FIFO of exactly the
    active slots in ascending order, resets the counters and the BCID,
    starts the acquisition and arms the FIFO, and leaves the cycle counter
    at zero and the handle of the new file in [daq_file]. *)
Theorem start_noise_sequence fuel run w :
  trig_mode (ctx w) = 1 ->
  let file := ret_val (answer (Fopen (DaqRaw (wrap_i32 run))) w) in
  file <> 0 ->
  exists w',
    device_start fuel run w = Done 0 w' /\
    daq_file (ctx w') = file /\
    cycle_id (ctx w') = 0 /\
    run_cnt (ctx w') = wrap_i32 run /\
    calls w' = calls w ++ [Fopen (DaqRaw (wrap_i32 run)); SyncResetHr]
               ++ (DaqFifoInit <$> active_slots (ctx w) NB_RFM)
               ++ [CntReset; SyncResetBcid; SyncStartAcq; SyncState;
                   SyncFifoArming].
Proof.
  intros Hmode file Hfile.
  destruct (init_run_eval run w) as (w1 & H1 & Hc1 & Ht1).
  fold file in H1, Hc1, Ht1.
  destruct (Z.eqb_spec file 0) as [|_]; [done|].
  unfold device_start. mstep H1. cbn [Z.eqb negb]. run.
  rewrite Hc1. cbn [trig_mode set_cycle_id].
  cbn [trig_mode set_daq_file set_daq_filename set_run_cnt].
  rewrite Hmode. cbn [Z.eqb Pos.eqb].
  destruct (start_run_noise_eval run w1) as (w2 & H2 & Hc2 & Ht2).
  exists w2. split; [exact H2|]. rewrite Hc2, Hc1.
  split_and!; [done|done|done|].
  rewrite Ht2, Ht1, Hc1. by rewrite <- app_assoc.
Qed.

(** X16: With a trigger mode that is neither 0 nor 1, and a run file that
    [fopen] has opened, [device_start] returns -1 only after the run file
    has been opened: the handle stays in [daq_file], the file is not closed
    and the chips have been reset. *)
Theorem start_unknown_mode_keeps_file_open fuel run w :
  trig_mode (ctx w) <> 0 -> trig_mode (ctx w) <> 1 ->
  let file := ret_val (answer (Fopen (DaqRaw (wrap_i32 run))) w) in
  file <> 0 ->
  exists w',
    device_start fuel run w = Done (-1) w' /\
    daq_file (ctx w') = file /\
    calls w' = calls w ++ [Fopen (DaqRaw (wrap_i32 run)); SyncResetHr].
Proof.
  intros Hm0 Hm1 file Hfile.
  destruct (init_run_eval run w) as (w1 & H1 & Hc1 & Ht1).
  fold file in H1, Hc1, Ht1.
  destruct (Z.eqb_spec file 0) as [|_]; [done|].
  unfold device_start. mstep H1. cbn [Z.eqb negb]. run.
  rewrite Hc1. cbn [trig_mode set_cycle_id].
  cbn [trig_mode set_daq_file set_daq_filename set_run_cnt].
  destruct (Z.eqb_spec (trig_mode (ctx w)) 0); [done|].
  destruct (Z.eqb_spec (trig_mode (ctx w)) 1); [done|].
  exists w1. split; [done|]. by rewrite Hc1.
Qed.

(** X17: When the run file cannot be opened, [device_start] returns -1 with a
    null [daq_file], whatever the trigger mode; a [device_stop] called
    after such a failed start reaches [fclose] with that null pointer. *)
Theorem stop_after_failed_start fuel run w :
  ret_val (answer (Fopen (DaqRaw (wrap_i32 run))) w) = 0 ->
  exists w1 w2,
    device_start fuel run w = Done (-1) w1 /\
    daq_file (ctx w1) = 0 /\
    cycle_id (ctx w1) = cycle_id (ctx w) /\
    calls w1 = calls w ++ [Fopen (DaqRaw (wrap_i32 run))] /\
    device_stop w1 = Undef w2.
Proof.
  intros Hfile.
  destruct (init_run_eval run w) as (w1 & H1 & Hc1 & Ht1).
  rewrite Hfile in H1, Hc1, Ht1. cbn [Z.eqb] in H1, Hc1, Ht1.
  assert (Hnull : daq_file (ctx w1) = 0) by (by rewrite Hc1).
  destruct (device_stop_null w1 Hnull) as (w2 & H2).
  exists w1, w2. unfold device_start. mstep H1.
  split_and!; [done|done|by rewrite Hc1|done|done].
Qed.

(** ** Relations kept by a computation *)

Section Keeps.

Context (R : World -> World -> Prop) `{!PreOrder R}.

Lemma keeps_final {A} (m : M A) :
  (forall w, final (m w) = w) -> keeps R m.
Proof. intros H w. rewrite H. reflexivity. Qed.

Lemma keeps_ret {A} (a : A) : keeps R (ret a).
Proof. by apply keeps_final. Qed.

Lemma keeps_bind {A B} (m : M A) (k : A -> M B) :
  keeps R m -> (forall a, keeps R (k a)) -> keeps R (bind m k).
Proof.
  intros Hm Hk w. unfold bind. specialize (Hm w).
  destruct (m w) as [a w1|w1|w1]; simpl in Hm; try done.
  transitivity w1; [done|apply Hk].
Qed.

Lemma keeps_state {A} (a : World -> A) (f : World -> World) :
  (forall w, R w (f w)) -> keeps R (fun w => Done (a w) (f w)).
Proof. intros H w. apply H. Qed.

Lemma keeps_ext c : (forall w, R w (after c w)) -> keeps R (ext c).
Proof. intros H w. apply H. Qed.

Lemma keeps_ext_int c : (forall w, R w (after c w)) -> keeps R (ext_int c).
Proof. intros H w. apply H. Qed.

Lemma keeps_ext_void c : (forall w, R w (after c w)) -> keeps R (ext_void c).
Proof. intros H w. apply H. Qed.

Lemma keeps_read_g_state : (forall w, R w (tick w)) -> keeps R read_g_state.
Proof. intros H w. apply H. Qed.

Lemma keeps_modify_ctx f :
  (forall w, R w (set_ctx f w)) -> keeps R (modify_ctx f).
Proof. intros H w. apply H. Qed.

Lemma keeps_get_ctx : keeps R get_ctx.
Proof. by apply keeps_final. Qed.

Lemma keeps_get_task slot : keeps R (get_task slot).
Proof.
  apply keeps_final. intros w. unfold get_task.
  destruct (slot <? 0); [done|]. by destruct (_ !! _).
Qed.

Lemma keeps_table_get table idx : keeps R (table_get table idx).
Proof.
  apply keeps_final. intros w. unfold table_get.
  destruct (idx <? 0); [done|]. by destruct (_ !! _).
Qed.

Lemma keeps_undef {A} : keeps R (@undef A).
Proof. by apply keeps_final. Qed.

Lemma keeps_out_of_fuel {A} : keeps R (@out_of_fuel A).
Proof. by apply keeps_final. Qed.

Lemma keeps_modify_task slot f :
  (forall w, R w (set_ctx (upd_task (Z.to_nat slot) f) w)) ->
  keeps R (modify_task slot f).
Proof.
  intros H. unfold modify_task. apply keeps_bind; [apply keeps_get_task|].
  intros _. by apply keeps_modify_ctx.
Qed.

Lemma keeps_for_each {A} (l : list A) (body : A -> M unit) :
  (forall x, keeps R (body x)) -> keeps R (for_each l body).
Proof.
  intros Hb. induction l as [|x l IH]; [apply keeps_ret|].
  apply keeps_bind; [apply Hb|]. by intros _.
Qed.

Lemma keeps_for_until {A B} (l : list A) (body : A -> M (option B)) :
  (forall x, keeps R (body x)) -> keeps R (for_until l body).
Proof.
  intros Hb. induction l as [|x l IH]; [apply keeps_ret|].
  apply keeps_bind; [apply Hb|]. intros [v|]; [apply keeps_ret|done].
Qed.

Lemma keeps_wait_flag (poll : M Z) fuel :
  keeps R poll -> (forall w, R w (tick w)) -> keeps R (wait_flag poll fuel).
Proof.
  intros Hp Ht. induction fuel as [|fuel IH]; cbn [wait_flag].
  - apply keeps_out_of_fuel.
  - apply keeps_bind; [done|]. intros v.
    destruct (v =? 0); [|apply keeps_ret].
    apply keeps_bind; [by apply keeps_read_g_state|]. intros g.
    destruct (g =? 1); [done|apply keeps_ret].
Qed.

End Keeps.

(** apply a lemma about [keeps], finding the preorder *)
Tactic Notation "kapply" uconstr(l) :=
  apply l; try lazymatch goal with |- PreOrder _ => apply _ end.

(** take a computation apart, down to its steps; [tac] shows that a step
    keeps the relation *)
Ltac keeps_with tac :=
  repeat
    (cbv zeta;
     lazymatch goal with
     | |- keeps _ (ret _) => kapply keeps_ret
     | |- keeps _ get_ctx => kapply keeps_get_ctx
     | |- keeps _ (get_task _) => kapply keeps_get_task
     | |- keeps _ (table_get _ _) => kapply keeps_table_get
     | |- keeps _ undef => kapply keeps_undef
     | |- keeps _ out_of_fuel => kapply keeps_out_of_fuel
     | |- keeps _ (bind _ _) => kapply keeps_bind; [|intro]
     | |- keeps _ (for_each _ _) => kapply keeps_for_each; intro
     | |- keeps _ (for_until _ _) => kapply keeps_for_until; intro
     | |- keeps _ (wait_flag _ _) => kapply keeps_wait_flag
     | |- keeps _ (ext _) => kapply keeps_ext; intro; tac
     | |- keeps _ (ext_int _) => kapply keeps_ext_int; intro; tac
     | |- keeps _ (ext_void _) => kapply keeps_ext_void; intro; tac
     | |- keeps _ read_g_state => kapply keeps_read_g_state; intro; tac
     | |- keeps _ (modify_ctx _) => kapply keeps_modify_ctx; intro; tac
     | |- keeps _ (modify_task _ _) => kapply keeps_modify_task; intro; tac
     | |- keeps _ (if ?b then _ else _) => destruct b
     | |- keeps _ (match ?o with Some _ => _ | None => _ end) => destruct o
     | |- keeps _ (fun _ => _) => kapply keeps_final; intro; reflexivity
     | |- forall _ : World, _ => intro; tac
     end).

(** ** The run loop *)

Lemma bind_inv {A B} (m : M A) (k : A -> M B) w b w' :
  bind m k w = Done b w' ->
  exists a w1, m w = Done a w1 /\ k a w1 = Done b w'.
Proof.
  unfold bind. destruct (m w) as [a w1|w1|w1]; try discriminate.
  intros H. by exists a, w1.
Qed.

Lemma keeps_done R {A} (m : M A) w a w1 :
  keeps R m -> m w = Done a w1 -> R w w1.
Proof. intros H E. specialize (H w). by rewrite E in H. Qed.

Lemma keeps_bind_at R `{!PreOrder R} {A B} (m : M A) (k : A -> M B) w :
  R w (final (m w)) -> (forall a, keeps R (k a)) -> R w (final (bind m k w)).
Proof.
  intros Hm Hk. unfold bind.
  destruct (m w) as [a w1|w1|w1]; simpl in Hm; try done.
  transitivity w1; [done|apply Hk].
Qed.

Lemma modify_task_final slot f w :
  final (modify_task slot f w) = w \/
  final (modify_task slot f w) = set_ctx (upd_task (Z.to_nat slot) f) w.
Proof.
  unfold modify_task, get_task, bind.
  destruct (slot <? 0); [by left|].
  destruct (_ !! _); [by right|by left].
Qed.

(** *** What the loop leaves alone *)

Lemma erase_run_upd i f d :
  (forall t, erase_slot (f t) = erase_slot t) ->
  erase_run (upd_task i f d) = erase_run d.
Proof.
  intros Hf. unfold erase_run, upd_task, set_task, set_cycle_id. simpl.
  f_equal. generalize (task d). intros l. revert i.
  induction l as [|x l IH]; intros [|i]; simpl; try reflexivity.
  - by rewrite Hf.
  - f_equal. apply IH.
Qed.

Lemma erase_run_fields d d' :
  erase_run d = erase_run d' ->
  rfm_on d = rfm_on d' /\ daq_file d = daq_file d' /\
  trig_mode d = trig_mode d' /\ mem_fd d = mem_fd d' /\
  length (task d) = length (task d') /\
  forall i, t_sck <$> task d !! i = t_sck <$> task d' !! i.
Proof.
  intros H. split_and!.
  - exact (f_equal rfm_on H).
  - exact (f_equal daq_file H).
  - exact (f_equal trig_mode H).
  - exact (f_equal mem_fd H).
  - apply (f_equal (fun x => length (task x))) in H. simpl in H.
    by rewrite !length_fmap in H.
  - intros i. apply (f_equal (fun x => t_sck <$> task x !! i)) in H.
    simpl in H. rewrite !list_lookup_fmap in H.
    by destruct (task d !! i), (task d' !! i).
Qed.

Lemma run_call_erase m d d' c :
  erase_run d = erase_run d' -> run_call m d c -> run_call m d' c.
Proof.
  intros H. destruct (erase_run_fields _ _ H) as (Hr & Hf & _ & _ & _ & Hs).
  assert (Ha : forall i, rfm_active d i = rfm_active d' i).
  { intros i. unfold rfm_active. by rewrite Hr. }
  assert (Hk : forall sck, slot_socket d sck -> slot_socket d' sck).
  { intros sck (i & t & Ht & Hact & Hsck). specialize (Hs i).
    rewrite Ht in Hs. destruct (task d' !! i) as [t'|] eqn:Ht'; [|done].
    exists i, t'. rewrite <- Ha. split_and!; [done|done|].
    simpl in Hs. congruence. }
  destruct c; simpl; try done.
  - by rewrite Hf.
  - by rewrite Ha.
  - apply Hk.
  - apply Hk.
Qed.

#[local] Instance run_rel_preorder m : PreOrder (run_rel m).
Proof.
  split.
  - intros w. split; [done|]. exists []. split; [done|constructor].
  - intros w1 w2 w3 (He1 & n1 & Ht1 & F1) (He2 & n2 & Ht2 & F2).
    split; [congruence|]. exists (n2 ++ n1).
    split; [by rewrite Ht2, Ht1, app_assoc|].
    apply Forall_app. split; [|done].
    eapply Forall_impl; [exact F2|]. intros cr. by apply run_call_erase.
Qed.

#[local] Instance quiet_rel_preorder p : PreOrder (quiet_rel p).
Proof.
  split.
  - intros w. split; [done|]. exists []. split; [done|constructor].
  - intros w1 w2 w3 (He1 & n1 & Ht1 & F1) (He2 & n2 & Ht2 & F2).
    split; [congruence|]. exists (n2 ++ n1).
    split; [by rewrite Ht2, Ht1, app_assoc|]. by apply Forall_app.
Qed.

Lemma run_rel_state m w w' :
  erase_run (ctx w') = erase_run (ctx w) -> trace w' = trace w ->
  run_rel m w w'.
Proof.
  intros He Ht. split; [done|]. exists []. split; [done|constructor].
Qed.

Lemma run_rel_after m c w : run_call m (ctx w) c -> run_rel m w (after c w).
Proof.
  intros Hc. split; [by rewrite after_ctx|].
  exists [(c, answer c w)]. split; [apply after_trace|].
  by repeat constructor.
Qed.

Lemma run_rel_tick m w : run_rel m w (tick w).
Proof. apply run_rel_state; [by rewrite tick_ctx|apply tick_trace]. Qed.

Lemma quiet_rel_state p w w' :
  cycle_id (ctx w') = cycle_id (ctx w) -> trace w' = trace w ->
  quiet_rel p w w'.
Proof.
  intros He Ht. split; [done|]. exists []. split; [done|constructor].
Qed.

Lemma quiet_rel_after p c w : p c = false -> quiet_rel p w (after c w).
Proof.
  intros Hc. split; [by rewrite after_ctx|].
  exists [(c, answer c w)]. split; [apply after_trace|].
  by repeat constructor.
Qed.

Lemma quiet_rel_tick p w : quiet_rel p w (tick w).
Proof. apply quiet_rel_state; [by rewrite tick_ctx|apply tick_trace]. Qed.

(** *** The parts of a cycle *)

Lemma write_dif_final slot w :
  exists w' b e o,
    final (device_daq_write_dif slot w) = w' /\
    trace w' = (DaqReadDif slot, answer (DaqReadDif slot) w) :: trace w /\
    (ctx w' = ctx w \/
     ctx w' = upd_task (Z.to_nat slot) (set_t_window b e o) (ctx w)).
Proof.
  unfold device_daq_write_dif.
  rewrite (bind_Done _ _ _ _ _ (eq_refl : ext _ w = Done _ _)).
  match goal with
  | |- context [modify_task slot ?f ?w0] =>
      destruct (modify_task_final slot f w0) as [E|E]; rewrite E
  end.
  - exists (set_daq (write_bytes (daq_mem (after (DaqReadDif slot) w))
                       (daq_fill (after (DaqReadDif slot) w))
                       (data (answer (DaqReadDif slot) w)))
              (daq_fill (after (DaqReadDif slot) w)
               + Z.of_nat (length (data (answer (DaqReadDif slot) w))))
              (after (DaqReadDif slot) w)), 0, 0, 0.
    split; [reflexivity|].
    split; [exact (after_trace _ w)|]. left. exact (after_ctx _ w).
  - eexists _, _, _, _. split; [reflexivity|].
    split; [exact (after_trace _ w)|]. right.
    rewrite ctx_set_ctx. f_equal. exact (after_ctx _ w).
Qed.

Lemma send_dif_rel slot w t :
  0 <= slot -> task_at w slot = Some t ->
  exists err w1 new,
    device_daq_send_dif slot w = Done err w1 /\
    ctx w1 = ctx w /\ trace w1 = new ++ trace w /\
    Forall (fun cr => (exists x, cr.1 = Send (t_sck t) x) \/
                      cr.1 = Recv (t_sck t) 4) new.
Proof.
  intros Hs Ht. rewrite (send_dif_eval _ _ _ Hs Ht).
  unfold header_call, ack_call, payload_call.
  repeat match goal with
         | |- context [if ?b then _ else _] => destruct b
         end;
    eexists _, _, _; (split; [reflexivity|]); autorewrite with world;
    (split; [reflexivity|]).
  - split; [by instantiate (1 := [_])|]. repeat (constructor; [first [left; eexists; reflexivity | right; reflexivity]|]).
    constructor.
  - split; [by instantiate (1 := [_; _])|].
    repeat (constructor; [first [left; eexists; reflexivity | right; reflexivity]|]).
    constructor.
  - split; [by instantiate (1 := [_; _])|].
    repeat (constructor; [first [left; eexists; reflexivity | right; reflexivity]|]).
    constructor.
  - split; [by instantiate (1 := [_; _; _; _])|].
    repeat (constructor; [first [left; eexists; reflexivity | right; reflexivity]|]).
    constructor.
  - split; [by instantiate (1 := [_; _; _; _])|].
    repeat (constructor; [first [left; eexists; reflexivity | right; reflexivity]|]).
    constructor.
Qed.

(** the steps of a cycle keep [run_rel] *)
Ltac run_rel_step :=
  first [ apply run_rel_tick
        | apply run_rel_after; simpl; done
        | apply run_rel_state; reflexivity ].

Lemma run_rel_send_dif_step m i : keeps (run_rel m) (send_dif_step i).
Proof.
  intros w. unfold send_dif_step. rewrite bind_get_ctx.
  destruct (rfm_active (ctx w) i) eqn:Ha; cbn [negb]; [|reflexivity].
  destruct (get_task i w) as [t w0|w0|w0] eqn:Hg.
  2,3: unfold device_daq_send_dif; rewrite bind_assoc; unfold bind at 1;
       rewrite Hg; unfold get_task in Hg;
       destruct (i <? 0); [|destruct (_ !! _)]; try discriminate;
       injection Hg as <-; reflexivity.
  assert (Hi : 0 <= i /\ task_at w i = Some t).
  { unfold get_task in Hg. destruct (Z.ltb_spec i 0); [discriminate|].
    unfold task_at. destruct (_ !! _); [|discriminate].
    split; [done|]. by injection Hg as -> _. }
  destruct Hi as [Hi Ht].
  destruct (send_dif_rel _ _ _ Hi Ht) as (err & w1 & new & He & Hc & Htr & Hn).
  mstep He.
  assert (H1 : run_rel m w w1).
  { split; [by rewrite Hc|]. exists new. split; [done|].
    eapply Forall_impl; [exact Hn|]. intros [c r] [[x Hx]|Hx];
      simpl in Hx; subst c; simpl; exists (Z.to_nat i), t;
      (split_and!; [exact Ht|by rewrite Z2Nat.id|done]). }
  destruct (negb _); [|exact H1].
  destruct (modify_task_final i (set_t_rc err) w1) as [E|E]; rewrite E;
    [exact H1|].
  transitivity w1; [exact H1|]. apply run_rel_state; [|done].
  rewrite ctx_set_ctx. by apply erase_run_upd.
Qed.

Lemma run_rel_buffer_difs m : keeps (run_rel m) buffer_difs.
Proof.
  unfold buffer_difs. kapply keeps_bind; [|intros ?; kapply keeps_ret].
  kapply keeps_for_until. intros i w. rewrite bind_get_ctx.
  destruct (rfm_active (ctx w) i) eqn:Ha; cbn [negb]; [|reflexivity].
  kapply keeps_bind_at; [|intros ?; keeps_with run_rel_step].
  destruct (write_dif_final i w) as (w' & b & e & o & -> & Ht & Hc).
  split.
  - destruct Hc as [-> | ->]; [done|]. by apply erase_run_upd.
  - exists [(DaqReadDif i, answer (DaqReadDif i) w)]. split; [done|].
    by repeat constructor.
Qed.

Lemma run_rel_send_difs m : keeps (run_rel m) send_difs.
Proof. kapply keeps_for_each. intros i. apply run_rel_send_dif_step. Qed.

Lemma run_rel_reset_buffer m : keeps (run_rel m) DAQ_reset_buffer.
Proof.
  unfold DAQ_reset_buffer. kapply keeps_bind; [keeps_with run_rel_step|].
  intros ? w. by apply run_rel_state.
Qed.

Lemma run_rel_next_cycle m : keeps (run_rel m) next_cycle.
Proof. intros w. by apply run_rel_state. Qed.

Lemma run_rel_loop_dcc fuel : keeps (run_rel 0) (device_loop_dcc fuel).
Proof.
  induction fuel as [|fuel IH]; cbn [device_loop_dcc];
    [kapply keeps_out_of_fuel|].
  kapply keeps_bind; [keeps_with run_rel_step|]. intros g.
  destruct (g =? 1); [|kapply keeps_ret].
  kapply keeps_bind; [|intros [|]; [exact IH|kapply keeps_ret]].
  unfold dcc_cycle.
  kapply keeps_bind; [apply run_rel_reset_buffer|]. intros ?.
  kapply keeps_bind; [unfold SYNC_fpga_ro; keeps_with run_rel_step|]. intros ?.
  kapply keeps_bind; [keeps_with run_rel_step|]. intros g1.
  destruct (g1 =? 0); [kapply keeps_ret|].
  kapply keeps_bind; [unfold SYNC_fifo_ready; keeps_with run_rel_step|].
  intros ?.
  kapply keeps_bind; [keeps_with run_rel_step|]. intros g2.
  destruct (g2 =? 0); [kapply keeps_ret|].
  unfold dcc_readout.
  kapply keeps_bind; [apply run_rel_buffer_difs|]. intros ?.
  kapply keeps_bind; [unfold SYNC_fifo_ack; keeps_with run_rel_step|].
  intros ? w. rewrite bind_get_ctx.
  kapply keeps_bind_at; [|intros ?].
  - unfold DAQ_write_buffer. rewrite ext_void_eq. apply run_rel_after.
    by simpl.
  - kapply keeps_bind; [apply run_rel_send_difs|]. intros ?.
    kapply keeps_bind; [apply run_rel_next_cycle|]. intros ?.
    kapply keeps_ret.
Qed.

Lemma run_rel_loop_noise fuel : keeps (run_rel 1) (device_loop_noise fuel).
Proof.
  induction fuel as [|fuel IH]; cbn [device_loop_noise];
    [kapply keeps_out_of_fuel|].
  kapply keeps_bind; [keeps_with run_rel_step|]. intros g.
  destruct (g =? 1); [|kapply keeps_ret].
  kapply keeps_bind; [|intros [|]; [exact IH|kapply keeps_ret]].
  unfold noise_cycle.
  kapply keeps_bind; [apply run_rel_reset_buffer|]. intros ?.
  kapply keeps_bind; [unfold SYNC_ramfull; keeps_with run_rel_step|]. intros ?.
  kapply keeps_bind; [keeps_with run_rel_step|]. intros g1.
  destruct (g1 =? 0); [kapply keeps_ret|].
  kapply keeps_bind; [unfold SYNC_ramfull_ext; keeps_with run_rel_step|].
  intros ?.
  kapply keeps_bind; [unfold SYNC_fifo_ready; keeps_with run_rel_step|].
  intros ?.
  kapply keeps_bind; [keeps_with run_rel_step|]. intros g2.
  destruct (g2 =? 0); [kapply keeps_ret|].
  unfold noise_readout.
  kapply keeps_bind; [apply run_rel_buffer_difs|]. intros ?.
  kapply keeps_bind; [unfold SYNC_fifo_ack; keeps_with run_rel_step|].
  intros ?.
  kapply keeps_bind; [apply run_rel_send_difs|]. intros ?.
  kapply keeps_bind; [unfold SYNC_start_acq; keeps_with run_rel_step|].
  intros ?.
  kapply keeps_bind; [apply run_rel_next_cycle|]. intros ?.
  kapply keeps_ret.
Qed.

Lemma device_loop_run_rel fuel w :
  run_rel (trig_mode (ctx w)) w (final (device_loop fuel w)).
Proof.
  unfold device_loop. rewrite bind_get_ctx.
  destruct (Z.eqb_spec (trig_mode (ctx w)) 0) as [->|_];
    [apply run_rel_loop_dcc|].
  destruct (Z.eqb_spec (trig_mode (ctx w)) 1) as [->|_];
    [apply run_rel_loop_noise|].
  reflexivity.
Qed.

(** X20: Whatever the trigger mode, however long it runs and however it ends,
    [device_loop] changes nothing of the device but the cycle counter and
    the buffer windows and result codes of the slots, and it calls nothing
    but: the buffer reset, the polls of its mode, the FIFO reads of active
    slots, the FIFO acknowledgement, [send] and [recv] on the sockets of
    active slots and, in mode 0 only, the write of the buffer to the
    device's run file, in mode 1 only, the restart of the acquisition.  In
    particular it never sleeps, and never opens, closes or connects a file
    or a socket.  ([device_daq_write_dif], which is defined outside
    device.c, is taken to rewrite only the buffer window of its slot.) *)
Theorem loop_frame_and_calls fuel w :
  let w' := final (device_loop fuel w) in
  erase_run (ctx w') = erase_run (ctx w) /\
  exists new,
    trace w' = new ++ trace w /\
    Forall (fun cr => run_call (trig_mode (ctx w)) (ctx w) cr.1) new.
Proof. exact (device_loop_run_rel fuel w). Qed.

(** *** Cycles and their closing calls *)

Lemma marks_app p l1 l2 : marks p (l1 ++ l2) = (marks p l1 + marks p l2)%nat.
Proof. unfold marks. by rewrite filter_app, length_app. Qed.

Lemma marks_quiet p l :
  Forall (fun cr => p cr.1 = false) l -> marks p l = 0%nat.
Proof.
  unfold marks. induction 1 as [|cr l Hc _ IH]; [done|].
  rewrite filter_cons, decide_False by (by rewrite Hc). exact IH.
Qed.

Lemma marks_one p c (r : reply) : p c = true -> marks p [(c, r)] = 1%nat.
Proof.
  intros Hc. unfold marks. rewrite filter_cons, decide_True by done. done.
Qed.

(** the steps of a cycle that keep [quiet_rel] *)
Ltac quiet_step :=
  first [ apply quiet_rel_tick
        | apply quiet_rel_after; simpl; done
        | apply quiet_rel_state; reflexivity ].

Lemma quiet_send_difs p :
  (forall sck x, p (Send sck x) = false) ->
  (forall sck x, p (Recv sck x) = false) ->
  keeps (quiet_rel p) send_difs.
Proof.
  intros Hs Hr.
  unfold send_difs, send_dif_step, device_daq_send_dif, send, recv,
    not_acked.
  keeps_with quiet_step.
Qed.

Lemma quiet_buffer_difs p :
  (forall slot, p (DaqReadDif slot) = false) ->
  keeps (quiet_rel p) buffer_difs.
Proof.
  intros Hd. unfold buffer_difs.
  kapply keeps_bind; [|intros ?; kapply keeps_ret].
  kapply keeps_for_until. intros i.
  kapply keeps_bind; [kapply keeps_get_ctx|]. intros d.
  destruct (negb _); [kapply keeps_ret|].
  kapply keeps_bind; [|intros ?; keeps_with quiet_step].
  intros w. destruct (write_dif_final i w) as (w' & b & e & o & -> & Ht & Hc).
  split.
  - by destruct Hc as [-> | ->].
  - exists [(DaqReadDif i, answer (DaqReadDif i) w)]. split; [done|].
    constructor; [apply Hd|constructor].
Qed.

Lemma quiet_reset_buffer p :
  p DaqResetBuffer = false -> keeps (quiet_rel p) DAQ_reset_buffer.
Proof.
  intros Hp. unfold DAQ_reset_buffer.
  kapply keeps_bind; [keeps_with quiet_step|].
  intros ? w. by apply quiet_rel_state.
Qed.

Lemma quiet_wait_flag p c fuel :
  p c = false -> keeps (quiet_rel p) (wait_flag (ext_int c) fuel).
Proof. intros Hp. keeps_with quiet_step. Qed.

(** a relation kept along an execution that returns *)
Ltac kept H := eapply keeps_done; [|exact H].

Lemma quiet_marks p w w' :
  quiet_rel p w w' ->
  cycle_id (ctx w') = cycle_id (ctx w) /\
  exists new, trace w' = new ++ trace w /\ marks p new = 0%nat.
Proof.
  intros (Hc & new & Ht & Hf). split; [done|].
  exists new. split; [done|by apply marks_quiet].
Qed.

Lemma dcc_readout_done w b w' :
  dcc_readout w = Done b w' ->
  b = true /\
  cycle_id (ctx w') = wrap_u32 (cycle_id (ctx w) + 1) /\
  exists new, trace w' = new ++ trace w /\ marks (cycle_mark 0) new = 1%nat.
Proof.
  unfold dcc_readout. intros H.
  apply bind_inv in H as (? & w1 & H1 & H).
  assert (Q1 : quiet_rel (cycle_mark 0) w w1)
    by (kept H1; by apply quiet_buffer_difs).
  unfold SYNC_fifo_ack in H. rewrite (bind_Done _ _ _ _ _ (ext_void_eq _ _)) in H.
  rewrite bind_get_ctx in H. unfold DAQ_write_buffer in H.
  unfold bind at 1 in H. rewrite ext_void_eq in H.
  apply bind_inv in H as (? & w2 & H2 & H).
  match type of H2 with
  | send_difs ?w0 = _ =>
      assert (Q2 : quiet_rel (cycle_mark 0) w0 w2)
        by (kept H2; by apply quiet_send_difs)
  end.
  unfold next_cycle in H. rewrite bind_modify_ctx in H. unfold ret in H.
  injection H as <- <-.
  apply quiet_marks in Q1 as (C1 & n1 & T1 & M1).
  apply quiet_marks in Q2 as (C2 & n2 & T2 & M2).
  rewrite !after_ctx in C2. rewrite !after_trace in T2.
  split; [done|]. split.
  - rewrite ctx_set_ctx. cbn [cycle_id set_cycle_id]. congruence.
  - eexists (n2 ++ [_; _] ++ n1). split.
    + change (trace (set_ctx _ w2)) with (trace w2).
      rewrite T2, T1, <- !app_assoc. reflexivity.
    + rewrite !marks_app, M1, M2. reflexivity.
Qed.

Lemma noise_readout_done w b w' :
  noise_readout w = Done b w' ->
  b = true /\
  cycle_id (ctx w') = wrap_u32 (cycle_id (ctx w) + 1) /\
  exists new, trace w' = new ++ trace w /\ marks (cycle_mark 1) new = 1%nat.
Proof.
  unfold noise_readout. intros H.
  apply bind_inv in H as (? & w1 & H1 & H).
  assert (Q1 : quiet_rel (cycle_mark 1) w w1)
    by (kept H1; by apply quiet_buffer_difs).
  unfold SYNC_fifo_ack in H. rewrite (bind_Done _ _ _ _ _ (ext_void_eq _ _)) in H.
  apply bind_inv in H as (? & w2 & H2 & H).
  match type of H2 with
  | send_difs ?w0 = _ =>
      assert (Q2 : quiet_rel (cycle_mark 1) w0 w2)
        by (kept H2; by apply quiet_send_difs)
  end.
  unfold SYNC_start_acq in H. rewrite (bind_Done _ _ _ _ _ (ext_void_eq _ _)) in H.
  unfold next_cycle in H. rewrite bind_modify_ctx in H. unfold ret in H.
  injection H as <- <-.
  apply quiet_marks in Q1 as (C1 & n1 & T1 & M1).
  apply quiet_marks in Q2 as (C2 & n2 & T2 & M2).
  rewrite !after_ctx in C2. rewrite !after_trace in T2.
  split; [done|]. split.
  - rewrite ctx_set_ctx, after_ctx. cbn [cycle_id set_cycle_id]. congruence.
  - eexists ([_] ++ n2 ++ [_] ++ n1). split.
    + change (trace (set_ctx ?f ?x)) with (trace x).
      rewrite after_trace, T2, T1, <- !app_assoc. reflexivity.
    + rewrite !marks_app, M1, M2. reflexivity.
Qed.

Lemma wrap_u32_succ x n :
  wrap_u32 (wrap_u32 (x + 1) + Z.of_nat n) = wrap_u32 (x + Z.of_nat (n + 1)).
Proof.
  unfold wrap_u32. rewrite Zplus_mod_idemp_l. f_equal. lia.
Qed.

Lemma dcc_cycle_done fuel w b w' :
  dcc_cycle fuel w = Done b w' ->
  exists new,
    trace w' = new ++ trace w /\
    if b then marks (cycle_mark 0) new = 1%nat /\
              cycle_id (ctx w') = wrap_u32 (cycle_id (ctx w) + 1)
    else marks (cycle_mark 0) new = 0%nat /\
         cycle_id (ctx w') = cycle_id (ctx w) /\ g_state w' = 0.
Proof.
  unfold dcc_cycle. intros H.
  apply bind_inv in H as (? & w1 & H1 & H).
  assert (Q1 : quiet_rel (cycle_mark 0) w w1)
    by (kept H1; by apply quiet_reset_buffer).
  apply bind_inv in H as (? & w2 & H2 & H).
  assert (Q2 : quiet_rel (cycle_mark 0) w w2).
  { transitivity w1; [done|]. kept H2. by apply quiet_wait_flag. }
  rewrite bind_read_g_state in H.
  assert (Q3 : quiet_rel (cycle_mark 0) w (tick w2)).
  { transitivity w2; [done|apply quiet_rel_tick]. }
  destruct (Z.eqb_spec (g_state (tick w2)) 0) as [E|_].
  { unfold ret in H. injection H as <- <-.
    apply quiet_marks in Q3 as (C & new & T & Mk). by exists new. }
  apply bind_inv in H as (? & w3 & H3 & H).
  assert (Q4 : quiet_rel (cycle_mark 0) w w3).
  { transitivity (tick w2); [done|]. kept H3. by apply quiet_wait_flag. }
  rewrite bind_read_g_state in H.
  assert (Q5 : quiet_rel (cycle_mark 0) w (tick w3)).
  { transitivity w3; [done|apply quiet_rel_tick]. }
  destruct (Z.eqb_spec (g_state (tick w3)) 0) as [E|_].
  { unfold ret in H. injection H as <- <-.
    apply quiet_marks in Q5 as (C & new & T & Mk). by exists new. }
  apply dcc_readout_done in H as (-> & C & n & T & Mk).
  apply quiet_marks in Q5 as (C5 & n5 & T5 & M5).
  exists (n ++ n5). split; [by rewrite T, T5, app_assoc|].
  split; [by rewrite marks_app, Mk, M5|congruence].
Qed.

Lemma noise_cycle_done fuel w b w' :
  noise_cycle fuel w = Done b w' ->
  exists new,
    trace w' = new ++ trace w /\
    if b then marks (cycle_mark 1) new = 1%nat /\
              cycle_id (ctx w') = wrap_u32 (cycle_id (ctx w) + 1)
    else marks (cycle_mark 1) new = 0%nat /\
         cycle_id (ctx w') = cycle_id (ctx w) /\ g_state w' = 0.
Proof.
  unfold noise_cycle. intros H.
  apply bind_inv in H as (? & w1 & H1 & H).
  assert (Q1 : quiet_rel (cycle_mark 1) w w1)
    by (kept H1; by apply quiet_reset_buffer).
  apply bind_inv in H as (? & w2 & H2 & H).
  assert (Q2 : quiet_rel (cycle_mark 1) w w2).
  { transitivity w1; [done|]. kept H2. by apply quiet_wait_flag. }
  rewrite bind_read_g_state in H.
  assert (Q3 : quiet_rel (cycle_mark 1) w (tick w2)).
  { transitivity w2; [done|apply quiet_rel_tick]. }
  destruct (Z.eqb_spec (g_state (tick w2)) 0) as [E|_].
  { unfold ret in H. injection H as <- <-.
    apply quiet_marks in Q3 as (C & new & T & Mk). by exists new. }
  unfold SYNC_ramfull_ext in H.
  rewrite (bind_Done _ _ _ _ _ (ext_void_eq _ _)) in H.
  apply bind_inv in H as (? & w3 & H3 & H).
  assert (Q4 : quiet_rel (cycle_mark 1) w w3).
  { transitivity (tick w2); [done|].
    transitivity (after SyncRamfullExt (tick w2));
      [by apply quiet_rel_after|].
    kept H3. by apply quiet_wait_flag. }
  rewrite bind_read_g_state in H.
  assert (Q5 : quiet_rel (cycle_mark 1) w (tick w3)).
  { transitivity w3; [done|apply quiet_rel_tick]. }
  destruct (Z.eqb_spec (g_state (tick w3)) 0) as [E|_].
  { unfold ret in H. injection H as <- <-.
    apply quiet_marks in Q5 as (C & new & T & Mk). by exists new. }
  apply noise_readout_done in H as (-> & C & n & T & Mk).
  apply quiet_marks in Q5 as (C5 & n5 & T5 & M5).
  exists (n ++ n5). split; [by rewrite T, T5, app_assoc|].
  split; [by rewrite marks_app, Mk, M5|congruence].
Qed.

Lemma loop_dcc_done fuel : forall w w',
  device_loop_dcc fuel w = Done tt w' ->
  g_state w' <> 1 /\
  exists new,
    trace w' = new ++ trace w /\
    wrap_u32 (cycle_id (ctx w'))
    = wrap_u32 (cycle_id (ctx w) + Z.of_nat (marks (cycle_mark 0) new)).
Proof.
  induction fuel as [|fuel IH]; intros w w' H; [discriminate|].
  cbn [device_loop_dcc] in H. rewrite bind_read_g_state in H.
  destruct (Z.eqb_spec (g_state (tick w)) 1) as [_|E].
  2: { unfold ret in H. injection H as <-. split; [done|].
       exists []. rewrite tick_trace, tick_ctx. split; [done|].
       cbn. by rewrite Z.add_0_r. }
  apply bind_inv in H as (again & w1 & H1 & H).
  apply dcc_cycle_done in H1 as (n1 & T1 & H1).
  rewrite tick_trace in T1. rewrite tick_ctx in H1.
  destruct again.
  - destruct H1 as [M1 C1].
    apply IH in H as (Hg & n & T & C). split; [done|].
    exists (n ++ n1). split; [by rewrite T, T1, app_assoc|].
    rewrite C, C1, marks_app, M1. apply wrap_u32_succ.
  - destruct H1 as (M1 & C1 & G1). unfold ret in H. injection H as <-.
    split; [lia|]. exists n1. split; [done|].
    rewrite C1, M1. cbn. by rewrite Z.add_0_r.
Qed.

Lemma loop_noise_done fuel : forall w w',
  device_loop_noise fuel w = Done tt w' ->
  g_state w' <> 1 /\
  exists new,
    trace w' = new ++ trace w /\
    wrap_u32 (cycle_id (ctx w'))
    = wrap_u32 (cycle_id (ctx w) + Z.of_nat (marks (cycle_mark 1) new)).
Proof.
  induction fuel as [|fuel IH]; intros w w' H; [discriminate|].
  cbn [device_loop_noise] in H. rewrite bind_read_g_state in H.
  destruct (Z.eqb_spec (g_state (tick w)) 1) as [_|E].
  2: { unfold ret in H. injection H as <-. split; [done|].
       exists []. rewrite tick_trace, tick_ctx. split; [done|].
       cbn. by rewrite Z.add_0_r. }
  apply bind_inv in H as (again & w1 & H1 & H).
  apply noise_cycle_done in H1 as (n1 & T1 & H1).
  rewrite tick_trace in T1. rewrite tick_ctx in H1.
  destruct again.
  - destruct H1 as [M1 C1].
    apply IH in H as (Hg & n & T & C). split; [done|].
    exists (n ++ n1). split; [by rewrite T, T1, app_assoc|].
    rewrite C, C1, marks_app, M1. apply wrap_u32_succ.
  - destruct H1 as (M1 & C1 & G1). unfold ret in H. injection H as <-.
    split; [lia|]. exists n1. split; [done|].
    rewrite C1, M1. cbn. by rewrite Z.add_0_r.
Qed.

(** X21: In either trigger mode [device_loop] returns only once the run has
    been cancelled: in the world it returns in, [g_state] is no longer 1. *)
Theorem loop_returns_only_when_cancelled fuel w w' :
  trig_mode (ctx w) = 0 \/ trig_mode (ctx w) = 1 ->
  device_loop fuel w = Done tt w' ->
  g_state w' <> 1.
Proof.
  intros Hm H. unfold device_loop in H. rewrite bind_get_ctx in H.
  destruct Hm as [Hm|Hm]; rewrite Hm in H; cbn [Z.eqb Pos.eqb] in H.
  - by apply loop_dcc_done in H as [Hg _].
  - by apply loop_noise_done in H as [Hg _].
Qed.

(** X22: When [device_loop] returns, the cycle counter has advanced, modulo
    2^32, by the number of cycles closed: in mode 0, the number of writes
    of the cycle buffer to the run file; in mode 1, the number of restarts
    of the acquisition. *)
Theorem loop_counts_closed_cycles fuel w w' :
  device_loop fuel w = Done tt w' ->
  exists new,
    trace w' = new ++ trace w /\
    wrap_u32 (cycle_id (ctx w'))
    = wrap_u32 (cycle_id (ctx w)
                + Z.of_nat (marks (cycle_mark (trig_mode (ctx w))) new)).
Proof.
  intros H. unfold device_loop in H. rewrite bind_get_ctx in H.
  destruct (Z.eqb_spec (trig_mode (ctx w)) 0) as [->|_].
  { by apply loop_dcc_done in H as [_ Hn]. }
  destruct (Z.eqb_spec (trig_mode (ctx w)) 1) as [->|_].
  { by apply loop_noise_done in H as [_ Hn]. }
  unfold ret in H. injection H as <-. exists []. split; [done|].
  cbn. by rewrite Z.add_0_r.
Qed.

(** ** Starting a run on the sDCC clock: [device_start_run_dcc] *)

#[local] Instance calls_rel_preorder P : PreOrder (calls_rel P).
Proof.
  split.
  - intros w. split; [done|]. exists []. split; [done|constructor].
  - intros w1 w2 w3 (He1 & n1 & Ht1 & F1) (He2 & n2 & Ht2 & F2).
    split; [congruence|]. exists (n2 ++ n1).
    split; [by rewrite Ht2, Ht1, app_assoc|].
    apply Forall_app. split; [|done]. by rewrite He1 in F2.
Qed.

#[local] Instance same_on_preorder {X} (f : Device -> X) : PreOrder (same_on f).
Proof.
  split; [by intros w|]. intros w1 w2 w3 H1 H2. unfold same_on in *.
  congruence.
Qed.

Lemma calls_rel_after (P : Device -> call -> Prop) c w :
  P (ctx w) c -> calls_rel P w (after c w).
Proof.
  intros Hc. split; [apply after_ctx|].
  exists [(c, answer c w)]. split; [apply after_trace|].
  by repeat constructor.
Qed.

Lemma calls_rel_tick P w : calls_rel P w (tick w).
Proof.
  split; [apply tick_ctx|]. exists []. split; [apply tick_trace|constructor].
Qed.

(** the steps that keep [calls_rel] *)
Ltac calls_rel_step :=
  first [ apply calls_rel_tick | apply calls_rel_after; simpl; done ].

(** A cancellation stays: nothing but [new_device] sets [g_state] back. *)
Lemma tick_cancelled w : g_state w = 0 -> g_state (tick w) = 0.
Proof. intros H. unfold tick. by destruct (sigint_at _ _). Qed.

Lemma after_cancelled c w : g_state w = 0 -> g_state (after c w) = 0.
Proof. intros H. unfold after, record. simpl. by apply tick_cancelled. Qed.

Lemma dcc_cmd_unchanged_polls fuel c :
  keeps (calls_rel (fun _ c => c = SyncDccCmdMem)) (dcc_cmd_unchanged fuel c).
Proof.
  induction fuel as [|fuel IH]; cbn [dcc_cmd_unchanged];
    [kapply keeps_out_of_fuel|].
  unfold SYNC_dcc_cmd_mem.
  kapply keeps_bind; [keeps_with calls_rel_step|]. intros cmd.
  destruct (cmd =? c); [|kapply keeps_ret].
  kapply keeps_bind; [keeps_with calls_rel_step|]. intros g.
  destruct (g =? 0); [kapply keeps_ret|exact IH].
Qed.

(** When the wait for the reset-BCID command returns, either the run has
    been cancelled or the command word read last is the reset-BCID
    command. *)
Lemma wait_reset_bcid_done fuel : forall c w w',
  wait_reset_bcid fuel c w = Done tt w' ->
  ctx w' = ctx w /\
  exists polls,
    trace w' = polls ++ trace w /\
    Forall (fun cr => cr.1 = SyncDccCmdMem) polls /\
    (g_state w' = 0 \/
     match polls with
     | [] => c = CMD_RESET_BCID
     | (_, r) :: _ => ret_val r = CMD_RESET_BCID
     end).
Proof.
  induction fuel as [|fuel IH]; intros c w w' H; [discriminate|].
  cbn [wait_reset_bcid] in H.
  destruct (Z.eqb_spec c CMD_RESET_BCID) as [E|_]; cbn [negb] in H.
  { unfold ret in H. injection H as <-. split; [done|].
    exists []. split_and!; [done|constructor|by right]. }
  apply bind_inv in H as (? & w1 & H1 & H).
  pose proof (keeps_done _ _ _ _ _ (dcc_cmd_unchanged_polls fuel c) H1)
    as (C1 & n1 & T1 & F1).
  unfold SYNC_dcc_cmd_mem in H.
  rewrite (bind_Done _ _ _ _ _ (ext_int_eq _ _)) in H.
  rewrite bind_read_g_state in H.
  set (w2 := after SyncDccCmdMem w1) in *.
  assert (T2 : trace (tick w2)
               = (SyncDccCmdMem, answer SyncDccCmdMem w1) :: n1 ++ trace w).
  { subst w2. by rewrite tick_trace, after_trace, T1. }
  assert (C2 : ctx (tick w2) = ctx w).
  { subst w2. by rewrite tick_ctx, after_ctx. }
  destruct (Z.eqb_spec (g_state (tick w2)) 0) as [G|_].
  { unfold ret in H. injection H as <-. split; [done|].
    exists ((SyncDccCmdMem, answer SyncDccCmdMem w1) :: n1).
    split_and!; [done|by constructor|by left]. }
  apply IH in H as (C & n & T & F & Hend). split; [congruence|].
  exists (n ++ (SyncDccCmdMem, answer SyncDccCmdMem w1) :: n1).
  split_and!.
  - by rewrite T, T2, <- app_assoc.
  - apply Forall_app. split; [done|by constructor].
  - destruct Hend as [G|Hend]; [by left|right].
    destruct n as [|[c0 r0] n]; simpl; done.
Qed.

(** X18: [device_start_run_dcc] returns -1 only when the run has been
    cancelled, and then it has touched nothing but the command word of the
    sDCC.  It returns 0 only when the command word it read last is the
    reset-BCID command (with no read at all when that command is 0xE); it
    has then read the state, reset and started the counters, initialised
    the FIFO of exactly the active slots, in ascending order, armed the
    FIFO, and zeroed the cycle counter. *)
Theorem start_run_dcc_outcomes fuel run w rc w' :
  device_start_run_dcc fuel run w = Done rc w' ->
  exists polls,
    Forall (fun cr => cr.1 = SyncDccCmdMem) polls /\
    ((rc = -1 /\ g_state w' = 0 /\ ctx w' = ctx w /\
      trace w' = polls ++ trace w) \/
     (rc = 0 /\ ctx w' = set_cycle_id 0 (ctx w) /\
      match polls with
      | [] => CMD_RESET_BCID = 14
      | (_, r) :: _ => ret_val r = CMD_RESET_BCID
      end /\
      exists rest,
        trace w' = rest ++ polls ++ trace w /\
        rev rest.*1 = [SyncState; CntReset; CntStart]
                      ++ (DaqFifoInit <$> active_slots (ctx w) NB_RFM)
                      ++ [SyncFifoArming])).
Proof.
  unfold device_start_run_dcc. intros H.
  apply bind_inv in H as ([] & w1 & H1 & H).
  apply wait_reset_bcid_done in H1 as (C1 & polls & T1 & F1 & Hend).
  exists polls. split; [done|].
  rewrite bind_read_g_state in H.
  destruct (Z.eqb_spec (g_state (tick w1)) 0) as [G|G].
  { unfold ret in H. injection H as <- <-. left.
    rewrite tick_ctx, tick_trace. done. }
  right. destruct Hend as [G1|Hend]; [by apply tick_cancelled in G1|].
  unfold SYNC_state, CNT_reset, CNT_start in H.
  rewrite !(bind_Done _ _ _ _ _ (ext_int_eq _ _)) in H.
  rewrite !(bind_Done _ _ _ _ _ (ext_void_eq _ _)) in H.
  match type of H with
  | bind _ _ ?w0 = _ =>
      destruct (fifo_init_calls w0) as (w2 & H2 & C2 & (n2 & T2 & M2))
  end.
  rewrite (bind_Done _ _ _ _ _ H2) in H. rewrite bind_modify_ctx in H.
  unfold SYNC_fifo_arming in H.
  rewrite (bind_Done _ _ _ _ _ (ext_void_eq _ _)) in H.
  unfold ret in H. injection H as <- <-.
  rewrite !after_ctx, tick_ctx, C1 in C2, M2.
  split_and!; [done| |by destruct polls as [|[? ?] ?]|].
  - by rewrite after_ctx, ctx_set_ctx, C2.
  - eexists ([_] ++ n2 ++ [_; _; _]). split.
    + rewrite after_trace. change (trace (set_ctx ?f ?x)) with (trace x).
      rewrite T2, !after_trace, tick_trace, T1, <- !app_assoc. reflexivity.
    + rewrite !fmap_app, !rev_app_distr, M2. reflexivity.
Qed.

(** use that a cancelled run stays cancelled *)
Ltac cancelled G :=
  repeat match goal with
         | |- context [g_state (tick ?x)] =>
             let E := fresh in
             assert (E : g_state (tick x) = 0)
               by (repeat first [apply tick_cancelled | apply after_cancelled];
                   exact G);
             rewrite E; clear E; cbn [Z.eqb]
         end.

(** X19: Cancelled before it starts, [device_start_run_dcc] returns -1 after at
    most two reads of the command word: the counters are neither reset nor
    started and the FIFO is not armed. *)
Theorem start_run_dcc_cancelled fuel run w :
  (2 <= fuel)%nat ->
  g_state w = 0 ->
  exists w',
    device_start_run_dcc fuel run w = Done (-1) w' /\
    ctx w' = ctx w /\
    calls w' = calls w ++ (if CMD_RESET_BCID =? 14 then []
                           else [SyncDccCmdMem; SyncDccCmdMem]).
Proof.
  intros Hf G. destruct fuel as [|[|fuel]]; [lia|lia|].
  unfold device_start_run_dcc. cbn [wait_reset_bcid dcc_cmd_unchanged].
  rewrite Z.eqb_sym.
  destruct (CMD_RESET_BCID =? 14); cbn [negb].
  { rewrite bind_ret, bind_read_g_state. cancelled G.
    eexists. split; [reflexivity|]. rewrite tick_ctx, calls_tick.
    by rewrite app_nil_r. }
  unfold SYNC_dcc_cmd_mem. run.
  destruct (_ =? 14).
  - run. rewrite bind_read_g_state. cancelled G. run.
    rewrite bind_read_g_state. cancelled G. run.
    rewrite bind_read_g_state. cancelled G.
    eexists. split; [reflexivity|]. split; [by see_ctx|list_calls].
  - run. rewrite bind_read_g_state. cancelled G. run.
    rewrite bind_read_g_state. cancelled G.
    eexists. split; [reflexivity|]. split; [by see_ctx|list_calls].
Qed.

(** ** A whole run: start, loop, stop *)

(** the steps that keep [same_on] *)
Ltac same_on_step :=
  unfold same_on;
  first [ by rewrite tick_ctx | by rewrite after_ctx | reflexivity ].

Lemma start_run_dcc_frame fuel run :
  keeps (same_on erase_run) (device_start_run_dcc fuel run).
Proof.
  assert (H1 : forall f c,
    keeps (same_on erase_run) (dcc_cmd_unchanged f c)).
  { induction f as [|f IH]; intros c; cbn [dcc_cmd_unchanged];
      [kapply keeps_out_of_fuel|].
    unfold SYNC_dcc_cmd_mem.
    kapply keeps_bind; [keeps_with same_on_step|]. intros cmd.
    destruct (cmd =? c); [|kapply keeps_ret].
    kapply keeps_bind; [keeps_with same_on_step|]. intros g.
    destruct (g =? 0); [kapply keeps_ret|apply IH]. }
  assert (H2 : forall f c,
    keeps (same_on erase_run) (wait_reset_bcid f c)).
  { induction f as [|f IH]; intros c; cbn [wait_reset_bcid];
      [kapply keeps_out_of_fuel|].
    destruct (negb _); [|kapply keeps_ret].
    kapply keeps_bind; [apply H1|]. intros ?.
    unfold SYNC_dcc_cmd_mem.
    kapply keeps_bind; [keeps_with same_on_step|]. intros cmd.
    kapply keeps_bind; [keeps_with same_on_step|]. intros g.
    destruct (g =? 0); [kapply keeps_ret|apply IH]. }
  unfold device_start_run_dcc.
  kapply keeps_bind; [apply H2|]. intros ?.
  unfold SYNC_state, CNT_reset, CNT_start, DAQ_fifo_init, SYNC_fifo_arming.
  keeps_with same_on_step.
Qed.

Lemma start_ok_file fuel run w w1 :
  device_start fuel run w = Done 0 w1 ->
  ret_val (answer (Fopen (DaqRaw (wrap_i32 run))) w) <> 0 /\
  daq_file (ctx w1) = ret_val (answer (Fopen (DaqRaw (wrap_i32 run))) w) /\
  trig_mode (ctx w1) = trig_mode (ctx w) /\
  (trig_mode (ctx w) = 0 \/ trig_mode (ctx w) = 1).
Proof.
  intros H. destruct (init_run_eval run w) as (wa & Ha & Ca & _).
  unfold device_start in H. rewrite (bind_Done _ _ _ _ _ Ha) in H.
  destruct (Z.eqb_spec (ret_val (answer (Fopen (DaqRaw (wrap_i32 run))) w)) 0)
    as [_|Hfile]; [discriminate|].
  cbn [Z.eqb negb] in H. rewrite bind_get_ctx in H.
  assert (Hd : daq_file (ctx wa)
               = ret_val (answer (Fopen (DaqRaw (wrap_i32 run))) w))
    by (by rewrite Ca).
  assert (Hm : trig_mode (ctx wa) = trig_mode (ctx w)) by (by rewrite Ca).
  rewrite Hm in H. split; [done|].
  destruct (Z.eqb_spec (trig_mode (ctx w)) 0) as [E0|_].
  { pose proof (keeps_done _ _ _ _ _ (start_run_dcc_frame fuel run) H) as Hf.
    apply erase_run_fields in Hf as (_ & Hf & Ht & _).
    split_and!; [congruence|congruence|by left]. }
  destruct (Z.eqb_spec (trig_mode (ctx w)) 1) as [E1|_]; [|discriminate].
  destruct (start_run_noise_eval run wa) as (wb & Hb & Cb & _).
  rewrite Hb in H. injection H as <-.
  rewrite Cb. split_and!; [done|done|by right].
Qed.

(** X23: A run from start to stop: when [device_start] has returned 0 and
    [device_loop] has returned, [device_stop] returns 0; it stops the
    counters (after stopping the acquisition in mode 1), resets the
    counters, the FPGA and the chips, and closes the very file that
    [device_start] opened, leaving [daq_file] null. *)
Theorem stop_closes_run_file fuel fuel' run w w1 w2 :
  device_start fuel run w = Done 0 w1 ->
  device_loop fuel' w1 = Done tt w2 ->
  let file := ret_val (answer (Fopen (DaqRaw (wrap_i32 run))) w) in
  exists w3,
    device_stop w2 = Done 0 w3 /\
    daq_file (ctx w3) = 0 /\
    file <> 0 /\
    calls w3 = calls w2
               ++ (if trig_mode (ctx w) =? 0 then [CntStop]
                   else [SyncStopAcq; CntStop])
               ++ [CntReset; SyncResetFpga; SyncResetHr; Fclose file].
Proof.
  intros Hs Hl file.
  apply start_ok_file in Hs as (Hfile & Hd & Hm & Hmode). fold file in Hfile, Hd.
  pose proof (device_loop_run_rel fuel' w1) as (He & _).
  rewrite Hl in He. simpl final in He.
  apply erase_run_fields in He as (_ & Hd2 & Hm2 & _).
  rewrite device_stop_eval. cbv zeta.
  rewrite Hd2, Hd, Hm2, Hm.
  destruct (Z.eqb_spec file 0) as [|_]; [done|].
  eexists. split; [reflexivity|]. split; [done|]. split; [done|].
  destruct Hmode as [-> | ->]; cbn [Z.eqb Pos.eqb]; list_calls.
Qed.

(** ** The FPGA: [device_init_fpga], call by call *)

(** The wait for the PLL lock ends at the poll number [n] when the polls
    before answer 0 and either that one does not, or the budget of 100
    sleeps is spent. *)
Lemma pll_wait_made n : forall fuel cnt w,
  (n <= fuel)%nat ->
  cnt + Z.of_nat n <= 100 ->
  (forall i, (i < n)%nat -> pll_lck_at w i = 0) ->
  cnt + Z.of_nat n = 100 \/ pll_lck_at w n <> 0 ->
  exists w',
    pll_wait fuel cnt w = Done (cnt + Z.of_nat n) w' /\
    ctx w' = ctx w /\
    made w w' (pll_polls n ++ [SyncPllLck]).
Proof.
  induction n as [|n IH]; intros fuel cnt w Hf Hb Hz Hend;
    rewrite pll_wait_unfold.
  - rewrite <- pll_lck_at_0.
    assert (E : (pll_lck_at w 0 =? 0) && (cnt <? 100) = false).
    { destruct Hend as [Hend|Hend].
      - destruct (Z.ltb_spec cnt 100); [lia|]. apply andb_false_r.
      - by destruct (Z.eqb_spec (pll_lck_at w 0) 0). }
    rewrite E. eexists. rewrite Z.add_0_r. split; [reflexivity|].
    split; [apply after_ctx|apply made_after].
  - rewrite <- pll_lck_at_0, Hz by lia. simpl.
    destruct (Z.ltb_spec cnt 100); [|lia].
    destruct fuel as [|fuel]; [lia|].
    destruct (IH fuel (cnt + 1) (after (Usleep 10000) (after SyncPllLck w)))
      as (w' & Hw & Hc & Hm); [lia|lia| | |].
    { intros i Hi. rewrite pll_lck_at_next. apply Hz. lia. }
    { destruct Hend as [Hend|Hend]; [left; lia|right].
      by rewrite pll_lck_at_next. }
    exists w'. rewrite Hw. split; [f_equal; lia|].
    split; [by rewrite Hc, !after_ctx|].
    apply made_cons, made_cons. exact Hm.
Qed.

Lemma fpga_lanes_calls w :
  exists w',
    for_each (upto NB_RFM) (fun rfm_index =>
      d <- get_ctx;
      if rfm_active d rfm_index then RFM_on rfm_index;; RFM_enable rfm_index
      else ret tt) w = Done tt w' /\
    ctx w' = ctx w /\
    made w w' (flat_map (fun i => [RfmOn i; RfmEnable i])
                 (active_slots (ctx w) NB_RFM)).
Proof.
  apply (for_active_calls (fun i => [RfmOn i; RfmEnable i])
           (fun i => RFM_on i;; RFM_enable i)).
  intros i w0. unfold RFM_on, RFM_enable. run. eexists.
  split; [reflexivity|]. split; [by rewrite !after_ctx|].
  apply made_cons, made_after.
Qed.

(** X8: When none of the first 100 polls finds the PLL locked,
    [device_init_fpga] gives up after exactly 100 sleeps of 10 ms and 101
    polls, and returns -1: no lane has been switched on and no command
    source selected. *)
Theorem init_fpga_timeout_budget fuel w :
  (100 <= fuel)%nat ->
  (forall i, (i < 100)%nat -> fpga_pll_poll w i = 0) ->
  exists w',
    device_init_fpga fuel w = Done (-1) w' /\
    ctx w' = ctx w /\
    calls w' = calls w ++ [SyncResetFpga; Usleep 2] ++ pll_polls 100
               ++ [SyncPllLck].
Proof.
  intros Hf Hz.
  destruct (pll_wait_made 100 fuel 0 (after (Usleep 2) (after SyncResetFpga w)))
    as (w1 & H1 & C1 & M1); [done|done| |by left|].
  { intros i Hi. rewrite fpga_pll_poll_eq. by apply Hz. }
  unfold device_init_fpga, SYNC_reset_fpga, usleep. run. mstep H1.
  cbn [Z.add Z.of_nat Pos.of_succ_nat Z.leb Z.compare Pos.compare
       Pos.compare_cont]. 
  exists w1. split; [reflexivity|]. split; [by rewrite C1, !after_ctx|].
  rewrite (made_calls _ _ _ M1). list_calls.
Qed.

(** X9: When the PLL lock is first seen at poll [i] (from 0, below 100),
    [device_init_fpga] returns 0 after: the reset, [i] rounds of waiting,
    the poll that sees the lock and one more for the log, [RFM_on] and
    [RFM_enable] for exactly the active slots in ascending order, one
    second of sleep, a read of the control register, and the selection of
    the command source of the trigger mode (none when the mode is neither
    0 nor 1).  The device is left as it was. *)
Theorem init_fpga_sequence fuel i w :
  (i < 100)%nat -> (i <= fuel)%nat ->
  (forall j, (j < i)%nat -> fpga_pll_poll w j = 0) ->
  fpga_pll_poll w i <> 0 ->
  exists w',
    device_init_fpga fuel w = Done 0 w' /\
    ctx w' = ctx w /\
    calls w' = calls w ++ [SyncResetFpga; Usleep 2] ++ pll_polls i
               ++ [SyncPllLck; SyncPllLck]
               ++ flat_map (fun k => [RfmOn k; RfmEnable k])
                    (active_slots (ctx w) NB_RFM)
               ++ [Sleep 1; PioCtrlGet]
               ++ command_source (trig_mode (ctx w)).
Proof.
  intros Hi Hf Hz Hl.
  destruct (pll_wait_made i fuel 0 (after (Usleep 2) (after SyncResetFpga w)))
    as (w1 & H1 & C1 & M1); [done|lia| | |].
  { intros j Hj. rewrite fpga_pll_poll_eq. by apply Hz. }
  { right. by rewrite fpga_pll_poll_eq. }
  rewrite !after_ctx in C1.
  unfold device_init_fpga, SYNC_reset_fpga, usleep. run. mstep H1.
  destruct (Z.leb_spec 100 (0 + Z.of_nat i)); [lia|].
  unfold SYNC_pll_lck. run.
  destruct (fpga_lanes_calls (after SyncPllLck w1)) as (w2 & H2 & C2 & M2).
  rewrite after_ctx, C1 in C2, M2. mstep H2.
  unfold sleep, PIO_ctrl_get. run. rewrite !after_ctx, C2.
  unfold command_source, SYNC_select_command_dcc, SYNC_enable_dcc_busy,
    SYNC_enable_dcc_ramfull, SYNC_select_command_soft.
  destruct (trig_mode (ctx w) =? 0); run;
    destruct (trig_mode (ctx w) =? 1); run;
    (eexists; split; [reflexivity|]);
    (split; [by rewrite ?after_ctx, C2|]);
    rewrite ?calls_after, (made_calls _ _ _ M2), calls_after,
      (made_calls _ _ _ M1), !calls_after, <- !app_assoc; reflexivity.
Qed.

(** ** The Hardroc configuration: [device_init_hrsc] *)

#[local] Instance calls_on_preorder d0 P : PreOrder (calls_on d0 P).
Proof.
  split.
  - intros w Hw. split; [done|]. exists []. split; [done|constructor].
  - intros w1 w2 w3 H12 H23 Hw.
    destruct (H12 Hw) as (C2 & n1 & T1 & F1).
    destruct (H23 C2) as (C3 & n2 & T2 & F2).
    split; [done|]. exists (n2 ++ n1).
    split; [by rewrite T2, T1, app_assoc|]. by apply Forall_app.
Qed.

Lemma calls_on_after d0 (P : call -> Prop) c w :
  P c -> calls_on d0 P w (after c w).
Proof.
  intros Hc Hw. split; [by rewrite after_ctx|].
  exists [(c, answer c w)]. split; [apply after_trace|].
  by repeat constructor.
Qed.

Lemma calls_on_tick d0 P w : calls_on d0 P w (tick w).
Proof.
  intros Hw. split; [by rewrite tick_ctx|].
  exists []. split; [apply tick_trace|constructor].
Qed.

(** the steps that keep [calls_on] *)
Ltac calls_on_step :=
  first [ apply calls_on_tick | apply calls_on_after; simpl; done ].

(** what is read from the device is read from [d0] *)
Lemma keeps_get_ctx_on d0 P {B} (k : Device -> M B) :
  keeps (calls_on d0 P) (k d0) -> keeps (calls_on d0 P) (bind get_ctx k).
Proof. intros H w Hw. rewrite bind_get_ctx, Hw. by apply H. Qed.

Lemma keeps_table_get_on d0 P {B} table idx (k : Z -> M B) :
  (forall v, table_entry (table d0) idx = Some v ->
             keeps (calls_on d0 P) (k v)) ->
  keeps (calls_on d0 P) (bind (table_get table idx) k).
Proof.
  intros H w Hw. unfold bind, table_get.
  destruct (idx <? 0) eqn:E; [by apply (reflexivity (R := calls_on d0 P))|].
  destruct (table (ctx w) !! Z.to_nat idx) as [v|] eqn:E1;
    [|by apply (reflexivity (R := calls_on d0 P))].
  apply H; [|done]. unfold table_entry. by rewrite E, <- Hw.
Qed.

Lemma hrsc_tune_calls d0 rfm adj :
  rfm_active d0 rfm = true ->
  (forall th, adj th = hrsc_threshold d0 th) ->
  keeps (calls_on d0 (hrsc_call d0)) (hrsc_tune_rfm rfm adj).
Proof.
  intros Ha Hadj. unfold hrsc_tune_rfm.
  unfold HRSC_set_mask, HRSC_set_DAC0, HRSC_set_DAC1, HRSC_set_DAC2,
    HRSC_set_preamp.
  kapply keeps_bind; [|intros ?; kapply keeps_bind; [|intros ?]].
  - kapply keeps_for_each. intros hr. kapply keeps_for_each. intros chan.
    apply keeps_table_get_on. intros v Hv.
    kapply keeps_ext_void. intros w. apply calls_on_after. by exists rfm.
  - kapply keeps_for_each. intros hr.
    apply keeps_table_get_on. intros th0 H0.
    apply keeps_table_get_on. intros th1 H1.
    apply keeps_table_get_on. intros th2 H2.
    kapply keeps_bind; [|intros ?; kapply keeps_bind; [|intros ?]];
      kapply keeps_ext_void; intros w; apply calls_on_after;
      eexists rfm, _; (split_and!; [exact Ha|eassumption|apply Hadj]).
  - kapply keeps_for_each. intros hr. kapply keeps_for_each. intros chan.
    apply keeps_table_get_on. intros v Hv.
    kapply keeps_ext_void. intros w. apply calls_on_after. by exists rfm.
Qed.

Lemma init_hrsc_from_db_calls d0 :
  cfg_mode d0 = "db" ->
  keeps (calls_on d0 (hrsc_call d0)) device_init_hrsc_from_db.
Proof.
  intros Hdb. unfold device_init_hrsc_from_db.
  kapply keeps_bind; [|intros [rc|]; [kapply keeps_ret|]].
  2: { unfold sleep. keeps_with calls_on_step. }
  kapply keeps_for_until. intros i. apply keeps_get_ctx_on.
  destruct (rfm_active d0 i) eqn:Ha; [|kapply keeps_ret].
  kapply keeps_bind; [|intros ?].
  { apply hrsc_tune_calls; [done|]. intros th. unfold hrsc_threshold.
    by rewrite Hdb. }
  unfold HRSC_set_config, HRSC_reset_read_registers, PRINT_config.
  keeps_with calls_on_step.
Qed.

Lemma init_hrsc_from_csv_calls d0 :
  cfg_mode d0 = "csv" ->
  keeps (calls_on d0 (hrsc_call d0)) device_init_hrsc_from_csv.
Proof.
  intros Hcsv. unfold device_init_hrsc_from_csv.
  kapply keeps_bind; [|intros ?].
  { unfold HRSC_copy_conf. keeps_with calls_on_step. }
  apply keeps_get_ctx_on. unfold fopen.
  kapply keeps_bind; [keeps_with calls_on_step|]. intros sc_file.
  destruct (sc_file =? 0) eqn:Hsc; [kapply keeps_ret|].
  kapply keeps_bind; [|intros [rc|]; [kapply keeps_ret|]].
  2: { unfold fclose, sleep. rewrite Hsc. keeps_with calls_on_step. }
  kapply keeps_for_until. intros i. apply keeps_get_ctx_on.
  destruct (rfm_active d0 i) eqn:Ha; [|kapply keeps_ret].
  kapply keeps_bind; [|intros ?].
  { apply hrsc_tune_calls; [done|]. intros th. unfold hrsc_threshold.
    by rewrite Hcsv. }
  unfold HRSC_set_config, HRSC_reset_read_registers, PRINT_config,
    HRSC_write_conf_mult.
  keeps_with calls_on_step.
Qed.

Lemma init_hrsc_calls d0 :
  keeps (calls_on d0 (hrsc_call d0)) device_init_hrsc.
Proof.
  unfold device_init_hrsc.
  unfold HRSC_set_bit, HRSC_set_shaper_resis, HRSC_set_shaper_capa,
    HRSC_set_chip_id.
  kapply keeps_bind; [keeps_with calls_on_step|]. intros ?.
  apply keeps_get_ctx_on.
  kapply keeps_bind; [keeps_with calls_on_step|]. intros ?.
  kapply keeps_bind; [keeps_with calls_on_step|]. intros ?.
  kapply keeps_bind; [keeps_with calls_on_step|]. intros ?.
  apply keeps_get_ctx_on.
  destruct (String.eqb_spec (cfg_mode d0) "db") as [Hdb|_];
    [by apply init_hrsc_from_db_calls|].
  destruct (String.eqb_spec (cfg_mode d0) "csv") as [Hcsv|_];
    [by apply init_hrsc_from_csv_calls|].
  kapply keeps_ret.
Qed.

(** X10: However it ends, [device_init_hrsc] leaves the device as it was and
    makes only these calls: the common register writes; masks, gains and
    thresholds read from the tables at the index of an active slot, the
    thresholds raised by [thresh_delta] unless the configuration source is
    the database; the configuration and the reset of the read registers of
    active slots only; one second of sleep; and, only when the source is
    "csv", the copies of the base configuration, the history file of the
    run and its copy to the history store. *)
Theorem init_hrsc_frame_and_calls w :
  let w' := final (device_init_hrsc w) in
  ctx w' = ctx w /\
  exists new,
    trace w' = new ++ trace w /\
    Forall (fun cr => hrsc_call (ctx w) cr.1) new.
Proof. exact (init_hrsc_calls (ctx w) w eq_refl). Qed.

(** X6: After [device_configure_dif], whatever it returned, the configuration
    source is the database: [device_init_hrsc] neither copies the base
    configuration nor writes or ships a history file, and every threshold
    it writes is a floor value of the table, not raised by
    [thresh_delta]. *)
Theorem configure_dif_then_init_hrsc dif addr port w rc w1 :
  device_configure_dif dif addr port w = Done rc w1 ->
  let w' := final (device_init_hrsc w1) in
  exists new,
    trace w' = new ++ trace w1 /\
    Forall (fun cr => history_call cr.1 = false) new /\
    Forall (fun cr => forall hr v,
              cr.1 = HrscSetDAC0 hr v \/ cr.1 = HrscSetDAC1 hr v \/
              cr.1 = HrscSetDAC2 hr v ->
              v ∈ dac_floor_table (ctx w1)) new.
Proof.
  intros H. unfold device_configure_dif in H.
  rewrite bind_modify_ctx in H. apply bind_inv in H as (r & w2 & H2 & H).
  assert (Hdb : cfg_mode (ctx w1) = "db").
  { assert (E : w1 = w2) by (destruct r; unfold ret in H; congruence).
    subst w2.
    assert (K : keeps (same_on cfg_mode)
      (for_until (upto NB_RFM) (fun i =>
         t <- get_task i;
         if negb (t_dif t =? dif) then ret None
         else
           modify_task i (set_t_addr (Some addr));;
           modify_task i (set_t_port port);;
           ret (Some 0)))).
    { keeps_with same_on_step. }
    exact (keeps_done _ _ _ _ _ K H2). }
  cbv zeta. destruct (init_hrsc_calls (ctx w1) w1 eq_refl) as (_ & new & T & F).
  exists new. split; [done|]. split.
  - eapply Forall_impl; [exact F|]. intros [c r0]. simpl.
    destruct c; simpl; try done; rewrite Hdb; intros; intuition congruence.
  - eapply Forall_impl; [exact F|]. intros [c r0] Hc hr v.
    cbn [fst] in Hc |- *.
    intros [-> | [-> | ->]]; cbn [hrsc_call] in Hc;
      destruct Hc as (rfm & th & _ & Ht & ->);
      unfold hrsc_threshold; rewrite Hdb; cbn [String.eqb];
      unfold table_entry in Ht; destruct (_ <? 0); try discriminate;
      by eapply list_elem_of_lookup_2.
Qed.

(** ** Computations that return *)

Section Returns.

Context (I : World -> Prop).

Lemma returns_ret {A} (a : A) : returns I (ret a).
Proof. intros w Hw. by exists a, w. Qed.

Lemma returns_bind {A B} (m : M A) (k : A -> M B) :
  returns I m -> (forall a, returns I (k a)) -> returns I (bind m k).
Proof.
  intros Hm Hk w Hw. destruct (Hm w Hw) as (a & w1 & H1 & I1).
  destruct (Hk a w1 I1) as (b & w2 & H2 & I2).
  exists b, w2. by rewrite (bind_Done _ _ _ _ _ H1).
Qed.

Lemma returns_for_each {A} (l : list A) (body : A -> M unit) :
  (forall x, x ∈ l -> returns I (body x)) -> returns I (for_each l body).
Proof.
  induction l as [|x l IH]; intros Hb; [apply returns_ret|].
  apply returns_bind; [apply Hb; left|]. intros _. apply IH.
  intros y Hy. apply Hb. by right.
Qed.

Lemma returns_for_until {A B} (l : list A) (body : A -> M (option B)) :
  (forall x, x ∈ l -> returns I (body x)) -> returns I (for_until l body).
Proof.
  induction l as [|x l IH]; intros Hb; [apply returns_ret|].
  apply returns_bind; [apply Hb; left|]. intros [v|]; [apply returns_ret|].
  apply IH. intros y Hy. apply Hb. by right.
Qed.

Lemma returns_ext_int c :
  (forall w, I w -> I (after c w)) -> returns I (ext_int c).
Proof. intros H w Hw. eexists _, _. split; [reflexivity|]. by apply H. Qed.

Lemma returns_ext_void c :
  (forall w, I w -> I (after c w)) -> returns I (ext_void c).
Proof. intros H w Hw. eexists _, _. split; [reflexivity|]. by apply H. Qed.

End Returns.

Lemma returns_get_ctx_at d0 {B} (k : Device -> M B) :
  returns (fun w => ctx w = d0) (k d0) ->
  returns (fun w => ctx w = d0) (bind get_ctx k).
Proof. intros H w Hw. rewrite bind_get_ctx, Hw. by apply H. Qed.

Lemma returns_table_get_at d0 table idx :
  0 <= idx < Z.of_nat (length (table d0)) ->
  returns (fun w => ctx w = d0) (table_get table idx).
Proof.
  intros Hi w Hw. unfold table_get.
  destruct (Z.ltb_spec idx 0); [lia|]. rewrite Hw.
  destruct (lookup_lt_is_Some_2 (table d0) (Z.to_nat idx)) as [v Hv]; [lia|].
  rewrite Hv. by exists v, w.
Qed.

(** the steps that return and leave the device alone *)
Ltac returns_step :=
  first [ apply returns_ret
        | apply returns_ext_int; intros ? <-; apply after_ctx
        | apply returns_ext_void; intros ? <-; apply after_ctx
        | apply returns_bind; [|intro] ].

Lemma hrsc_tune_returns d0 rfm adj :
  8 <= NB_HR ->
  Z.of_nat (length (dac_floor_table d0)) = Z.of_nat NB_RFM * NB_HR * 3 ->
  Z.of_nat (length (pa_gain_table d0)) = Z.of_nat NB_RFM * NB_HR * 64 ->
  Z.of_nat (length (mask_table d0)) = Z.of_nat NB_RFM * NB_HR * 64 ->
  0 <= rfm < Z.of_nat NB_RFM ->
  returns (fun w => ctx w = d0) (hrsc_tune_rfm rfm adj).
Proof.
  intros Hhr Hdac Hpa Hmask Hrfm.
  assert (Hmul : NB_HR * rfm <= NB_HR * (Z.of_nat NB_RFM - 1))
    by (apply Z.mul_le_mono_nonneg_l; lia).
  unfold hrsc_tune_rfm, HRSC_set_mask, HRSC_set_DAC0, HRSC_set_DAC1,
    HRSC_set_DAC2, HRSC_set_preamp.
  apply returns_bind; [|intros ?; apply returns_bind; [|intros ?]].
  - apply returns_for_each. intros hr Hh%elem_of_upto.
    apply returns_for_each. intros chan Hc%elem_of_upto.
    apply returns_bind; [apply returns_table_get_at; lia|]. intros v.
    returns_step.
  - apply returns_for_each. intros hr Hh%elem_of_upto.
    apply returns_bind; [apply returns_table_get_at; lia|]. intros th0.
    apply returns_bind; [apply returns_table_get_at; lia|]. intros th1.
    apply returns_bind; [apply returns_table_get_at; lia|]. intros th2.
    repeat returns_step.
  - apply returns_for_each. intros hr Hh%elem_of_upto.
    apply returns_for_each. intros chan Hc%elem_of_upto.
    apply returns_bind; [apply returns_table_get_at; lia|]. intros v.
    returns_step.
Qed.

(** X11: With tables of the sizes declared in [struct Device] and at least 8
    chips per slot ([NB_HR >= 8]: the loops of the configuration run over 8
    chips whatever [NB_HR] is), every table read of [device_init_hrsc] is
    inside its table: the function returns, whatever the hardware
    answers. *)
Theorem init_hrsc_reads_in_bounds w :
  8 <= NB_HR ->
  Z.of_nat (length (dac_floor_table (ctx w))) = Z.of_nat NB_RFM * NB_HR * 3 ->
  Z.of_nat (length (pa_gain_table (ctx w))) = Z.of_nat NB_RFM * NB_HR * 64 ->
  Z.of_nat (length (mask_table (ctx w))) = Z.of_nat NB_RFM * NB_HR * 64 ->
  exists rc w', device_init_hrsc w = Done rc w' /\ ctx w' = ctx w.
Proof.
  intros Hhr Hdac Hpa Hmask.
  assert (Hloop : forall (adj : Device -> Z -> Z)
                         (tail : Z -> M (option Z)),
    (forall i, returns (fun w0 => ctx w0 = ctx w) (tail i)) ->
    returns (fun w0 => ctx w0 = ctx w)
      (for_until (upto NB_RFM) (fun rfm_index =>
         d <- get_ctx;
         if rfm_active d rfm_index then
           hrsc_tune_rfm rfm_index (adj d);;
           tail rfm_index
         else ret None))).
  { intros adj tail Ht. apply returns_for_until. intros i Hi%elem_of_upto.
    apply returns_get_ctx_at. destruct (rfm_active _ _); [|apply returns_ret].
    apply returns_bind; [by apply hrsc_tune_returns|]. intros ?. apply Ht. }
  enough (H : returns (fun w0 => ctx w0 = ctx w) device_init_hrsc)
    by (exact (H w eq_refl)).
  unfold device_init_hrsc, HRSC_set_bit, HRSC_set_shaper_resis,
    HRSC_set_shaper_capa, HRSC_set_chip_id.
  apply returns_bind; [returns_step|]. intros ?. apply returns_get_ctx_at.
  apply returns_bind; [returns_step|]. intros ?.
  apply returns_bind; [returns_step|]. intros ?.
  apply returns_bind.
  { apply returns_for_each. intros hr _. returns_step. }
  intros ?. apply returns_get_ctx_at.
  destruct (String.eqb _ "db").
  { unfold device_init_hrsc_from_db.
    apply returns_bind.
    - apply (Hloop (fun _ th => th) (fun rfm_index =>
        e <- HRSC_set_config rfm_index;
        if e <? 0 then PRINT_config rfm_index;; ret (Some (-1))
        else
          e <- HRSC_reset_read_registers rfm_index;
          if e <? 0 then PRINT_config rfm_index;; ret (Some (-1))
          else ret None)).
      intros i. unfold HRSC_set_config, HRSC_reset_read_registers,
        PRINT_config.
      apply returns_bind; [returns_step|]. intros e.
      destruct (e <? 0); [repeat returns_step|].
      apply returns_bind; [returns_step|]. intros e'.
      destruct (e' <? 0); repeat returns_step.
    - intros [rc|]; unfold sleep; repeat returns_step. }
  destruct (String.eqb _ "csv"); [|apply returns_ret].
  unfold device_init_hrsc_from_csv, HRSC_copy_conf, fopen.
  apply returns_bind.
  { apply returns_for_each. intros k _. returns_step. }
  intros ?. apply returns_get_ctx_at.
  apply returns_bind; [returns_step|]. intros sc_file.
  destruct (sc_file =? 0) eqn:Hsc; [apply returns_ret|].
  apply returns_bind.
  - apply (Hloop (fun d th => wrap_u32 (th + thresh_delta d))
             (fun rfm_index =>
      e <- HRSC_set_config rfm_index;
      if e <? 0 then PRINT_config rfm_index;; ret (Some (-1))
      else
        e <- HRSC_reset_read_registers rfm_index;
        if e <? 0 then PRINT_config rfm_index;; ret (Some (-1))
        else
          ext_void (FprintfRfmIndex sc_file rfm_index);;
          HRSC_write_conf_mult sc_file;;
          ret None)).
    intros i. unfold HRSC_set_config, HRSC_reset_read_registers,
      PRINT_config, HRSC_write_conf_mult.
    apply returns_bind; [returns_step|]. intros e.
    destruct (e <? 0); [repeat returns_step|].
    apply returns_bind; [returns_step|]. intros e'.
    destruct (e' <? 0); repeat returns_step.
  - intros [rc|]; [apply returns_ret|].
    unfold fclose, sleep. rewrite Hsc.
    apply returns_bind; [returns_step|]. intros ?.
    apply returns_bind; [returns_step|]. intros err.
    destruct (negb _); repeat returns_step.
Qed.

(** *** A failure while the history file is open *)

Lemma hrsc_tune_quiet rfm adj :
  keeps (calls_rel (fun _ c => is_print_config c || closes_history c = false))
        (hrsc_tune_rfm rfm adj).
Proof.
  unfold hrsc_tune_rfm, HRSC_set_mask, HRSC_set_DAC0, HRSC_set_DAC1,
    HRSC_set_DAC2, HRSC_set_preamp.
  keeps_with calls_rel_step.
Qed.

Lemma Forall_quiet_split (l : list (call * reply)) :
  Forall (fun cr => is_print_config cr.1 || closes_history cr.1 = false) l ->
  Forall (fun cr => is_print_config cr.1 = false) l /\
  Forall (fun cr => closes_history cr.1 = false) l.
Proof.
  intros H. split; (eapply Forall_impl; [exact H|]); intros cr;
    by intros [? ?]%orb_false_iff.
Qed.

Lemma hrsc_csv_loop_done sc_file l : forall w r w',
  for_until l (fun rfm_index =>
    d <- get_ctx;
    if rfm_active d rfm_index then
      hrsc_tune_rfm rfm_index (fun th => wrap_u32 (th + thresh_delta d));;
      e <- HRSC_set_config rfm_index;
      if e <? 0 then PRINT_config rfm_index;; ret (Some (-1))
      else
        e <- HRSC_reset_read_registers rfm_index;
        if e <? 0 then PRINT_config rfm_index;; ret (Some (-1))
        else
          ext_void (FprintfRfmIndex sc_file rfm_index);;
          HRSC_write_conf_mult sc_file;;
          ret None
    else ret None) w = Done r w' ->
  exists new,
    trace w' = new ++ trace w /\
    Forall (fun cr => closes_history cr.1 = false) new /\
    match r with
    | Some rc => rc = -1
    | None => Forall (fun cr => is_print_config cr.1 = false) new
    end.
Proof.
  induction l as [|i l IH]; intros w r w' H; cbn [for_until] in H.
  { unfold ret in H. injection H as <- <-. exists [].
    split_and!; [done|constructor|constructor]. }
  apply bind_inv in H as (o & w1 & Hb & H).
  assert (Hbody : exists n1,
    trace w1 = n1 ++ trace w /\
    Forall (fun cr => closes_history cr.1 = false) n1 /\
    match o with
    | Some rc => rc = -1
    | None => Forall (fun cr => is_print_config cr.1 = false) n1
    end).
  { rewrite bind_get_ctx in Hb.
    destruct (rfm_active (ctx w) i).
    2: { unfold ret in Hb. injection Hb as <- <-. exists [].
         split_and!; [done|constructor|constructor]. }
    apply bind_inv in Hb as ([] & wt & Ht & Hb).
    pose proof (keeps_done _ _ _ _ _ (hrsc_tune_quiet i _) Ht)
      as (_ & nt & Tt & [Fp Fc]%Forall_quiet_split).
    unfold HRSC_set_config, HRSC_reset_read_registers, PRINT_config,
      HRSC_write_conf_mult in Hb.
    rewrite (bind_Done _ _ _ _ _ (ext_int_eq _ _)) in Hb.
    destruct (_ <? 0).
    { rewrite (bind_Done _ _ _ _ _ (ext_void_eq _ _)) in Hb.
      unfold ret in Hb. injection Hb as <- <-.
      eexists ([_; _] ++ nt). split; [by rewrite !after_trace, Tt|].
      split; [|done]. cbn [app]. repeat (constructor; [done|]). exact Fc. }
    rewrite (bind_Done _ _ _ _ _ (ext_int_eq _ _)) in Hb.
    destruct (_ <? 0).
    { rewrite (bind_Done _ _ _ _ _ (ext_void_eq _ _)) in Hb.
      unfold ret in Hb. injection Hb as <- <-.
      eexists ([_; _; _] ++ nt). split; [by rewrite !after_trace, Tt|].
      split; [|done]. cbn [app]. repeat (constructor; [done|]). exact Fc. }
    rewrite !(bind_Done _ _ _ _ _ (ext_void_eq _ _)) in Hb.
    unfold ret in Hb. injection Hb as <- <-.
    eexists ([_; _; _; _] ++ nt). split; [by rewrite !after_trace, Tt|].
    split; cbn [app]; repeat (constructor; [done|]); done. }
  destruct Hbody as (n1 & T1 & C1 & Ho).
  destruct o as [rc|].
  { unfold ret in H. injection H as <- <-. by exists n1. }
  apply IH in H as (n2 & T2 & C2 & Hr). exists (n2 ++ n1).
  split_and!; [by rewrite T2, T1, app_assoc|by apply Forall_app|].
  destruct r; [done|]. by apply Forall_app.
Qed.

(** X12: When [device_init_hrsc_from_csv] returns after a slow-control failure
    (the configuration of some slot has been dumped with [PRINT_config]),
    it returns -1 and the history file, which it had opened, has been
    neither closed nor shipped. *)
Theorem hrsc_csv_failure_leaves_file_open w rc w' :
  device_init_hrsc_from_csv w = Done rc w' ->
  exists new,
    trace w' = new ++ trace w /\
    (Exists (fun cr => is_print_config cr.1 = true) new ->
     rc = -1 /\
     Forall (fun cr => closes_history cr.1 = false) new /\
     exists rep,
       (Fopen (HrScCsv (run_cnt (ctx w))), rep) ∈ new /\ ret_val rep <> 0).
Proof.
  unfold device_init_hrsc_from_csv. intros H.
  apply bind_inv in H as ([] & w1 & H1 & H).
  assert (K : keeps (calls_rel (fun _ c =>
                       is_print_config c || closes_history c = false))
                (for_each [1; 2; 3; 4; 5; 6; 7] (fun k => HRSC_copy_conf 0 k))).
  { unfold HRSC_copy_conf. keeps_with calls_rel_step. }
  pose proof (keeps_done _ _ _ _ _ K H1)
    as (C1 & n1 & T1 & [Fp1 Fc1]%Forall_quiet_split).
  clear K. rewrite bind_get_ctx in H. unfold fopen in H.
  rewrite (bind_Done _ _ _ _ _ (ext_int_eq _ _)) in H. rewrite C1 in H.
  set (c := Fopen (HrScCsv (run_cnt (ctx w)))) in *.
  set (rep := answer c w1) in *.
  assert (Hno : forall l : list (call * reply),
    Forall (fun cr => is_print_config cr.1 = false) l ->
    Exists (fun cr => is_print_config cr.1 = true) l -> False).
  { intros l Hf He. apply Exists_exists in He as (cr & Hin & Hp).
    rewrite Forall_forall in Hf. specialize (Hf cr Hin). congruence. }
  destruct (Z.eqb_spec (ret_val rep) 0) as [_|Hopen].
  { unfold ret in H. injection H as <- <-. exists ((c, rep) :: n1).
    split; [by rewrite after_trace, T1|]. intros He. exfalso.
    apply (Hno ((c, rep) :: n1)); [by constructor|done]. }
  apply bind_inv in H as (r & w3 & H3 & H).
  apply hrsc_csv_loop_done in H3 as (n3 & T3 & Fc3 & Hr).
  rewrite after_trace, T1 in T3.
  destruct r as [rc0|].
  - unfold ret in H. injection H as <- <-. exists (n3 ++ (c, rep) :: n1).
    split; [by rewrite T3, <- app_assoc|]. intros _.
    split_and!; [done| |].
    + apply Forall_app. split; [done|by constructor].
    + exists rep. split; [|done]. apply elem_of_app. right. left.
  - unfold fclose in H. destruct (ret_val rep =? 0); [discriminate|].
    rewrite (bind_Done _ _ _ _ _ (ext_int_eq _ _)) in H.
    rewrite (bind_Done _ _ _ _ _ (ext_int_eq _ _)) in H.
    destruct (negb _).
    + unfold ret in H. injection H as <- <-.
      eexists ([_; _] ++ n3 ++ (c, rep) :: n1).
      split; [by rewrite !after_trace, T3, <- !app_assoc|].
      intros He. exfalso. revert He. apply Hno.
      apply Forall_app. split; [by repeat constructor|].
      apply Forall_app. split; [done|by constructor].
    + unfold sleep in H. rewrite (bind_Done _ _ _ _ _ (ext_void_eq _ _)) in H.
      unfold ret in H. injection H as <- <-.
      eexists ([_; _; _] ++ n3 ++ (c, rep) :: n1).
      split; [by rewrite !after_trace, T3, <- !app_assoc|].
      intros He. exfalso. revert He. apply Hno.
      apply Forall_app. split; [by repeat constructor|].
      apply Forall_app. split; [done|by constructor].
Qed.

(** ** The data sockets: [device_init_scks] *)

#[local] Instance scks_rel_preorder : PreOrder scks_rel.
Proof.
  split.
  - intros w. split; [done|]. exists []. split; [done|constructor].
  - intros w1 w2 w3 (He1 & n1 & Ht1 & F1) (He2 & n2 & Ht2 & F2).
    split; [congruence|]. exists (n2 ++ n1).
    split; [by rewrite Ht2, Ht1, app_assoc|]. by apply Forall_app.
Qed.

Lemma forget_sck_upd i v d :
  forget_sck (upd_task i (set_t_sck v) d) = forget_sck d.
Proof.
  unfold forget_sck, upd_task, set_task. simpl. f_equal.
  generalize (task d). intros l. revert i.
  induction l as [|x l IH]; intros [|i]; simpl; try reflexivity.
  f_equal. apply IH.
Qed.

(** the steps that keep [scks_rel] *)
Ltac scks_step :=
  first [ split; [by rewrite tick_ctx|];
          exists []; split; [apply tick_trace|constructor]
        | split; [by rewrite after_ctx|];
          eexists [(_, _)]; split; [apply after_trace|];
          by repeat constructor
        | split; [apply forget_sck_upd|];
          exists []; split; [reflexivity|constructor] ].

(** X13: However it ends, [device_init_scks] changes nothing of the device but
    the sockets of the slots, and it calls nothing but [socket],
    [inet_pton] and [connect]: when it fails, it closes none of the
    sockets it has created for the slots before. *)
Theorem init_scks_frame_and_calls w :
  let w' := final (device_init_scks w) in
  forget_sck (ctx w') = forget_sck (ctx w) /\
  exists new,
    trace w' = new ++ trace w /\
    Forall (fun cr => scks_call cr.1) new.
Proof.
  enough (K : keeps scks_rel device_init_scks) by exact (K w).
  unfold device_init_scks, socket, inet_pton, connect.
  keeps_with scks_step.
Qed.

Lemma task_at_mid (pre : list Task) t suf w :
  task (ctx w) = pre ++ t :: suf ->
  task_at w (Z.of_nat (length pre)) = Some t.
Proof.
  intros Hw. unfold task_at. rewrite Nat2Z.id, Hw.
  by rewrite lookup_app_r, Nat.sub_diag by lia.
Qed.

Lemma alter_mid {A} (f : A -> A) (pre : list A) x suf :
  alter f (length pre) (pre ++ x :: suf) = pre ++ f x :: suf.
Proof.
  induction pre as [|y pre IH]; [done|]. simpl. f_equal. exact IH.
Qed.

(** run the first computation of a sequence in a hypothesis *)
Ltac step_in H E :=
  rewrite ?bind_assoc in H; rewrite (bind_Done _ _ _ _ _ E) in H;
  rewrite ?bind_assoc in H.

(** The loop of [device_init_scks] over the slots [suf] that follow
    [pre]. *)
Lemma scks_loop_done suf : forall pre w o w',
  task (ctx w) = pre ++ suf ->
  for_until (Z.of_nat <$> seq (length pre) (length suf)) (fun i =>
    t <- get_task i;
    if t_dif t =? 0 then ret None
    else
      sck <- socket;
      modify_task i (set_t_sck sck);;
      if sck <? 0 then ret (Some (-1))
      else
        t <- get_task i;
        ok <- inet_pton (t_addr t);
        if ok <=? 0 then ret (Some (-1))
        else
          t <- get_task i;
          e <- connect (t_sck t) (t_port t mod 2 ^ 16);
          if e <? 0 then ret (Some (-1)) else ret None) w = Done o w' ->
  exists suf',
    task (ctx w') = pre ++ suf' /\
    Forall2 (fun t t' => set_t_sck 0 t' = set_t_sck 0 t /\
                         (t_dif t = 0 -> t' = t)) suf suf' /\
    (o = None \/ o = Some (-1)) /\
    (o = None ->
     exists segs,
       Forall2 sck_exchange (filter bound suf') segs /\
       trace w' = concat (rev segs) ++ trace w).
Proof.
  induction suf as [|t suf IH]; intros pre w o w' Hw H.
  { cbn in H. unfold ret in H. injection H as <- <-. exists [].
    split_and!; [done|constructor|by left|].
    intros _. exists []. split; [constructor|done]. }
  cbn [length seq fmap list_fmap for_until] in H.
  pose proof (task_at_mid _ _ _ _ Hw) as Ht.
  step_in H (get_task_eq _ _ _ (Zle_0_nat _) Ht).
  destruct (Z.eqb_spec (t_dif t) 0) as [Hd|Hd].
  { rewrite bind_ret in H.
    specialize (IH (pre ++ [t]) w o w').
    rewrite length_app, Nat.add_1_r in IH.
    destruct IH as (suf' & T' & F' & Ho & Hs);
      [by rewrite <- app_assoc|done|].
    exists (t :: suf'). rewrite <- app_assoc in T'.
    split_and!; [done|by constructor|done|].
    intros E. destruct (Hs E) as (segs & F2 & Tr). exists segs.
    split; [|done]. rewrite filter_cons, decide_False; [done|].
    unfold bound. by intros []. }
  unfold socket, inet_pton, connect in H.
  step_in H (ext_int_eq Socket w).
  set (r1 := answer Socket w) in *. set (w1 := after Socket w) in *.
  assert (Ht1 : task_at w1 (Z.of_nat (length pre)) = Some t).
  { subst w1. by rewrite task_at_after. }
  step_in H (modify_task_eq _ (set_t_sck (ret_val r1)) _ _
               (Zle_0_nat _) Ht1).
  rewrite Nat2Z.id in H.
  set (t2 := set_t_sck (ret_val r1) t) in *.
  set (w2 := set_ctx _ w1) in *.
  assert (Hw2 : task (ctx w2) = pre ++ t2 :: suf).
  { subst w2 w1. rewrite ctx_set_ctx, after_ctx. unfold upd_task. simpl.
    by rewrite Hw, alter_mid. }
  assert (Hhere : forall o0,
    o0 = Some (-1) -> o = o0 -> w' = w' ->
    task (ctx w') = pre ++ t2 :: suf ->
    exists suf',
      task (ctx w') = pre ++ suf' /\
      Forall2 (fun t t' => set_t_sck 0 t' = set_t_sck 0 t /\
                           (t_dif t = 0 -> t' = t)) (t :: suf) suf' /\
      (o = None \/ o = Some (-1)) /\
      (o = None ->
       exists segs,
         Forall2 sck_exchange (filter bound suf') segs /\
         trace w' = concat (rev segs) ++ trace w)).
  { intros o0 -> -> _ Hw'. exists (t2 :: suf).
    split_and!; [done| |by right|done].
    constructor; [by split|]. clear. induction suf; by constructor. }
  destruct (Z.ltb_spec (ret_val r1) 0) as [Hneg|Hpos].
  { rewrite ?bind_ret in H. unfold ret in H. injection H as <- <-.
    by eapply Hhere. }
  pose proof (task_at_mid _ _ _ _ Hw2) as Ht2.
  step_in H (get_task_eq _ _ _ (Zle_0_nat _) Ht2).
  step_in H (ext_int_eq (InetPton (t_addr t2)) w2).
  set (r2 := answer (InetPton (t_addr t2)) w2) in *.
  set (w3 := after (InetPton (t_addr t2)) w2) in *.
  assert (Hw3 : task (ctx w3) = pre ++ t2 :: suf).
  { subst w3. by rewrite after_ctx. }
  destruct (Z.leb_spec (ret_val r2) 0) as [Hbad|Hok].
  { rewrite ?bind_ret in H. unfold ret in H. injection H as <- <-.
    by eapply Hhere. }
  pose proof (task_at_mid _ _ _ _ Hw3) as Ht3.
  step_in H (get_task_eq _ _ _ (Zle_0_nat _) Ht3).
  step_in H (ext_int_eq (Connect (t_sck t2) (t_port t2 mod 2 ^ 16)) w3).
  set (c3 := Connect (t_sck t2) (t_port t2 mod 2 ^ 16)) in *.
  set (r3 := answer c3 w3) in *. set (w4 := after c3 w3) in *.
  assert (Hw4 : task (ctx w4) = pre ++ t2 :: suf).
  { subst w4. by rewrite after_ctx. }
  destruct (Z.ltb_spec (ret_val r3) 0) as [Hbad3|Hok3].
  { rewrite ?bind_ret in H. unfold ret in H. injection H as <- <-.
    by eapply Hhere. }
  rewrite bind_ret in H.
  specialize (IH (pre ++ [t2]) w4 o w').
  rewrite length_app, Nat.add_1_r in IH.
  destruct IH as (suf' & T' & F' & Ho & Hs);
    [by rewrite <- app_assoc|done|].
  exists (t2 :: suf'). rewrite <- app_assoc in T'.
  split_and!; [done|constructor; [by split|done]|done|].
  intros E. destruct (Hs E) as (segs & F2 & Tr).
  exists ([(c3, r3); (InetPton (t_addr t2), r2); (Socket, r1)] :: segs).
  split.
  - rewrite filter_cons, decide_True by done. constructor; [|done].
    exists r1, r2, r3. split_and!; done.
  - rewrite Tr. subst w4 w3 w2 w1.
    rewrite !after_trace. change (trace (set_ctx ?f ?x)) with (trace x).
    rewrite after_trace. cbn [rev]. rewrite concat_app. cbn [concat].
    rewrite app_nil_r, <- app_assoc. reflexivity.
Qed.

(** X14: When [device_init_scks] returns, it returns 0 or -1, and the slots
    that carry no module are as they were.  When it returns 0, every slot
    that carries a module holds the descriptor that [socket] returned for
    it, which is not negative, and that descriptor has been connected to
    the slot's address and to its port (taken modulo 2^16), slot after
    slot in ascending order, with no other call in between. *)
Theorem init_scks_connects_bound_slots w rc w' :
  length (task (ctx w)) = NB_RFM ->
  device_init_scks w = Done rc w' ->
  (rc = 0 \/ rc = -1) /\
  Forall2 (fun t t' => set_t_sck 0 t' = set_t_sck 0 t /\
                       (t_dif t = 0 -> t' = t))
          (task (ctx w)) (task (ctx w')) /\
  (rc = 0 ->
   exists segs,
     Forall2 sck_exchange (filter bound (task (ctx w'))) segs /\
     trace w' = concat (rev segs) ++ trace w).
Proof.
  intros Hlen H. unfold device_init_scks in H.
  apply bind_inv in H as (o & w1 & H1 & H).
  pose proof (scks_loop_done (task (ctx w)) [] w o w1 eq_refl) as Hloop.
  cbn [length] in Hloop. rewrite Hlen in Hloop.
  destruct (Hloop H1) as (suf' & T & F & Ho & Hs).
  assert (w' = w1) as -> by (destruct o; unfold ret in H; congruence).
  cbn [app] in T. rewrite T.
  destruct Ho as [-> | ->]; unfold ret in H; injection H as <-.
  - split_and!; [by left|done|]. intros _. by apply Hs.
  - split_and!; [by right|done|done].
Qed.

(** ** Releasing the device: [device_free] *)

Lemma free_loop_calls suf : forall pre w,
  task (ctx w) = pre ++ suf ->
  exists w',
    for_each (Z.of_nat <$> seq (length pre) (length suf)) (fun i =>
      t <- get_task i;
      if negb (t_sck t =? 0) then close (t_sck t) else ret tt) w
    = Done tt w' /\
    ctx w' = ctx w /\
    calls w' = calls w ++ (Close <$> filter (fun s => s <> 0) (t_sck <$> suf)).
Proof.
  induction suf as [|t suf IH]; intros pre w Hw.
  { exists w. split_and!; [done|done|]. by rewrite app_nil_r. }
  cbn [length seq fmap list_fmap for_each].
  pose proof (task_at_mid _ _ _ _ Hw) as Ht.
  mstep (get_task_eq _ _ _ (Zle_0_nat _) Ht).
  rewrite filter_cons. unfold close.
  destruct (Z.eqb_spec (t_sck t) 0) as [E|E]; cbn [negb].
  - rewrite bind_ret. destruct (IH (pre ++ [t]) w) as (w' & H & C & T);
      [by rewrite <- app_assoc|].
    rewrite length_app, Nat.add_1_r in H. exists w'.
    split_and!; [done|done|]. by rewrite decide_False by (by intros []).
  - rewrite (bind_Done _ _ _ _ _ (ext_void_eq _ _)).
    destruct (IH (pre ++ [t]) (after (Close (t_sck t)) w)) as (w' & H & C & T);
      [by rewrite after_ctx, <- app_assoc|].
    rewrite length_app, Nat.add_1_r in H. exists w'.
    split_and!; [done|by rewrite C, after_ctx|].
    rewrite decide_True by done. rewrite T, calls_after, <- app_assoc.
    reflexivity.
Qed.

(** X2: [device_free] always runs to its end and releases exactly what the
    device holds, once: the two mappings and the descriptor of [/dev/mem]
    when [mem_fd] is not zero, the run file when [daq_file] is not null,
    and, in slot order, every socket that is not zero (a slot whose
    [socket] call failed holds -1, which is passed to [close] too). *)
Theorem free_releases_what_is_held w :
  length (task (ctx w)) = NB_RFM ->
  exists w',
    device_free w = Done tt w' /\
    ctx w' = ctx w /\
    calls w' = calls w
      ++ (if mem_fd (ctx w) =? 0 then []
          else [MunmapLwH2f (mem_fd (ctx w)); MunmapH2f (mem_fd (ctx w));
                Close (mem_fd (ctx w))])
      ++ (if daq_file (ctx w) =? 0 then [] else [Fclose (daq_file (ctx w))])
      ++ (Close <$> filter (fun s => s <> 0) (t_sck <$> task (ctx w))).
Proof.
  intros Hlen. unfold device_free. rewrite bind_get_ctx.
  assert (Hloop : forall w0, ctx w0 = ctx w ->
    exists w',
      for_each (upto NB_RFM) (fun i =>
        t <- get_task i;
        if negb (t_sck t =? 0) then close (t_sck t) else ret tt) w0
      = Done tt w' /\
      ctx w' = ctx w /\
      calls w' = calls w0
                 ++ (Close <$> filter (fun s => s <> 0) (t_sck <$> task (ctx w)))).
  { intros w0 C0.
    destruct (free_loop_calls (task (ctx w)) [] w0) as (w' & H & C & T);
      [by rewrite C0|].
    cbn [length] in H. rewrite Hlen in H. exists w'.
    split_and!; [done|congruence|done]. }
  unfold munmap_lw_h2f, munmap_h2f, close, fclose.
  destruct (mem_fd (ctx w) =? 0); cbn [negb];
    destruct (daq_file (ctx w) =? 0) eqn:Ef; cbn [negb]; try rewrite Ef;
    run;
    match goal with
    | |- context [for_each _ _ ?w0] =>
        destruct (Hloop w0) as (w' & H & C & T); [by see_ctx|];
        exists w'; split; [exact H|]; split; [exact C|];
        rewrite T; list_calls
    end.
Qed.

(** ** Booting a slot: [device_boot_rfm] *)

Lemma rfm_active_testbit d j :
  0 <= j -> rfm_active d j = Z.testbit (rfm_on d) j.
Proof.
  intros Hj. unfold rfm_active.
  change 1 with (Z.ones 1) at 1. rewrite Z.land_ones by lia.
  change (2 ^ 1) with 2. rewrite <- Z.bit0_mod, Z.shiftr_spec by lia.
  rewrite Z.add_0_l. by destruct (Z.testbit _ _).
Qed.

Lemma boot_rfm_eval dif slot rs trig w t :
  0 <= slot -> task_at w slot = Some t ->
  let d1 := upd_task (Z.to_nat slot)
              (fun t => set_t_rshaper rs (set_t_dif dif t))
              (set_rfm_on (wrap_u32 (Z.lor (rfm_on (ctx w)) (Z.shiftl 1 slot)))
                 (ctx w)) in
  device_boot_rfm dif slot rs trig w
  = if negb (rshaper (ctx w) =? 0) && negb (rshaper (ctx w) =? rs)
    then Done (-1) (set_ctx (fun _ => d1) w)
    else Done 0 (set_ctx (fun _ => set_trig_mode (wrap_i32 trig)
                                     (set_rshaper rs d1)) w).
Proof.
  intros Hs Ht d1. unfold device_boot_rfm. rewrite bind_modify_ctx.
  set (w1 := set_ctx _ w).
  assert (Ht1 : task_at w1 slot = Some t) by exact Ht.
  mstep (modify_task_eq _ (set_t_dif dif) _ _ Hs Ht1).
  pose proof (task_at_upd_same _ (set_t_dif dif) _ _ Ht1) as Ht2.
  mstep (modify_task_eq _ (set_t_rshaper rs) _ _ Hs Ht2).
  rewrite bind_get_ctx.
  assert (Hd : set_ctx (upd_task (Z.to_nat slot) (set_t_rshaper rs))
                 (set_ctx (upd_task (Z.to_nat slot) (set_t_dif dif)) w1)
               = set_ctx (fun _ => d1) w).
  { subst w1 d1. unfold set_ctx, upd_task, set_task. cbn.
    by rewrite alter_twice. }
  rewrite Hd. rewrite ctx_set_ctx.
  assert (Hr : rshaper d1 = rshaper (ctx w)) by reflexivity.
  rewrite Hr. destruct (_ && _); [reflexivity|]. run. reflexivity.
Qed.

(** X3: [device_boot_rfm] succeeds exactly when the device has no shaper value
    yet or has the one given.  It then records that value and the trigger
    mode on the device (the mode of the last boot wins, unchecked), marks
    the slot active without touching the other bits of [rfm_on], and
    writes the identifier and the shaper value into the slot, leaving the
    other slots alone. *)
Theorem boot_rfm_success dif slot rs trig w t :
  0 <= slot < 32 ->
  task_at w slot = Some t ->
  exists rc w',
    device_boot_rfm dif slot rs trig w = Done rc w' /\
    (rc = 0 <-> rshaper (ctx w) = 0 \/ rshaper (ctx w) = rs) /\
    (rc = 0 ->
     rshaper (ctx w') = rs /\ trig_mode (ctx w') = wrap_i32 trig) /\
    task_at w' slot = Some (set_t_rshaper rs (set_t_dif dif t)) /\
    (forall j, 0 <= j < 32 ->
       rfm_active (ctx w') j = rfm_active (ctx w) j || (j =? slot)) /\
    (forall i, i <> Z.to_nat slot ->
       task (ctx w') !! i = task (ctx w) !! i).
Proof.
  intros Hs Ht. rewrite (boot_rfm_eval _ _ _ _ _ _ (proj1 Hs) Ht). cbv zeta.
  assert (Hbits : forall j, 0 <= j < 32 ->
    Z.testbit (wrap_u32 (Z.lor (rfm_on (ctx w)) (Z.shiftl 1 slot))) j
    = Z.testbit (rfm_on (ctx w)) j || (j =? slot)).
  { intros j Hj. unfold wrap_u32. rewrite Z.mod_pow2_bits_low by lia.
    rewrite Z.lor_spec, Z.shiftl_spec by lia. f_equal.
    destruct (Z.eqb_spec j slot) as [->|Hne].
    - by rewrite Z.sub_diag.
    - destruct (Z.ltb_spec j slot).
      + apply Z.testbit_neg_r. lia.
      + change 1 with (2 ^ 0). rewrite Z.pow2_bits_eqb by lia.
        apply Z.eqb_neq. lia. }
  assert (Hslot : forall d, task d !! Z.to_nat slot = Some t ->
    alter (fun t => set_t_rshaper rs (set_t_dif dif t)) (Z.to_nat slot) (task d)
      !! Z.to_nat slot = Some (set_t_rshaper rs (set_t_dif dif t))).
  { intros d Hd. by rewrite list_lookup_alter_eq, Hd. }
  destruct (Z.eqb_spec (rshaper (ctx w)) 0) as [E0|E0];
    destruct (Z.eqb_spec (rshaper (ctx w)) rs) as [E1|E1]; cbn [negb andb];
    eexists _, _; (split; [reflexivity|]); split_and!;
    try (intros j Hj; rewrite !rfm_active_testbit by lia; by apply Hbits);
    try (intros i Hi; by apply list_lookup_alter_ne);
    try (by apply Hslot);
    try done; try (split; auto; done).
  split; [done|]. by intros [?|?].
Qed.

Lemma boot_rfm_keeps_shaper dif slot rs trig w :
  0 <= slot < Z.of_nat (length (task (ctx w))) ->
  rshaper (ctx w) <> 0 ->
  exists w',
    device_boot_rfm dif slot rs trig w
    = Done (if rs =? rshaper (ctx w) then 0 else -1) w' /\
    rshaper (ctx w') = rshaper (ctx w) /\
    length (task (ctx w')) = length (task (ctx w)).
Proof.
  intros Hs Hr.
  destruct (lookup_lt_is_Some_2 (task (ctx w)) (Z.to_nat slot)) as [t Ht];
    [lia|].
  rewrite (boot_rfm_eval _ _ _ _ _ t (proj1 Hs) Ht). cbv zeta.
  destruct (Z.eqb_spec (rshaper (ctx w)) 0) as [|_]; [done|].
  rewrite (Z.eqb_sym rs).
  destruct (Z.eqb_spec (rshaper (ctx w)) rs) as [E|E]; cbn [negb andb];
    (eexists; split; [reflexivity|]);
    cbn [set_ctx ctx set_trig_mode set_rshaper rshaper upd_task set_task
         set_rfm_on task];
    by rewrite length_alter.
Qed.

Lemma boot_rfms_shaper rs reqs : forall w,
  rshaper (ctx w) = rs -> rs <> 0 ->
  Forall (fun r => 0 <= r.1.1.2 < Z.of_nat (length (task (ctx w)))) reqs ->
  exists w',
    boot_rfms reqs w
    = Done ((fun r => if r.1.2 =? rs then 0 else -1) <$> reqs) w' /\
    rshaper (ctx w') = rs.
Proof.
  induction reqs as [|[[[dif slot] rs'] trig] reqs IH]; intros w Hr Hrs Hall.
  { by exists w. }
  apply Forall_cons in Hall as [Hslot Hall]. cbn [fst snd] in Hslot.
  destruct (boot_rfm_keeps_shaper dif slot rs' trig w Hslot)
    as (w1 & Hb & Hr1 & Hl1); [by rewrite Hr|].
  destruct (IH w1) as (w2 & Hrest & Hr2).
  { by rewrite Hr1. }
  { done. }
  { by rewrite Hl1. }
  exists w2. split; [|done].
  cbn [boot_rfms fmap list_fmap fst snd]. mstep Hb. mstep Hrest.
  by rewrite Hr.
Qed.

(** X4: All booted slots share one shaper value.  Once a boot has succeeded
    with a nonzero shaper value, every boot of a row of boots that follows
    it, however long the row and whatever slots (of the task array),
    identifiers and trigger modes it gives, succeeds exactly when it gives
    the same shaper value, and returns -1 otherwise; the failed boots do
    not change the shaper value of the device.  (Only boots are in the
    row: [device_configure] overwrites the shaper value unchecked.) *)
Theorem boot_rfm_shaper_shared dif slot rs trig w w1 t reqs :
  0 <= slot -> task_at w slot = Some t ->
  rs <> 0 ->
  device_boot_rfm dif slot rs trig w = Done 0 w1 ->
  Forall (fun r => 0 <= r.1.1.2 < Z.of_nat (length (task (ctx w)))) reqs ->
  exists w2,
    boot_rfms reqs w1
    = Done ((fun r => if r.1.2 =? rs then 0 else -1) <$> reqs) w2 /\
    rshaper (ctx w2) = rs.
Proof.
  intros Hs Ht Hrs H Hall.
  rewrite (boot_rfm_eval _ _ _ _ _ _ Hs Ht) in H. cbv zeta in H.
  assert (Hw1 : rshaper (ctx w1) = rs /\
                length (task (ctx w1)) = length (task (ctx w))).
  { destruct (_ && _); [discriminate|]. injection H as <-.
    cbn [set_ctx ctx set_trig_mode set_rshaper rshaper upd_task set_task
         set_rfm_on task].
    by rewrite length_alter. }
  destruct Hw1 as [Hr Hl].
  apply boot_rfms_shaper; [done|done|]. by rewrite Hl.
Qed.

(** ** Giving a booted module its address *)

(** X5: After [device_boot_rfm] has written an identifier into a slot (even
    when it then failed on the shaper value), [device_configure_dif] with
    that identifier returns 0: it binds the address and the port to the
    lowest slot that carries the identifier, which is the booted slot
    unless a lower one carries the same identifier. *)
Theorem configure_dif_after_boot dif slot rs trig addr port w rc w1 :
  length (task (ctx w)) = NB_RFM ->
  0 <= slot < Z.of_nat NB_RFM ->
  device_boot_rfm dif slot rs trig w = Done rc w1 ->
  exists i ti w2,
    device_configure_dif dif addr port w1 = Done 0 w2 /\
    (i <= Z.to_nat slot)%nat /\
    task (ctx w1) !! i = Some ti /\ t_dif ti = dif /\
    (forall j tj, (j < i)%nat -> task (ctx w1) !! j = Some tj ->
                  t_dif tj <> dif) /\
    task (ctx w2) !! i = Some (bind_dif addr port ti) /\
    cfg_mode (ctx w2) = "db".
Proof.
  intros Hlen Hs H.
  destruct (lookup_lt_is_Some_2 (task (ctx w)) (Z.to_nat slot)) as [t Ht];
    [lia|].
  rewrite (boot_rfm_eval _ _ _ _ _ t (proj1 Hs) Ht) in H. cbv zeta in H.
  assert (Hhere : task (ctx w1) !! Z.to_nat slot
                  = Some (set_t_rshaper rs (set_t_dif dif t)) /\
                  length (task (ctx w1)) = NB_RFM).
  { destruct (_ && _); injection H as <- <-; cbn;
      by rewrite list_lookup_alter_eq, Ht, length_alter. }
  destruct Hhere as [Hhere Hlen1]. clear H.
  set (w_db := set_ctx (set_cfg_mode "db") w1).
  pose proof (configure_dif_search dif addr port (task (ctx w1)) [] w_db
                eq_refl) as Hsearch.
  cbn [length] in Hsearch. rewrite Hlen1 in Hsearch.
  fold (upto NB_RFM) in Hsearch. unfold configure_dif_body in Hsearch.
  destruct (list_find (fun t => t_dif t = dif) (task (ctx w1)))
    as [[i ti]|] eqn:Hfind.
  2: { apply list_find_None in Hfind. rewrite Forall_forall in Hfind.
       exfalso. eapply Hfind; [by eapply list_elem_of_lookup_2|]. done. }
  apply list_find_Some in Hfind as (Hi & Hdif & Hlow).
  exists i, ti. eexists. unfold device_configure_dif.
  rewrite bind_modify_ctx. fold w_db.
  rewrite (bind_Done _ _ _ _ _ Hsearch). split; [reflexivity|].
  split_and!; try done.
  - destruct (decide (i <= Z.to_nat slot)%nat) as [|Hgt]; [done|].
    exfalso. eapply (Hlow (Z.to_nat slot)); [exact Hhere|lia|done].
  - intros j tj Hj Htj. by eapply Hlow.
  - cbn. by rewrite list_lookup_alter_eq, Hi.
Qed.

(** ** Cancelling *)

(** X24: After [device_stop_loop] the run loop is inert: entered in either
    trigger mode, [device_loop] returns at once, without a call to the
    hardware or to the network and without touching the device. *)
Theorem stop_loop_ends_loop fuel w :
  exists w1 w2,
    device_stop_loop w = Done tt w1 /\
    device_loop (S fuel) w1 = Done tt w2 /\
    g_state w2 = 0 /\ ctx w2 = ctx w /\ calls w2 = calls w.
Proof.
  exists (set_g_state 0 w).
  assert (G : g_state (set_g_state 0 w) = 0) by reflexivity.
  unfold device_loop. rewrite bind_get_ctx.
  cbn [device_loop_dcc device_loop_noise].
  destruct (_ =? 0); [|destruct (_ =? 1)];
    rewrite ?bind_read_g_state, ?(tick_cancelled _ G); cbn [Z.eqb];
    eexists; (split; [reflexivity|]); (split; [reflexivity|]);
    rewrite ?(tick_cancelled _ G), ?tick_ctx, ?calls_tick; done.
Qed.

(** ** A new device *)

Lemma replicate_find_none dif n :
  dif <> 0 ->
  list_find (fun t => t_dif t = dif) (replicate n zero_task) = None.
Proof.
  intros Hd. apply list_find_None, Forall_forall.
  intros t [-> _]%elem_of_replicate. simpl. congruence.
Qed.

Lemma scks_loop_unbound suf : forall pre w,
  task (ctx w) = pre ++ suf ->
  Forall (fun t => t_dif t = 0) suf ->
  for_until (Z.of_nat <$> seq (length pre) (length suf)) (fun i =>
    t <- get_task i;
    if t_dif t =? 0 then ret None
    else
      sck <- socket;
      modify_task i (set_t_sck sck);;
      if sck <? 0 then ret (Some (-1))
      else
        t <- get_task i;
        ok <- inet_pton (t_addr t);
        if ok <=? 0 then ret (Some (-1))
        else
          t <- get_task i;
          e <- connect (t_sck t) (t_port t mod 2 ^ 16);
          if e <? 0 then ret (Some (-1)) else ret None) w = Done None w.
Proof.
  induction suf as [|t suf IH]; intros pre w Hw Hall; [reflexivity|].
  cbn [length seq fmap list_fmap for_until].
  pose proof (task_at_mid _ _ _ _ Hw) as Ht.
  rewrite bind_assoc.
  rewrite (bind_Done _ _ _ _ _ (get_task_eq _ _ _ (Zle_0_nat _) Ht)).
  apply Forall_cons in Hall as [Hd Hall]. rewrite Hd. cbn [Z.eqb].
  rewrite bind_ret. specialize (IH (pre ++ [t]) w).
  rewrite length_app, Nat.add_1_r in IH. apply IH; [|done].
  by rewrite <- app_assoc.
Qed.

(** X1: [new_device] arms the run ([g_state] is 1) and gives a device whose
    configuration source is "csv" and whose [NB_RFM] slots carry no module.
    On such a device [device_free] has nothing to release,
    [device_init_scks] returns 0 without creating a socket, and
    [device_configure_dif] finds no slot for any nonzero identifier. *)
Theorem new_device_is_blank w :
  exists w0,
    new_device w = Done tt w0 /\
    g_state w0 = 1 /\
    cfg_mode (ctx w0) = "csv" /\
    task (ctx w0) = replicate NB_RFM zero_task /\
    (exists w1, device_free w0 = Done tt w1 /\ calls w1 = calls w) /\
    (exists w2, device_init_scks w0 = Done 0 w2 /\ calls w2 = calls w) /\
    (forall dif addr port, dif <> 0 ->
       exists w3, device_configure_dif dif addr port w0 = Done 1 w3).
Proof.
  eexists. split; [reflexivity|].
  set (w0 := set_g_state 1 _).
  assert (Ht : task (ctx w0) = replicate NB_RFM zero_task) by reflexivity.
  assert (Hc : calls w0 = calls w) by reflexivity.
  split_and!; try done.
  - unfold device_free. rewrite bind_get_ctx.
    change (mem_fd (ctx w0)) with 0. change (daq_file (ctx w0)) with 0.
    cbn [Z.eqb negb]. rewrite !bind_ret.
    destruct (free_loop_calls (task (ctx w0)) [] w0 eq_refl)
      as (w1 & H1 & _ & T1).
    rewrite Ht in H1 at 1. cbn [length] in H1. rewrite length_replicate in H1.
    exists w1. split; [exact H1|]. rewrite T1, Hc, Ht.
    assert (E : filter (fun s => s <> 0) (t_sck <$> replicate NB_RFM zero_task)
                = []).
    { clear. induction NB_RFM as [|n IH]; [done|]. cbn [replicate fmap list_fmap].
      rewrite filter_cons, decide_False; [exact IH|]. by intros []. }
    rewrite E. apply app_nil_r.
  - exists w0. split; [|done]. unfold device_init_scks.
    assert (Hall : Forall (fun t => t_dif t = 0) (replicate NB_RFM zero_task)).
    { apply Forall_forall. by intros t [-> _]%elem_of_replicate. }
    pose proof (scks_loop_unbound (replicate NB_RFM zero_task) [] w0 Ht Hall)
      as Hl.
    cbn [length] in Hl. rewrite length_replicate in Hl.
    by rewrite (bind_Done _ _ _ _ _ Hl).
  - intros dif addr port Hd. unfold device_configure_dif.
    rewrite bind_modify_ctx.
    pose proof (configure_dif_search dif addr port
                  (task (ctx (set_ctx (set_cfg_mode "db") w0))) []
                  (set_ctx (set_cfg_mode "db") w0) eq_refl) as Hs.
    change (task (ctx (set_ctx (set_cfg_mode "db") w0)))
      with (replicate NB_RFM zero_task) in Hs.
    cbn [length] in Hs. rewrite length_replicate in Hs.
    rewrite (replicate_find_none _ _ Hd) in Hs.
    fold (upto NB_RFM) in Hs. unfold configure_dif_body in Hs.
    rewrite (bind_Done _ _ _ _ _ Hs). by eexists.
Qed.

(** ** A failed exchange and the run *)

Lemma cycle_waits_frame m fuel :
  keeps (same_on (fun d => d)) (cycle_waits m fuel).
Proof.
  unfold cycle_waits, DAQ_reset_buffer, SYNC_fpga_ro, SYNC_fifo_ready,
    SYNC_ramfull, SYNC_ramfull_ext.
  destruct (m =? 0); keeps_with same_on_step.
  all: by intros w.
Qed.

(** A pass through the body of the run loop is its waits, then its
    readout. *)
Lemma dcc_cycle_split fuel w :
  dcc_cycle fuel w
  = (ok <- cycle_waits 0 fuel; if ok then dcc_readout else ret false) w.
Proof.
  unfold dcc_cycle, cycle_waits. cbn [Z.eqb].
  rewrite !bind_assoc. apply bind_ext. intros ? w1.
  rewrite !bind_assoc. apply bind_ext. intros ? w2.
  rewrite !bind_assoc. apply bind_ext. intros g w3.
  destruct (g =? 0); [by rewrite bind_ret|].
  rewrite !bind_assoc. apply bind_ext. intros ? w4.
  rewrite !bind_assoc. apply bind_ext. intros g' w5.
  destruct (g' =? 0); by rewrite bind_ret.
Qed.

Lemma noise_cycle_split fuel w :
  noise_cycle fuel w
  = (ok <- cycle_waits 1 fuel; if ok then noise_readout else ret false) w.
Proof.
  unfold noise_cycle, cycle_waits. cbn [Z.eqb].
  rewrite !bind_assoc. apply bind_ext. intros ? w1.
  rewrite !bind_assoc. apply bind_ext. intros ? w2.
  rewrite !bind_assoc. apply bind_ext. intros g w3.
  destruct (g =? 0); [by rewrite bind_ret|].
  rewrite !bind_assoc. apply bind_ext. intros ? w4.
  rewrite !bind_assoc. apply bind_ext. intros ? w5.
  rewrite !bind_assoc. apply bind_ext. intros g' w6.
  destruct (g' =? 0); by rewrite bind_ret.
Qed.

(** The readout is the streaming loop, with what comes before and after
    it. *)
Lemma dcc_readout_split w :
  dcc_readout w
  = (before_streaming 0;; send_difs;; after_streaming 0;; ret true) w.
Proof.
  unfold dcc_readout, before_streaming, after_streaming. cbn [Z.eqb].
  rewrite !bind_assoc. apply bind_ext. intros ? w1.
  rewrite !bind_assoc. apply bind_ext. intros ? w2.
  rewrite !bind_assoc. reflexivity.
Qed.

Lemma noise_readout_split w :
  noise_readout w
  = (before_streaming 1;; send_difs;; after_streaming 1;; ret true) w.
Proof.
  unfold noise_readout, before_streaming, after_streaming. cbn [Z.eqb].
  rewrite !bind_assoc. apply bind_ext. intros ? w1.
  apply bind_ext. intros ? w2.
  apply bind_ext. intros ? w3.
  rewrite !bind_assoc. reflexivity.
Qed.

(** What comes before the streaming loop always gets to it, and leaves
    alone what the loop goes by. *)
Lemma before_streaming_total m w :
  length (task (ctx w)) = NB_RFM ->
  exists ws,
    before_streaming m w = Done tt ws /\
    run_frame (ctx ws) = run_frame (ctx w) /\
    trig_mode (ctx ws) = trig_mode (ctx w) /\
    exists mid, trace ws = mid ++ trace w.
Proof.
  intros Hlen.
  destruct (buffer_difs_total w Hlen) as (wb & Hb & Hf).
  pose proof (keeps_done _ _ _ _ _ (run_rel_buffer_difs m) Hb)
    as (He & new & Hnew & _).
  apply erase_run_fields in He as (_ & _ & Hmode & _).
  unfold before_streaming. destruct (m =? 0).
  - mstep Hb. unfold SYNC_fifo_ack. run_calls.
    rewrite bind_get_ctx. unfold DAQ_write_buffer. rewrite ext_void_eq.
    eexists. split; [reflexivity|]. rewrite !after_ctx, !after_trace.
    split_and!; [done|done|].
    eexists (_ :: _ :: new). by rewrite Hnew.
  - mstep Hb. unfold SYNC_fifo_ack. rewrite ext_void_eq.
    eexists. split; [reflexivity|]. rewrite !after_ctx, !after_trace.
    split_and!; [done|done|].
    eexists (_ :: new). by rewrite Hnew.
Qed.

(** What comes after the streaming loop: the cycle counter moves on, the
    slots stay as the loop left them. *)
Lemma after_streaming_total m w :
  exists w',
    after_streaming m w = Done tt w' /\
    ctx w' = set_cycle_id (wrap_u32 (cycle_id (ctx w) + 1)) (ctx w) /\
    exists last, trace w' = last ++ trace w.
Proof.
  unfold after_streaming, next_cycle, SYNC_start_acq. destruct (m =? 0).
  - eexists. split; [reflexivity|]. split; [reflexivity|]. by exists [].
  - run_calls. eexists. split; [reflexivity|].
    split; [cbn [modify_ctx set_ctx ctx]; by rewrite after_ctx|].
    eexists [_]. cbn [modify_ctx set_ctx trace]. by rewrite after_trace.
Qed.

(** A run loop that finds [g_state] 1 starts a cycle: its next call is the
    reset of the cycle buffer. *)
Lemma loop_enters_cycle fuel w :
  trig_mode (ctx w) = 0 \/ trig_mode (ctx w) = 1 ->
  g_state (tick w) = 1 ->
  exists more,
    calls (final (device_loop (S fuel) w))
    = calls w ++ DaqResetBuffer :: more.
Proof.
  intros Hm Hg.
  assert (Hcalls : forall w0 wf,
    trace w0 = (DaqResetBuffer, answer DaqResetBuffer (tick w)) :: trace w ->
    run_rel (trig_mode (ctx w)) w0 wf ->
    exists more, calls wf = calls w ++ DaqResetBuffer :: more).
  { intros w0 wf H0 (_ & new & Hnew & _). exists (rev new.*1).
    unfold calls. rewrite Hnew, H0, fmap_app, rev_app_distr. cbn [fmap list_fmap].
    cbn [rev fst]. by rewrite <- !app_assoc. }
  unfold device_loop. rewrite bind_get_ctx.
  destruct Hm as [E|E]; rewrite E in *; cbn [Z.eqb Pos.eqb].
  - cbn [device_loop_dcc]. rewrite bind_read_g_state, Hg. cbn [Z.eqb Pos.eqb].
    unfold dcc_cycle, DAQ_reset_buffer. rewrite !bind_assoc.
    rewrite (bind_Done _ _ _ _ _ (ext_void_eq _ _)). unfold bind at 1.
    set (w0 := set_daq _ _ _).
    apply (Hcalls w0).
    { subst w0. cbn [set_daq trace]. by rewrite after_trace, tick_trace. }
    lazymatch goal with
    | |- run_rel _ _ (final (?K w0)) =>
        refine ((_ : keeps (run_rel 0) K) w0)
    end.
    kapply keeps_bind;
      [|intros [|]; [apply run_rel_loop_dcc|kapply keeps_ret]].
    kapply keeps_bind; [unfold SYNC_fpga_ro; keeps_with run_rel_step|].
    intros ?.
    kapply keeps_bind; [keeps_with run_rel_step|]. intros g1.
    destruct (g1 =? 0); [kapply keeps_ret|].
    kapply keeps_bind; [unfold SYNC_fifo_ready; keeps_with run_rel_step|].
    intros ?.
    kapply keeps_bind; [keeps_with run_rel_step|]. intros g2.
    destruct (g2 =? 0); [kapply keeps_ret|].
    unfold dcc_readout.
    kapply keeps_bind; [apply run_rel_buffer_difs|]. intros ?.
    kapply keeps_bind; [unfold SYNC_fifo_ack; keeps_with run_rel_step|].
    intros ? w1. rewrite bind_get_ctx.
    kapply keeps_bind_at; [|intros ?].
    + unfold DAQ_write_buffer. rewrite ext_void_eq. apply run_rel_after.
      by simpl.
    + kapply keeps_bind; [apply run_rel_send_difs|]. intros ?.
      kapply keeps_bind; [apply run_rel_next_cycle|]. intros ?.
      kapply keeps_ret.
  - cbn [device_loop_noise]. rewrite bind_read_g_state, Hg.
    cbn [Z.eqb Pos.eqb].
    unfold noise_cycle, DAQ_reset_buffer. rewrite !bind_assoc.
    rewrite (bind_Done _ _ _ _ _ (ext_void_eq _ _)). unfold bind at 1.
    set (w0 := set_daq _ _ _).
    apply (Hcalls w0).
    { subst w0. cbn [set_daq trace]. by rewrite after_trace, tick_trace. }
    lazymatch goal with
    | |- run_rel _ _ (final (?K w0)) =>
        refine ((_ : keeps (run_rel 1) K) w0)
    end.
    kapply keeps_bind;
      [|intros [|]; [apply run_rel_loop_noise|kapply keeps_ret]].
    kapply keeps_bind; [unfold SYNC_ramfull; keeps_with run_rel_step|].
    intros ?.
    kapply keeps_bind; [keeps_with run_rel_step|]. intros g1.
    destruct (g1 =? 0); [kapply keeps_ret|].
    kapply keeps_bind; [unfold SYNC_ramfull_ext; keeps_with run_rel_step|].
    intros ?.
    kapply keeps_bind; [unfold SYNC_fifo_ready; keeps_with run_rel_step|].
    intros ?.
    kapply keeps_bind; [keeps_with run_rel_step|]. intros g2.
    destruct (g2 =? 0); [kapply keeps_ret|].
    unfold noise_readout.
    kapply keeps_bind; [apply run_rel_buffer_difs|]. intros ?.
    kapply keeps_bind; [unfold SYNC_fifo_ack; keeps_with run_rel_step|].
    intros ?.
    kapply keeps_bind; [apply run_rel_send_difs|]. intros ?.
    kapply keeps_bind; [unfold SYNC_start_acq; keeps_with run_rel_step|].
    intros ?.
    kapply keeps_bind; [apply run_rel_next_cycle|]. intros ?.
    kapply keeps_ret.
Qed.

(** C6: a cycle of the run loop that has come to its readout (the loop
    found [g_state] 1 and neither wait was cancelled) always runs its
    streaming loop to the end, whatever the exchanges return: the header of
    every active slot goes out, in ascending slot order.  When the exchange
    of an active slot [k] returns a nonzero result, that result is in
    [task[k].rc] when the streaming ends and still when the cycle ends,
    and the headers of the active slots after [k] go out after it, in
    ascending order.  The cycle then ends with the counter advanced, and
    the run goes on: what [device_loop] does from the start of this cycle
    is what it does entered again, at its test of [g_state], where this
    cycle ended; when that test finds [g_state] still 1, the next call of
    the run is the buffer reset that opens the next cycle.  This holds in
    both trigger modes. *)
Theorem streaming_failures_isolated fuel w wr :
  trig_mode (ctx w) = 0 \/ trig_mode (ctx w) = 1 ->
  length (task (ctx w)) = NB_RFM ->
  g_state (tick w) = 1 ->
  cycle_waits (trig_mode (ctx w)) fuel (tick w) = Done true wr ->
  exists ws we w',
    before_streaming (trig_mode (ctx w)) wr = Done tt ws /\
    send_difs ws = Done tt we /\
    after_streaming (trig_mode (ctx w)) we = Done tt w' /\
    (exists new,
       trace we = new ++ trace ws /\
       sublist (slot_headers ws (upto NB_RFM)) (rev new.*1)) /\
    (forall pre k post wk err w1,
       upto NB_RFM = pre ++ k :: post ->
       for_each pre send_dif_step ws = Done tt wk ->
       rfm_active (ctx wk) k = true ->
       device_daq_send_dif k wk = Done err w1 ->
       err <> 0 ->
       t_rc <$> task_at we k = Some err /\
       t_rc <$> task_at w' k = Some err /\
       exists new,
         trace we = new ++ trace w1 /\
         sublist (slot_headers ws post) (rev new.*1)) /\
    cycle_id (ctx w') = wrap_u32 (cycle_id (ctx w) + 1) /\
    device_loop (S fuel) w = device_loop fuel w' /\
    (forall f, fuel = S f -> g_state (tick w') = 1 ->
       exists more,
         calls (final (device_loop (S fuel) w))
         = calls w' ++ DaqResetBuffer :: more).
Proof.
  intros Hm Hlen Hg Hwaits.
  set (m := trig_mode (ctx w)) in *.
  assert (Hr : ctx wr = ctx w).
  { pose proof (keeps_done _ _ _ _ _ (cycle_waits_frame m fuel) Hwaits) as H.
    unfold same_on in H. by rewrite H, tick_ctx. }
  destruct (before_streaming_total m wr) as (ws & Hb & Hf & Hmode & _).
  { by rewrite Hr. }
  destruct (send_difs_isolated ws) as (we & Hs & He & Hhdr & Hfail).
  { rewrite (run_frame_length _ _ Hf). by rewrite Hr. }
  destruct (after_streaming_total m we) as (w' & Ha & Hc & _).
  assert (Hm' : trig_mode (ctx w') = m).
  { rewrite Hc. cbn [trig_mode set_cycle_id].
    assert (Ht : trig_mode (ctx we) = trig_mode (ctx ws))
      by exact (f_equal trig_mode He).
    by rewrite Ht, Hmode, Hr. }
  assert (Hloop : device_loop (S fuel) w = device_loop fuel w').
  { unfold device_loop. rewrite !bind_get_ctx, Hm'. fold m.
    assert (Hreadout : forall rd : M bool,
      (forall x, rd x = (before_streaming m;; send_difs;;
                         after_streaming m;; ret true) x) ->
      rd wr = Done true w').
    { intros rd ->. mstep Hb. mstep Hs. by mstep Ha. }
    destruct Hm as [E|E]; rewrite E in *; cbn [Z.eqb Pos.eqb].
    + cbn [device_loop_dcc]. rewrite bind_read_g_state, Hg.
      cbn [Z.eqb Pos.eqb].
      unfold bind at 1. rewrite dcc_cycle_split.
      mstep Hwaits. by rewrite (Hreadout _ dcc_readout_split).
    + cbn [device_loop_noise]. rewrite bind_read_g_state, Hg.
      cbn [Z.eqb Pos.eqb].
      unfold bind at 1. rewrite noise_cycle_split.
      mstep Hwaits. by rewrite (Hreadout _ noise_readout_split). }
  exists ws, we, w'. split_and!; try done.
  - intros pre k post wk err w1 H1 H2 H3 H4 H5.
    destruct (Hfail pre k post wk err w1 H1 H2 H3 H4 H5) as (Hrc & Hnew).
    split_and!; [done| |done].
    unfold task_at in *. by rewrite Hc.
  - rewrite Hc. cbn [cycle_id set_cycle_id].
    apply erase_rc_run_frame, run_frame_cycle_id in He.
    apply run_frame_cycle_id in Hf. by rewrite He, Hf, Hr.
  - intros f -> Hg'. rewrite Hloop.
    apply loop_enters_cycle; [|done]. by rewrite Hm'.
Qed.

(** ** Loading the base configuration: [device_configure] *)

Lemma h_bind_assoc {A B C} (m : H A) (k : A -> H B) (k' : B -> H C) h :
  h_bind (h_bind m k) k' h = h_bind m (fun a => h_bind (k a) k') h.
Proof. unfold h_bind. by destruct (m h). Qed.

Lemma h_bind_ret {A B} (a : A) (k : A -> H B) h : h_bind (h_ret a) k h = k a h.
Proof. reflexivity. Qed.

Lemma h_bind_modify {B} f (k : unit -> H B) h :
  h_bind (h_modify f) k h = k tt (h_set f h).
Proof. reflexivity. Qed.

Lemma h_bind_call {B} c (k : reply -> H B) h :
  h_bind (h_call c) k h = k (h_answer c h) (h_after c h).
Proof. reflexivity. Qed.

Lemma h_bind_int {B} c (k : Z -> H B) h :
  h_bind (h_int c) k h = k (ret_val (h_answer c h)) (h_after c h).
Proof. reflexivity. Qed.

Lemma h_bind_read_table {B} c store (k : Z -> H B) h :
  h_bind (read_table c store) k h
  = k (ret_val (h_answer c h)) (h_set (store (data (h_answer c h))) (h_after c h)).
Proof. reflexivity. Qed.

Lemma h_after_trace c h : h_trace (h_after c h) = (c, h_answer c h) :: h_trace h.
Proof. reflexivity. Qed.
Lemma h_after_ctx c h : h_ctx (h_after c h) = h_ctx h.
Proof. reflexivity. Qed.
Lemma h_after_env c h : h_env (h_after c h) = h_env h.
Proof. reflexivity. Qed.
Lemma h_set_trace f h : h_trace (h_set f h) = h_trace h.
Proof. reflexivity. Qed.
Lemma h_set_ctx f h : h_ctx (h_set f h) = f (h_ctx h).
Proof. reflexivity. Qed.
Lemma h_set_env f h : h_env (h_set f h) = h_env h.
Proof. reflexivity. Qed.

(** run the straight-line code at the head of a computation on a host,
    in the hypothesis [E] *)
Ltac h_run E :=
  repeat first
    [ rewrite h_bind_assoc in E
    | rewrite h_bind_modify in E
    | rewrite h_bind_int in E
    | rewrite h_bind_read_table in E
    | rewrite h_bind_call in E
    | rewrite h_bind_ret in E ].

(** the host of a run, looked at *)
Ltac h_see :=
  repeat first
    [ rewrite h_after_trace | rewrite h_after_ctx | rewrite h_after_env
    | rewrite h_set_trace | rewrite h_set_ctx | rewrite h_set_env ].


Lemma trace_cons_new {A} (x : A) l new t :
  l = new ++ t -> x :: l = (x :: new) ++ t.
Proof. by intros ->. Qed.

Lemma trace_nil_new {A} (t : list A) : t = [] ++ t.
Proof. reflexivity. Qed.

(** the trace of a run, as what it added to the trace before *)
Ltac h_new := h_see; repeat apply trace_cons_new; apply trace_nil_new.

(** the test at the head of the run in [E], both ways *)
Ltac h_test E :=
  lazymatch type of E with
  | (if negb (?a =? ?b) then _ else _) _ = _ =>
      destruct (Z.eqb_spec a b); cbn [negb] in E
  | (if ?a =? ?b then _ else _) _ = _ => destruct (Z.eqb_spec a b)
  | (if ?a <? ?b then _ else _) _ = _ => destruct (Z.ltb_spec a b)
  end.

(** every way through [device_configure]: the run in [E] ended *)
Ltac h_paths E :=
  h_run E;
  lazymatch type of E with
  | h_ret _ _ = _ =>
      unfold h_ret in E; apply pair_equal_spec in E as [<- <-]
  | _ => h_test E; h_paths E
  end.

(** X25: whatever [device_configure] returns, it has stored the five
    settings it was given before it copies or opens anything, and has left
    the trigger and configuration modes, the descriptor, the run file, the
    cycle counter and the tasks alone.  When the copy of the base settings
    fails, its status is returned, nothing else was called and the three
    tables are as before. *)
Theorem configure_stores_settings_first thresh rs rfm ip run h :
  let r := device_configure thresh rs rfm ip run h in
  settings_stored thresh rs rfm ip run (h_ctx h) (h_ctx r.2) /\
  (ret_val (h_env h (S (h_now h)) SystemScpBase) <> 0 ->
   r.1 = ret_val (h_env h (S (h_now h)) SystemScpBase) /\
   h_calls r.2 = h_calls h ++ [SystemScpBase] /\
   dac_floor_table (h_ctx r.2) = dac_floor_table (h_ctx h) /\
   pa_gain_table (h_ctx r.2) = pa_gain_table (h_ctx h) /\
   mask_table (h_ctx r.2) = mask_table (h_ctx h)).
Proof.
  cbv zeta. destruct (device_configure _ _ _ _ _ h) as [rc h'] eqn:E.
  unfold device_configure in E. cbn [fst snd].
  h_paths E.
  all: split; [by h_see|].
  all: intros Hscp; try done.
  all: split; [reflexivity|]; by unfold h_calls; h_see.
Qed.

Lemma close_one_head f held : close_one f (f :: held) = held.
Proof. cbn [close_one]. by rewrite Z.eqb_refl. Qed.

Lemma still_open_fopen f r rest held :
  ret_val r <> 0 ->
  still_open ((FopenConf f, r) :: rest) held = still_open rest (ret_val r :: held).
Proof. intros Hr. cbn [still_open]. by rewrite (proj2 (Z.eqb_neq _ _) Hr). Qed.

Lemma still_open_fopen_null f r rest held :
  ret_val r = 0 ->
  still_open ((FopenConf f, r) :: rest) held = still_open rest held.
Proof. intros Hr. cbn [still_open]. by rewrite Hr. Qed.

Lemma still_open_fclose f r rest held :
  still_open ((FcloseConf f, r) :: rest) (f :: held) = still_open rest held.
Proof. cbn [still_open]. by rewrite close_one_head. Qed.

Lemma still_open_other c r rest held :
  match c with FopenConf _ | FcloseConf _ => False | _ => True end ->
  still_open ((c, r) :: rest) held = still_open rest held.
Proof. by destruct c. Qed.

(** the files left open by an explicit list of calls *)
Ltac h_files :=
  cbn [rev app];
  repeat first
    [ rewrite still_open_fclose
    | rewrite still_open_fopen by assumption
    | rewrite still_open_fopen_null by assumption
    | rewrite still_open_other by done ].

(** X26: [device_configure] leaks no stream, whatever it returns: of the
    calls it makes, every [fopen] that gave a stream is followed by the
    [fclose] of that stream before the next file is opened and before the
    function returns, so that no file it opened is still open afterwards.
    It makes at most 13 calls. *)
Theorem configure_closes_every_file thresh rs rfm ip run h :
  let r := device_configure thresh rs rfm ip run h in
  exists new,
    h_trace r.2 = new ++ h_trace h /\
    still_open (rev new) [] = [] /\
    (forall pre c a post held,
       rev new = pre ++ (c, a) :: post -> still_open pre [] = held ->
       match c with FopenConf _ => held = [] | _ => True end) /\
    (length new <= 13)%nat.
Proof.
  cbv zeta. destruct (device_configure _ _ _ _ _ h) as [rc h'] eqn:E.
  unfold device_configure in E. cbn [fst snd].
  h_paths E.
  all: eexists; split; [h_new|].
  all: split; [by h_files|].
  all: split; [|cbn [length]; lia].
  all: intros pre c a post held Hsplit <-.
  all: cbn [rev app] in Hsplit.
  all: repeat (destruct pre as [|? pre];
               [injection Hsplit as <- _; try done; by h_files
               |injection Hsplit as <- Hsplit]).
  all: by destruct pre.
Qed.

(** X27: [device_configure] returns 0 only after the whole sequence: the
    copy, then for each of the four files, in the order base
    configuration, floor thresholds, gains, masks, its [fopen] (with a
    stream that is not null), its reader on that stream and its [fclose];
    no answer was one it gives up on, and each table holds what its reader
    left.  Any other result is -1 or the status of the copy; the calls made
    are then a start of that sequence, and one of the answers was one it
    gives up on.  (A last reader that fails is still followed by its
    [fclose]: the calls alone do not tell that failure from success.) *)
Theorem configure_success_is_whole_sequence thresh rs rfm ip run h :
  let r := device_configure thresh rs rfm ip run h in
  let scp := ret_val (h_env h (S (h_now h)) SystemScpBase) in
  exists new,
    h_trace r.2 = new ++ h_trace h /\
    (r.1 = 0 ->
     exists f1 f2 f3 f4 a2 a3 a4,
       f1 <> 0 /\ f2 <> 0 /\ f3 <> 0 /\ f4 <> 0 /\
       (rev new).*1 = configure_calls f1 f2 f3 f4 /\
       (ReadThOffset f2, a2) ∈ new /\
       (ReadPaGain f3, a3) ∈ new /\
       (ReadMask f4, a4) ∈ new /\
       dac_floor_table (h_ctx r.2) = data a2 /\
       pa_gain_table (h_ctx r.2) = data a3 /\
       mask_table (h_ctx r.2) = data a4 /\
       Forall (fun ca => ~ refused ca) new) /\
    (r.1 <> 0 ->
     (r.1 = -1 \/ r.1 = scp) /\
     (rev new).*1 `prefix_of` configure_calls
          (ret_val (h_env h (2 + h_now h)%nat (FopenConf ConfBase)))
          (ret_val (h_env h (5 + h_now h)%nat (FopenConf DacFloor)))
          (ret_val (h_env h (8 + h_now h)%nat (FopenConf PaGain)))
          (ret_val (h_env h (11 + h_now h)%nat (FopenConf MaskFile))) /\
     Exists refused new).
Proof.
  cbv zeta. destruct (device_configure _ _ _ _ _ h) as [rc h'] eqn:E.
  unfold device_configure in E. cbn [fst snd].
  h_paths E.
  all: eexists; split; [h_new|].
  all: split; intros Hrc; try done.
  all: cbn [rev app fmap list_fmap fst].
  all: lazymatch goal with
       | |- ex _ =>
           do 7 eexists; split_and!;
           [> idtac | idtac | idtac | idtac
            | reflexivity
            | repeat first [apply list_elem_of_here
                           | apply list_elem_of_further] ..
            | by h_see | by h_see | by h_see
            | repeat (constructor;
                      [unfold refused; cbn [fst snd]; first [tauto | lia]|]);
              constructor ];
           assumption
       | |- _ => idtac
       end.
  all: split; [first [by left | by right]|].
  all: split;
    [unfold configure_calls;
     repeat (apply prefix_cons_alt; [reflexivity|]); apply prefix_nil|].
  all: repeat first
         [ by apply Exists_cons_hd; unfold refused; cbn [fst snd]
         | apply Exists_cons_tl ].
Qed.

Lemma h_answer_from h c h1 :
  h_env h1 = h_env h -> h_answer c h1 = h_env h (S (h_now h1)) c.
Proof. unfold h_answer. by intros ->. Qed.

(** X28: when the copy answers 0, every [fopen] gives a stream and no
    reader answers below 0, [device_configure] returns 0. *)
Theorem configure_succeeds_on_good_answers thresh rs rfm ip run h
    (Hscp : forall t, ret_val (h_env h t SystemScpBase) = 0)
    (Hopen : forall t f, ret_val (h_env h t (FopenConf f)) <> 0)
    (Hread : forall t c, reads c -> 0 <= ret_val (h_env h t c)) :
  (device_configure thresh rs rfm ip run h).1 = 0.
Proof.
  destruct (device_configure _ _ _ _ _ h) as [rc h'] eqn:E.
  unfold device_configure in E. cbn [fst].
  h_paths E.
  all: try reflexivity.
  all: exfalso.
  all: lazymatch goal with
       | H : ret_val (h_answer SystemScpBase ?h1) <> 0 |- _ =>
           rewrite (h_answer_from h _ h1) in H by (by h_see);
           apply H, Hscp
       | H : ret_val (h_answer ?c ?h1) < 0 |- _ =>
           rewrite (h_answer_from h c h1) in H by (by h_see);
           eapply Z.lt_irrefl, Z.lt_le_trans; [exact H|by apply Hread]
       | H : ret_val (h_answer (FopenConf ?f) ?h1) = 0 |- _ =>
           rewrite (h_answer_from h _ h1) in H by (by h_see);
           eapply Hopen; exact H
       end.
Qed.

(** ** The copy request: [give_file_to_server] *)

(** X29: [give_file_to_server] does nothing on the socket 0.  On any other
    socket it makes exactly three calls, whatever they answer: it sends a
    header of 4 bytes, sends the name, and reads 3 bytes; the device is not
    touched.  Only the first byte of the header is written, so the header
    is the little-endian length of the name exactly when the name is
    shorter than 256 bytes; a name below 2^32 bytes is sent whole. *)
Theorem give_file_header_is_length_below_256 filename sock h :
  let r := give_file_to_server filename sock h in
  let len := Z.of_nat (length filename) in
  h_ctx r.2 = h_ctx h /\ h_env r.2 = h_env h /\
  (sock = 0 -> r.2 = h) /\
  (sock <> 0 ->
   exists hdr sent,
     h_calls r.2
     = h_calls h ++ [SendTo sock hdr; SendTo sock sent; ReadFrom sock 3] /\
     length hdr = 4%nat /\
     (le_decode hdr = len <-> len < 256) /\
     (len < 2 ^ 32 -> sent = filename)).
Proof.
  cbv zeta. unfold give_file_to_server.
  destruct (Z.eqb_spec sock 0) as [->|Hs].
  { by cbn. }
  rewrite !h_bind_call. unfold h_ret. cbn [snd].
  split; [by h_see|]. split; [by h_see|]. split; [done|]. intros _.
  do 2 eexists. split.
  { unfold h_calls. h_see. cbn [fmap list_fmap rev fst].
    rewrite <- !app_assoc. reflexivity. }
  split; [reflexivity|].
  unfold le_decode, wrap_u8, wrap_u32. cbn [foldr].
  split.
  - assert (Hl : 0 <= Z.of_nat (length filename)) by lia.
    revert Hl. generalize (Z.of_nat (length filename)) as n. intros n Hn.
    rewrite Z.mod_mod_divide by (exists (2 ^ 24); reflexivity).
    split.
    + intros Hd. pose proof (Z.mod_pos_bound n (2 ^ 8)). lia.
    + intros Hlt. rewrite Z.mod_small by lia. lia.
  - intros Hlt. rewrite Z.mod_small by lia.
    rewrite Nat2Z.id. by rewrite firstn_all.
Qed.

End Device.

(** * Runs on a board with four slots *)

(** C1: free-running mode, slots 0 and 1 active, healthy peers, SIGINT
    after one full cycle.  The loop streams both segments and never calls
    [DAQ_write_buffer]: the cycle does not reach the run file (handle 7). *)
Theorem noise_loop_never_writes_run_file :
  exists w',
    device_loop_noise 4 10 (bench_world 1 3 22 2 0) = Done tt w' /\
    cycle_id (ctx w') = 1 /\
    daq_file (ctx w') = 7 /\
    calls w' =
      [DaqResetBuffer; SyncRamfull; SyncRamfullExt; SyncFifoReady;
       DaqReadDif 0; DaqReadDif 1; SyncFifoAck;
       Send 10 [72; 68; 82; 0; 2; 0; 0; 0]; Recv 10 4;
       Send 10 [1; 2]; Recv 10 4;
       Send 11 [72; 68; 82; 0; 2; 0; 0; 0]; Recv 11 4;
       Send 11 [11; 12]; Recv 11 4; SyncStartAcq].
Proof.
  eexists. split; [vm_compute; reflexivity|]. vm_compute. done.
Qed.

(** C2: externally clocked mode, slots 0 and 1 active, SIGINT during the
    buffering of slot 0.  The buffering loop is left before slot 1, but the
    run loop is not: the half-filled buffer (the two bytes of slot 0) is
    written to the run file and streamed, the cycle counter advances, and
    only then the loop ends. *)
Theorem dcc_loop_writes_partial_cycle :
  exists w',
    device_loop_dcc 4 10 (bench_world 0 3 8 2 0) = Done tt w' /\
    g_state w' = 0 /\
    cycle_id (ctx w') = 1 /\
    calls w' =
      [DaqResetBuffer; SyncFpgaRo; SyncFifoReady;
       DaqReadDif 0; SyncFifoAck; DaqWriteBuffer 7 [1; 2];
       Send 10 [72; 68; 82; 0; 2; 0; 0; 0]; Recv 10 4;
       Send 10 [1; 2]; Recv 10 4;
       Send 11 [72; 68; 82; 0; 0; 0; 0; 0]; Recv 11 4].
Proof.
  eexists. split; [vm_compute; reflexivity|]. vm_compute. done.
Qed.

(** C3: the payload [send] of slot 0 fails (returns -1) and the peer still
    answers the second acknowledgement: the exchange returns 0, and after
    the streaming loop [task[0].rc] is still 0. *)
Theorem payload_send_failure_unreported :
  (exists w',
     device_daq_send_dif 0 (bench_loaded (-1) 0) = Done 0 w' /\
     rev (trace w') =
       [(Send 10 [72; 68; 82; 0; 2; 0; 0; 0], mkReply 8 []);
        (Recv 10 4, mkReply 4 [65; 67; 75; 0]);
        (Send 10 [16; 17], mkReply (-1) []);
        (Recv 10 4, mkReply 4 [65; 67; 75; 0])]) /\
  (exists w',
     send_difs 4 (bench_loaded (-1) 0) = Done tt w' /\
     t_rc <$> task_at w' 0 = Some 0).
Proof.
  split; eexists; (split; [vm_compute; reflexivity|]); vm_compute; done.
Qed.

(** C4, refuted: the peer answers 'A', 'C', 'K' and a fourth byte 1; the
    exchange of slot 0 is not taken as acknowledged: it returns 1 and the
    payload is not sent. *)
Lemma ack_fourth_byte_matters :
  exists w',
    device_daq_send_dif 0 (bench_loaded 2 1) = Done 1 w' /\
    rev (trace w') =
      [(Send 10 [72; 68; 82; 0; 2; 0; 0; 0], mkReply 8 []);
       (Recv 10 4, mkReply 4 [65; 67; 75; 1])].
Proof.
  eexists. split; [vm_compute; reflexivity|]. vm_compute. done.
Qed.

(** C9, refuted: the window of slot 0 holds the 2 bytes 16, 17 and the
    header goes out, but the peer answers 'A', 'C', 'K', 1.  The length is
    positive and yet no payload follows the header: the header is all that
    is sent. *)
Lemma rejected_header_no_payload :
  exists t w',
    task_at (bench_loaded 2 1) 0 = Some t /\
    0 < t_end t - t_beg t /\
    read_bytes (daq_mem (bench_loaded 2 1)) (t_beg t)
      (Z.to_nat (t_end t - t_beg t)) = [16; 17] /\
    device_daq_send_dif 0 (bench_loaded 2 1) = Done 1 w' /\
    sent (trace w')
    = sent (trace (bench_loaded 2 1))
        ++ [(t_sck t, [72; 68; 82; 0; 2; 0; 0; 0])] /\
    sent (trace w')
    <> sent (trace (bench_loaded 2 1))
         ++ (t_sck t, [72; 68; 82; 0; 2; 0; 0; 0])
            :: (if 0 <? t_end t - t_beg t then [(t_sck t, [16; 17])]
                else []).
Proof.
  eexists _, _. split; [reflexivity|]. split; [reflexivity|].
  split; [vm_compute; reflexivity|].
  split; [vm_compute; reflexivity|].
  split; [vm_compute; reflexivity|]. vm_compute. discriminate.
Qed.

(** C5: the run file (handle 7) is open.  The first [device_stop] closes it
    and returns 0; the second one reaches [fclose] with a null pointer. *)
Theorem stop_twice_reaches_fclose_null :
  exists w1 w2,
    device_stop (bench_world 0 3 0 2 0) = Done 0 w1 /\
    daq_file (ctx w1) = 0 /\
    device_stop w1 = Undef w2 /\
    calls w2 =
      [CntStop; CntReset; SyncResetFpga; SyncResetHr; Fclose 7;
       CntStop; CntReset; SyncResetFpga; SyncResetHr].
Proof.
  eexists _, _. split; [vm_compute; reflexivity|].
  split; [vm_compute; reflexivity|].
  split; [vm_compute; reflexivity|]. vm_compute. done.
Qed.

(** C8, refuted: the device has shaper value 1; booting slot 2 with shaper
    value 5 fails, and slot 2 (inactive, dif 3, shaper 0 before) is
    active with dif 9 and shaper 5 after. *)
Lemma boot_rfm_conflict_changes_slot :
  exists w',
    device_boot_rfm 9 2 5 0 bench_shaped = Done (-1) w' /\
    rfm_active (ctx bench_shaped) 2 = false /\
    rfm_active (ctx w') 2 = true /\
    t_dif <$> task_at bench_shaped 2 = Some 3 /\
    t_dif <$> task_at w' 2 = Some 9 /\
    t_rshaper <$> task_at bench_shaped 2 = Some 0 /\
    t_rshaper <$> task_at w' 2 = Some 5.
Proof.
  eexists. split; [vm_compute; reflexivity|]. vm_compute. done.
Qed.

(** ** The theorems above, on the bench *)

(** C6, on the bench: a run in trigger mode 0 whose peers answer a bad
    acknowledgement; the first cycle reaches its readout. *)
Lemma streaming_failures_isolated_witness :
  (trig_mode (ctx (bench_world 0 3 0 2 1)) = 0 \/
   trig_mode (ctx (bench_world 0 3 0 2 1)) = 1) /\
  length (task (ctx (bench_world 0 3 0 2 1))) = 4%nat /\
  g_state (tick (bench_world 0 3 0 2 1)) = 1 /\
  cycle_waits (trig_mode (ctx (bench_world 0 3 0 2 1))) 2
    (tick (bench_world 0 3 0 2 1))
  = Done true (final (cycle_waits 0 2 (tick (bench_world 0 3 0 2 1)))) /\
  exists w',
    device_loop 4 3 (bench_world 0 3 0 2 1) = device_loop 4 2 w' /\
    cycle_id (ctx w') = 1 /\
    t_rc <$> task_at w' 0 = Some 1.
Proof.
  assert (H1 : trig_mode (ctx (bench_world 0 3 0 2 1)) = 0 \/
               trig_mode (ctx (bench_world 0 3 0 2 1)) = 1)
    by (left; reflexivity).
  assert (H2 : length (task (ctx (bench_world 0 3 0 2 1))) = 4%nat)
    by reflexivity.
  assert (H3 : g_state (tick (bench_world 0 3 0 2 1)) = 1) by reflexivity.
  assert (H4 : cycle_waits (trig_mode (ctx (bench_world 0 3 0 2 1))) 2
                 (tick (bench_world 0 3 0 2 1))
               = Done true
                   (final (cycle_waits 0 2 (tick (bench_world 0 3 0 2 1)))))
    by (vm_compute; reflexivity).
  split; [exact H1|]. split; [exact H2|]. split; [exact H3|].
  split; [exact H4|].
  destruct (streaming_failures_isolated 4 2 (bench_world 0 3 0 2 1) _
              H1 H2 H3 H4)
    as (ws & we & w' & Hb & _ & _ & _ & Hfail & Hc & Hl & _).
  exists w'. split; [exact Hl|]. split; [rewrite Hc; reflexivity|].
  assert (Hws : final (before_streaming 4 0
                  (final (cycle_waits 0 2 (tick (bench_world 0 3 0 2 1)))))
                = ws) by exact (f_equal final Hb).
  refine (proj1 (proj2 (Hfail [] 0 [1; 2; 3] ws 1
            (final (device_daq_send_dif 0 ws)) eq_refl eq_refl _ _ _))).
  - rewrite <- Hws. vm_compute. reflexivity.
  - rewrite <- Hws. vm_compute. reflexivity.
  - discriminate.
Defined.

(** C7, on the bench: the PLL never locks. *)
Lemma initialize_clock_not_locked_witness :
  (100 <= 100)%nat /\
  device_init_mmap (bench_world 0 3 0 2 0) = Done 0 bench_mapped /\
  exists w2, device_initialize 4 8 100 (bench_world 0 3 0 2 0) = Done (-1) w2.
Proof.
  split; [lia|]. split; [vm_compute; reflexivity|].
  destruct (initialize_clock_not_locked 4 8 100 (bench_world 0 3 0 2 0)
              bench_mapped) as (_ & Hfail & _).
  - lia.
  - vm_compute. reflexivity.
  - destruct Hfail as (w2 & _ & _ & Hi & _); [reflexivity|].
    exists w2. exact Hi.
Defined.

(** C8, on the bench: slot 2 booted with shaper 5 against the recorded 1. *)
Lemma boot_rfm_conflict_state_witness :
  0 <= 2 < 32 /\
  task_at bench_shaped 2 = Some (bench_task 3 12) /\
  rshaper (ctx bench_shaped) <> 0 /\
  rshaper (ctx bench_shaped) <> 5 /\
  exists w',
    device_boot_rfm 9 2 5 0 bench_shaped = Done (-1) w' /\
    rshaper (ctx w') = 1 /\
    rfm_active (ctx w') 2 = true /\
    task_at w' 2 = Some (set_t_rshaper 5 (set_t_dif 9 (bench_task 3 12))).
Proof.
  assert (H1 : 0 <= 2 < 32) by lia.
  assert (H2 : task_at bench_shaped 2 = Some (bench_task 3 12))
    by reflexivity.
  assert (H3 : rshaper (ctx bench_shaped) <> 0) by discriminate.
  assert (H4 : rshaper (ctx bench_shaped) <> 5) by discriminate.
  split_and!; try done.
  destruct (boot_rfm_conflict_state 9 2 5 0 bench_shaped _ H1 H2 H3 H4)
    as (w' & Hb & Hr & _ & Ha & Ht & _).
  exists w'. split_and!; done.
Defined.

(** C9, on the bench: slot 0 with the window [0, 2). *)
Lemma send_dif_wire_format_witness :
  0 <= 0 /\
  task_at (bench_loaded 2 0) 0 = Some (set_t_window 0 2 0 (bench_task 1 10)) /\
  0 <= t_end (set_t_window 0 2 0 (bench_task 1 10))
       - t_beg (set_t_window 0 2 0 (bench_task 1 10)) < 2 ^ 32 /\
  exists rc w',
    device_daq_send_dif 0 (bench_loaded 2 0) = Done rc w' /\
    sent (trace w') = [(10, [72; 68; 82; 0; 2; 0; 0; 0]); (10, [16; 17])].
Proof.
  assert (H1 : 0 <= 0) by lia.
  assert (H2 : task_at (bench_loaded 2 0) 0
               = Some (set_t_window 0 2 0 (bench_task 1 10))) by reflexivity.
  assert (H3 : 0 <= t_end (set_t_window 0 2 0 (bench_task 1 10))
                    - t_beg (set_t_window 0 2 0 (bench_task 1 10)) < 2 ^ 32)
    by (simpl; lia).
  split_and!; try done.
  destruct (send_dif_wire_format 0 (bench_loaded 2 0) _ H1 H2 H3)
    as (rc & w' & Hs & Hw & _).
  exists rc, w'. split; [exact Hs|]. rewrite Hw. vm_compute. reflexivity.
Defined.

(** C10, on the bench: dif 2 sits in slot 1. *)
Lemma configure_dif_sets_db_mode_witness :
  length (task (ctx (bench_world 0 3 0 2 0))) = 4%nat /\
  exists w',
    device_configure_dif 4 2 "192.168.0.2" 8877 (bench_world 0 3 0 2 0)
    = Done 0 w' /\
    cfg_mode (ctx w') = "db" /\
    t_port <$> task_at w' 1 = Some 8877.
Proof.
  split; [reflexivity|].
  destruct (configure_dif_sets_db_mode 4 2 "192.168.0.2" 8877
              (bench_world 0 3 0 2 0) eq_refl) as (rc & w' & Hc & Hm & Hf).
  vm_compute in Hf. destruct Hf as [-> ->].
  eexists. split; [exact Hc|]. split; reflexivity.
Defined.

(** ** More of device.c, on the bench *)

(** Free-running mode, slots 0 and 1 active: the run number is 5 and
    [fopen] answers the handle 1. *)
Lemma start_noise_sequence_witness :
  trig_mode (ctx (bench_world 1 3 0 2 0)) = 1 /\
  ret_val (answer (Fopen (DaqRaw (wrap_i32 5))) (bench_world 1 3 0 2 0)) <> 0 /\
  exists w',
    device_start 4 1 10 5 (bench_world 1 3 0 2 0) = Done 0 w' /\
    calls w' =
      [Fopen (DaqRaw 5); SyncResetHr; DaqFifoInit 0; DaqFifoInit 1;
       CntReset; SyncResetBcid; SyncStartAcq; SyncState; SyncFifoArming].
Proof.
  assert (H1 : trig_mode (ctx (bench_world 1 3 0 2 0)) = 1) by reflexivity.
  assert (H2 : ret_val (answer (Fopen (DaqRaw (wrap_i32 5)))
                          (bench_world 1 3 0 2 0)) <> 0) by discriminate.
  split; [exact H1|]. split; [exact H2|].
  destruct (start_noise_sequence 4 1 10 5 (bench_world 1 3 0 2 0) H1 H2)
    as (w' & Hs & _ & _ & _ & Hc).
  exists w'. split; [exact Hs|]. rewrite Hc. vm_compute. reflexivity.
Defined.

(** A trigger mode of 2. *)
Lemma start_unknown_mode_keeps_file_open_witness :
  trig_mode (ctx (bench_world 2 3 0 2 0)) <> 0 /\
  trig_mode (ctx (bench_world 2 3 0 2 0)) <> 1 /\
  ret_val (answer (Fopen (DaqRaw (wrap_i32 5))) (bench_world 2 3 0 2 0)) <> 0 /\
  exists w',
    device_start 4 1 10 5 (bench_world 2 3 0 2 0) = Done (-1) w' /\
    daq_file (ctx w') = 1.
Proof.
  assert (H0 : trig_mode (ctx (bench_world 2 3 0 2 0)) <> 0) by discriminate.
  assert (H1 : trig_mode (ctx (bench_world 2 3 0 2 0)) <> 1) by discriminate.
  assert (H2 : ret_val (answer (Fopen (DaqRaw (wrap_i32 5)))
                          (bench_world 2 3 0 2 0)) <> 0) by discriminate.
  split; [exact H0|]. split; [exact H1|]. split; [exact H2|].
  destruct (start_unknown_mode_keeps_file_open 4 1 10 5
              (bench_world 2 3 0 2 0) H0 H1 H2) as (w' & Hs & Hf & _).
  exists w'. split; [exact Hs|]. rewrite Hf. reflexivity.
Defined.

(** [fopen] answers a null pointer. *)
Lemma stop_after_failed_start_witness :
  ret_val (answer (Fopen (DaqRaw (wrap_i32 5)))
             (lab_world (bench_device 0 3) (all_answer 0) 0)) = 0 /\
  exists w1 w2,
    device_start 4 1 10 5 (lab_world (bench_device 0 3) (all_answer 0) 0)
    = Done (-1) w1 /\
    device_stop w1 = Undef w2.
Proof.
  assert (H : ret_val (answer (Fopen (DaqRaw (wrap_i32 5)))
                         (lab_world (bench_device 0 3) (all_answer 0) 0)) = 0)
    by reflexivity.
  split; [exact H|].
  destruct (stop_after_failed_start 4 1 10 5
              (lab_world (bench_device 0 3) (all_answer 0) 0) H)
    as (w1 & w2 & Hs & _ & _ & _ & Hu).
  exists w1, w2. split; [exact Hs|exact Hu].
Defined.

(** Free-running mode, SIGINT after one cycle. *)
Lemma loop_returns_only_when_cancelled_witness :
  (trig_mode (ctx (bench_world 1 3 22 2 0)) = 0 \/
   trig_mode (ctx (bench_world 1 3 22 2 0)) = 1) /\
  device_loop 4 10 (bench_world 1 3 22 2 0)
  = Done tt (final (device_loop 4 10 (bench_world 1 3 22 2 0))) /\
  g_state (final (device_loop 4 10 (bench_world 1 3 22 2 0))) <> 1.
Proof.
  assert (H1 : trig_mode (ctx (bench_world 1 3 22 2 0)) = 0 \/
               trig_mode (ctx (bench_world 1 3 22 2 0)) = 1)
    by (right; reflexivity).
  assert (H2 : device_loop 4 10 (bench_world 1 3 22 2 0)
               = Done tt (final (device_loop 4 10 (bench_world 1 3 22 2 0))))
    by (vm_compute; reflexivity).
  split; [exact H1|]. split; [exact H2|].
  exact (loop_returns_only_when_cancelled 4 10 _ _ H1 H2).
Defined.

(** Externally clocked mode, SIGINT during the buffering of the first
    cycle: one write, one cycle counted. *)
Lemma loop_counts_closed_cycles_witness :
  device_loop 4 10 (bench_world 0 3 8 2 0)
  = Done tt (final (device_loop 4 10 (bench_world 0 3 8 2 0))) /\
  cycle_id (ctx (final (device_loop 4 10 (bench_world 0 3 8 2 0)))) = 1 /\
  exists new,
    trace (final (device_loop 4 10 (bench_world 0 3 8 2 0)))
    = new ++ trace (bench_world 0 3 8 2 0) /\
    wrap_u32 (Z.of_nat (marks (cycle_mark 0) new)) = 1.
Proof.
  assert (H : device_loop 4 10 (bench_world 0 3 8 2 0)
              = Done tt (final (device_loop 4 10 (bench_world 0 3 8 2 0))))
    by (vm_compute; reflexivity).
  split; [exact H|]. split; [vm_compute; reflexivity|].
  destruct (loop_counts_closed_cycles 4 10 _ _ H) as (new & Ht & Hc).
  exists new. split; [exact Ht|].
  change (trig_mode (ctx (bench_world 0 3 8 2 0))) with 0 in Hc.
  change (cycle_id (ctx (bench_world 0 3 8 2 0))) with 0 in Hc.
  rewrite Z.add_0_l in Hc. rewrite <- Hc. vm_compute. reflexivity.
Defined.

(** The sDCC answers the command word 1, taken here for the reset-BCID
    command. *)
Lemma start_run_dcc_outcomes_witness :
  device_start_run_dcc 4 1 10 5 (bench_world 0 3 0 2 0)
  = Done 0 (final (device_start_run_dcc 4 1 10 5 (bench_world 0 3 0 2 0))) /\
  exists polls,
    Forall (fun cr => cr.1 = SyncDccCmdMem) polls /\
    match polls with
    | [] => 1 = 14
    | (_, r) :: _ => ret_val r = 1
    end.
Proof.
  assert (H : device_start_run_dcc 4 1 10 5 (bench_world 0 3 0 2 0)
              = Done 0 (final (device_start_run_dcc 4 1 10 5
                                 (bench_world 0 3 0 2 0))))
    by (vm_compute; reflexivity).
  split; [exact H|].
  destruct (start_run_dcc_outcomes 4 1 10 5 _ _ _ H) as (polls & Hp & Hc).
  exists polls. split; [exact Hp|].
  destruct Hc as [(Hrc & _)|(_ & _ & Hm & _)]; [discriminate Hrc|exact Hm].
Defined.

(** Cancelled before the start. *)
Lemma start_run_dcc_cancelled_witness :
  (2 <= 2)%nat /\
  g_state (set_g_state 0 (bench_world 0 3 0 2 0)) = 0 /\
  exists w',
    device_start_run_dcc 4 1 2 5 (set_g_state 0 (bench_world 0 3 0 2 0))
    = Done (-1) w' /\
    calls w' = [SyncDccCmdMem; SyncDccCmdMem].
Proof.
  assert (H1 : (2 <= 2)%nat) by lia.
  assert (H2 : g_state (set_g_state 0 (bench_world 0 3 0 2 0)) = 0)
    by reflexivity.
  split; [exact H1|]. split; [exact H2|].
  destruct (start_run_dcc_cancelled 4 1 2 5 _ H1 H2) as (w' & Hs & _ & Hc).
  exists w'. split; [exact Hs|]. rewrite Hc. reflexivity.
Defined.

(** Free-running mode from start to stop, SIGINT after one cycle. *)
Lemma stop_closes_run_file_witness :
  device_start 4 1 10 5 (bench_world 1 3 31 2 0)
  = Done 0 (final (device_start 4 1 10 5 (bench_world 1 3 31 2 0))) /\
  device_loop 4 10 (final (device_start 4 1 10 5 (bench_world 1 3 31 2 0)))
  = Done tt (final (device_loop 4 10
               (final (device_start 4 1 10 5 (bench_world 1 3 31 2 0))))) /\
  exists w3,
    device_stop (final (device_loop 4 10
                   (final (device_start 4 1 10 5 (bench_world 1 3 31 2 0)))))
    = Done 0 w3 /\
    daq_file (ctx w3) = 0.
Proof.
  assert (H1 : device_start 4 1 10 5 (bench_world 1 3 31 2 0)
    = Done 0 (final (device_start 4 1 10 5 (bench_world 1 3 31 2 0))))
    by (vm_compute; reflexivity).
  assert (H2 : device_loop 4 10
                 (final (device_start 4 1 10 5 (bench_world 1 3 31 2 0)))
    = Done tt (final (device_loop 4 10
                 (final (device_start 4 1 10 5 (bench_world 1 3 31 2 0))))))
    by (vm_compute; reflexivity).
  split; [exact H1|]. split; [exact H2|].
  destruct (stop_closes_run_file 4 1 10 10 5 _ _ _ H1 H2)
    as (w3 & Hs & Hf & _).
  exists w3. split; [exact Hs|exact Hf].
Defined.

(** The PLL never locks. *)
Lemma init_fpga_timeout_budget_witness :
  (100 <= 100)%nat /\
  (forall i, (i < 100)%nat -> fpga_pll_poll (bench_world 0 3 0 2 0) i = 0) /\
  exists w',
    device_init_fpga 4 100 (bench_world 0 3 0 2 0) = Done (-1) w' /\
    length (calls w') = 203%nat.
Proof.
  assert (H1 : (100 <= 100)%nat) by lia.
  assert (H2 : forall i, (i < 100)%nat ->
                 fpga_pll_poll (bench_world 0 3 0 2 0) i = 0)
    by (intros; reflexivity).
  split; [exact H1|]. split; [exact H2|].
  destruct (init_fpga_timeout_budget 4 100 _ H1 H2) as (w' & Hs & _ & Hc).
  exists w'. split; [exact Hs|]. rewrite Hc. reflexivity.
Defined.

(** The PLL is locked at the first poll. *)
Lemma init_fpga_sequence_witness :
  (0 < 100)%nat /\ (0 <= 10)%nat /\
  (forall j, (j < 0)%nat ->
     fpga_pll_poll (lab_world (bench_device 0 3) (all_answer 1) 0) j = 0) /\
  fpga_pll_poll (lab_world (bench_device 0 3) (all_answer 1) 0) 0 <> 0 /\
  exists w',
    device_init_fpga 4 10 (lab_world (bench_device 0 3) (all_answer 1) 0)
    = Done 0 w' /\
    calls w' =
      [SyncResetFpga; Usleep 2; SyncPllLck; SyncPllLck; RfmOn 0; RfmEnable 0;
       RfmOn 1; RfmEnable 1; Sleep 1; PioCtrlGet; SyncSelectCommandDcc;
       SyncEnableDccBusy; SyncEnableDccRamfull].
Proof.
  assert (H1 : (0 < 100)%nat) by lia.
  assert (H2 : (0 <= 10)%nat) by lia.
  assert (H3 : forall j, (j < 0)%nat ->
    fpga_pll_poll (lab_world (bench_device 0 3) (all_answer 1) 0) j = 0)
    by (intros j Hj; lia).
  assert (H4 : fpga_pll_poll (lab_world (bench_device 0 3) (all_answer 1) 0) 0
               <> 0) by discriminate.
  split; [exact H1|]. split; [exact H2|]. split; [exact H3|].
  split; [exact H4|].
  destruct (init_fpga_sequence 4 10 0 _ H1 H2 H3 H4) as (w' & Hs & _ & Hc).
  exists w'. split; [exact Hs|]. rewrite Hc. vm_compute. reflexivity.
Defined.

(** No slot carries the identifier 2: [device_configure_dif] returns 1,
    and the configuration source is the database all the same. *)
Lemma configure_dif_then_init_hrsc_witness :
  device_configure_dif 4 2 "10.0.0.2" 8877
    (lab_world (lab_device 4 8) (all_answer 1) 0)
  = Done 1 (final (device_configure_dif 4 2 "10.0.0.2" 8877
                     (lab_world (lab_device 4 8) (all_answer 1) 0))) /\
  exists new,
    trace (final (device_init_hrsc 4 8
             (final (device_configure_dif 4 2 "10.0.0.2" 8877
                       (lab_world (lab_device 4 8) (all_answer 1) 0)))))
    = new ++ [] /\
    Forall (fun cr => history_call cr.1 = false) new.
Proof.
  assert (H : device_configure_dif 4 2 "10.0.0.2" 8877
                (lab_world (lab_device 4 8) (all_answer 1) 0)
              = Done 1 (final (device_configure_dif 4 2 "10.0.0.2" 8877
                         (lab_world (lab_device 4 8) (all_answer 1) 0))))
    by (vm_compute; reflexivity).
  split; [exact H|].
  destruct (configure_dif_then_init_hrsc 4 8 2 "10.0.0.2" 8877 _ _ _ H)
    as (new & Ht & Hh & _).
  exists new. split; [exact Ht|exact Hh].
Defined.

(** Four slots of eight chips, the tables of a new device. *)
Lemma init_hrsc_reads_in_bounds_witness :
  8 <= 8 /\
  Z.of_nat (length (dac_floor_table
              (ctx (lab_world (lab_device 4 8) (all_answer 1) 0))))
  = Z.of_nat 4 * 8 * 3 /\
  Z.of_nat (length (pa_gain_table
              (ctx (lab_world (lab_device 4 8) (all_answer 1) 0))))
  = Z.of_nat 4 * 8 * 64 /\
  Z.of_nat (length (mask_table
              (ctx (lab_world (lab_device 4 8) (all_answer 1) 0))))
  = Z.of_nat 4 * 8 * 64 /\
  exists rc w',
    device_init_hrsc 4 8 (lab_world (lab_device 4 8) (all_answer 1) 0)
    = Done rc w'.
Proof.
  assert (H1 : 8 <= 8) by lia.
  assert (H2 : Z.of_nat (length (dac_floor_table
                 (ctx (lab_world (lab_device 4 8) (all_answer 1) 0))))
               = Z.of_nat 4 * 8 * 3) by (vm_compute; reflexivity).
  assert (H3 : Z.of_nat (length (pa_gain_table
                 (ctx (lab_world (lab_device 4 8) (all_answer 1) 0))))
               = Z.of_nat 4 * 8 * 64) by (vm_compute; reflexivity).
  assert (H4 : Z.of_nat (length (mask_table
                 (ctx (lab_world (lab_device 4 8) (all_answer 1) 0))))
               = Z.of_nat 4 * 8 * 64) by (vm_compute; reflexivity).
  split; [exact H1|]. split; [exact H2|]. split; [exact H3|].
  split; [exact H4|].
  destruct (init_hrsc_reads_in_bounds 4 8 _ H1 H2 H3 H4) as (rc & w' & Hs & _).
  exists rc, w'. exact Hs.
Defined.

(** One slot, active; [HRSC_set_config] fails. *)
Lemma hrsc_csv_failure_leaves_file_open_witness :
  device_init_hrsc_from_csv 1 8 (lab_world (lab_device 1 8) hrsc_fails 0)
  = Done (-1) (final (device_init_hrsc_from_csv 1 8
                        (lab_world (lab_device 1 8) hrsc_fails 0))) /\
  Forall (fun cr => closes_history cr.1 = false)
    (trace (final (device_init_hrsc_from_csv 1 8
                     (lab_world (lab_device 1 8) hrsc_fails 0)))).
Proof.
  assert (H : device_init_hrsc_from_csv 1 8
                (lab_world (lab_device 1 8) hrsc_fails 0)
              = Done (-1) (final (device_init_hrsc_from_csv 1 8
                             (lab_world (lab_device 1 8) hrsc_fails 0))))
    by (vm_compute; reflexivity).
  split; [exact H|].
  destruct (hrsc_csv_failure_leaves_file_open 1 8 _ _ _ H) as (new & Ht & Hf).
  change (trace (lab_world (lab_device 1 8) hrsc_fails 0))
    with (@nil (call * reply)) in Ht.
  rewrite app_nil_r in Ht. rewrite Ht.
  apply Hf. rewrite <- Ht. vm_compute. left. reflexivity.
Defined.

(** Every call succeeds: the four slots are connected. *)
Lemma init_scks_connects_bound_slots_witness :
  length (task (ctx (bench_world 0 3 0 2 0))) = 4%nat /\
  device_init_scks 4 (bench_world 0 3 0 2 0)
  = Done 0 (final (device_init_scks 4 (bench_world 0 3 0 2 0))) /\
  exists segs,
    Forall2 sck_exchange
      (filter bound
         (task (ctx (final (device_init_scks 4 (bench_world 0 3 0 2 0))))))
      segs /\
    length segs = 4%nat.
Proof.
  assert (H1 : length (task (ctx (bench_world 0 3 0 2 0))) = 4%nat)
    by reflexivity.
  assert (H2 : device_init_scks 4 (bench_world 0 3 0 2 0)
               = Done 0 (final (device_init_scks 4 (bench_world 0 3 0 2 0))))
    by (vm_compute; reflexivity).
  split; [exact H1|]. split; [exact H2|].
  destruct (init_scks_connects_bound_slots 4 _ _ _ H1 H2) as (_ & _ & Hs).
  destruct (Hs eq_refl) as (segs & Hf & _).
  exists segs. split; [exact Hf|].
  apply Forall2_length in Hf. rewrite <- Hf. vm_compute. reflexivity.
Defined.

(** The bench: the mapping on descriptor 3, the run file 7, the sockets
    10 to 13. *)
Lemma free_releases_what_is_held_witness :
  length (task (ctx (bench_world 0 3 0 2 0))) = 4%nat /\
  exists w',
    device_free 4 (bench_world 0 3 0 2 0) = Done tt w' /\
    calls w' =
      [MunmapLwH2f 3; MunmapH2f 3; Close 3; Fclose 7;
       Close 10; Close 11; Close 12; Close 13].
Proof.
  assert (H : length (task (ctx (bench_world 0 3 0 2 0))) = 4%nat)
    by reflexivity.
  split; [exact H|].
  destruct (free_releases_what_is_held 4 _ H) as (w' & Hs & _ & Hc).
  exists w'. split; [exact Hs|]. rewrite Hc. vm_compute. reflexivity.
Defined.

(** Slot 2 booted with shaper value 5 on a device that has none yet. *)
Lemma boot_rfm_success_witness :
  0 <= 2 < 32 /\
  task_at (bench_world 0 3 0 2 0) 2 = Some (bench_task 3 12) /\
  exists w',
    device_boot_rfm 9 2 5 1 (bench_world 0 3 0 2 0) = Done 0 w' /\
    rshaper (ctx w') = 5 /\ trig_mode (ctx w') = 1 /\
    rfm_active (ctx w') 2 = true.
Proof.
  assert (H1 : 0 <= 2 < 32) by lia.
  assert (H2 : task_at (bench_world 0 3 0 2 0) 2 = Some (bench_task 3 12))
    by reflexivity.
  split; [exact H1|]. split; [exact H2|].
  destruct (boot_rfm_success 9 2 5 1 _ _ H1 H2)
    as (rc & w' & Hs & Hrc & Hok & _ & Hbits & _).
  assert (rc = 0) as -> by (apply Hrc; left; reflexivity).
  destruct (Hok eq_refl) as [Hr Ht].
  exists w'. split; [exact Hs|]. split; [exact Hr|]. split; [exact Ht|].
  rewrite Hbits by lia. vm_compute. reflexivity.
Defined.

(** X4, on the bench: slot 2 booted with shaper value 5, then slot 3 with
    6, slot 0 with 5 and slot 1 with 7. *)
Lemma boot_rfm_shaper_shared_witness :
  0 <= 2 /\
  task_at (bench_world 0 3 0 2 0) 2 = Some (bench_task 3 12) /\
  5 <> 0 /\
  device_boot_rfm 9 2 5 1 (bench_world 0 3 0 2 0)
  = Done 0 (final (device_boot_rfm 9 2 5 1 (bench_world 0 3 0 2 0))) /\
  Forall (fun r => 0 <= r.1.1.2
                   < Z.of_nat (length (task (ctx (bench_world 0 3 0 2 0)))))
    [(8, 3, 6, 1); (7, 0, 5, 0); (6, 1, 7, 1)] /\
  exists w2,
    boot_rfms [(8, 3, 6, 1); (7, 0, 5, 0); (6, 1, 7, 1)]
      (final (device_boot_rfm 9 2 5 1 (bench_world 0 3 0 2 0)))
    = Done [-1; 0; -1] w2.
Proof.
  assert (H1 : 0 <= 2) by lia.
  assert (H2 : task_at (bench_world 0 3 0 2 0) 2 = Some (bench_task 3 12))
    by reflexivity.
  assert (H3 : 5 <> 0) by lia.
  assert (H4 : device_boot_rfm 9 2 5 1 (bench_world 0 3 0 2 0)
               = Done 0 (final (device_boot_rfm 9 2 5 1
                                  (bench_world 0 3 0 2 0))))
    by (vm_compute; reflexivity).
  assert (H5 : Forall (fun r => 0 <= r.1.1.2
                 < Z.of_nat (length (task (ctx (bench_world 0 3 0 2 0)))))
                 [(8, 3, 6, 1); (7, 0, 5, 0); (6, 1, 7, 1)])
    by (repeat constructor; simpl; lia).
  split; [exact H1|]. split; [exact H2|]. split; [exact H3|].
  split; [exact H4|]. split; [exact H5|].
  destruct (boot_rfm_shaper_shared 9 2 5 1 _ _ _ _ H1 H2 H3 H4 H5)
    as (w2 & Hs & _).
  exists w2. exact Hs.
Defined.

(** Slot 2 booted with the identifier 9, then given an address. *)
Lemma configure_dif_after_boot_witness :
  length (task (ctx (bench_world 0 3 0 2 0))) = 4%nat /\
  0 <= 2 < Z.of_nat 4 /\
  device_boot_rfm 9 2 5 1 (bench_world 0 3 0 2 0)
  = Done 0 (final (device_boot_rfm 9 2 5 1 (bench_world 0 3 0 2 0))) /\
  exists i w2,
    device_configure_dif 4 9 "10.0.0.9" 8877
      (final (device_boot_rfm 9 2 5 1 (bench_world 0 3 0 2 0)))
    = Done 0 w2 /\
    (i <= 2)%nat /\
    t_port <$> task (ctx w2) !! i = Some 8877.
Proof.
  assert (H1 : length (task (ctx (bench_world 0 3 0 2 0))) = 4%nat)
    by reflexivity.
  assert (H2 : 0 <= 2 < Z.of_nat 4) by (simpl; lia).
  assert (H3 : device_boot_rfm 9 2 5 1 (bench_world 0 3 0 2 0)
               = Done 0 (final (device_boot_rfm 9 2 5 1
                                  (bench_world 0 3 0 2 0))))
    by (vm_compute; reflexivity).
  split; [exact H1|]. split; [exact H2|]. split; [exact H3|].
  destruct (configure_dif_after_boot 4 9 2 5 1 "10.0.0.9" 8877 _ _ _ H1 H2 H3)
    as (i & ti & w2 & Hs & Hi & _ & _ & _ & Hb & _).
  exists i, w2. split; [exact Hs|]. split; [exact Hi|].
  rewrite Hb. reflexivity.
Defined.

(** Every call answers 0, except that [fopen] gives the stream 5. *)
Lemma configure_succeeds_on_good_answers_witness :
  (forall t, ret_val (h_env (lab_host (zero_device 4 8) files_open) t
                        SystemScpBase) = 0) /\
  (forall t f, ret_val (h_env (lab_host (zero_device 4 8) files_open) t
                          (FopenConf f)) <> 0) /\
  (forall t c, reads c ->
     0 <= ret_val (h_env (lab_host (zero_device 4 8) files_open) t c)) /\
  (device_configure 30 5 15 "10.0.0.1" 42
     (lab_host (zero_device 4 8) files_open)).1 = 0.
Proof.
  assert (H1 : forall t, ret_val (h_env (lab_host (zero_device 4 8) files_open)
                                   t SystemScpBase) = 0)
    by (intros t; reflexivity).
  assert (H2 : forall t f, ret_val (h_env (lab_host (zero_device 4 8)
                                             files_open) t (FopenConf f)) <> 0)
    by (intros t f; simpl; lia).
  assert (H3 : forall t c, reads c ->
            0 <= ret_val (h_env (lab_host (zero_device 4 8) files_open) t c))
    by (intros t c _; destruct c; simpl; lia).
  split; [exact H1|]. split; [exact H2|]. split; [exact H3|].
  exact (configure_succeeds_on_good_answers 30 5 15 "10.0.0.1" 42 _ H1 H2 H3).
Defined.
